(** * Modeling publisher (Maya): a shallow embedding of [publishing.py]

    The development follows the source file top to bottom:
    - [PyStr]     : the Python string operations the publisher uses;
    - [PosixPath] : the parts of [pathlib] / [os.path] it calls (POSIX flavour);
    - [FileSys]   : a small model of the directory tree behind [os.makedirs]
                    and [open(..., "w")];
    - [Fmt], [Json] : [%032x], [strftime] and [json.dump(..., indent=4)];
    - [Publisher] : the classes [MyPublisher] and [ModelPublisher], as
                    state-passing code in an exception monad;
    - [Report]    : what the validators report, as functions of the
                    selection, and [Demo], the worked examples.

    The properties follow the definitions, one section per stage.

    Strings are sequences of code points below 256 ([string] of the
    Standard Library); the transform tolerances are IEEE binary64 values
    ([PrimFloat]), as in CPython. *)

From Stdlib Require Import List String Ascii Bool Arith ZArith NArith Lia.
From Stdlib Require Import Floats DecimalString.
Import ListNotations.
Local Open Scope string_scope.
Local Open Scope list_scope.

(* ================================================================== *)
(** ** Python string operations *)

Module PyStr.

(** [s.split(c)] for a one-character separator: never the empty list. *)
Fixpoint split (c : ascii) (s : string) : list string :=
  match s with
  | EmptyString => [EmptyString]
  | String a s' =>
      if Ascii.eqb a c then EmptyString :: split c s'
      else match split c s' with
           | h :: t => String a h :: t
           | [] => [String a EmptyString]
           end
  end.

(** [l[-1]] and [l[0]] on the result of a split (which is never empty). *)
Definition last_item (l : list string) : string := List.last l EmptyString.
Definition first_item (l : list string) : string := List.hd EmptyString l.

(** [c in s]. *)
Fixpoint contains (c : ascii) (s : string) : bool :=
  match s with
  | EmptyString => false
  | String a s' => Ascii.eqb a c || contains c s'
  end.

(** [s.startswith(c)] and [s.endswith(c)] for a one-character argument. *)
Definition startswith (c : ascii) (s : string) : bool :=
  match s with
  | String a _ => Ascii.eqb a c
  | EmptyString => false
  end.

Fixpoint endswith (c : ascii) (s : string) : bool :=
  match s with
  | EmptyString => false
  | String a EmptyString => Ascii.eqb a c
  | String _ s' => endswith c s'
  end.

(** [sep.join(l)]. *)
Fixpoint join (sep : string) (l : list string) : string :=
  match l with
  | [] => EmptyString
  | [x] => x
  | x :: rest => x ++ sep ++ join sep rest
  end.

(** [s.upper()] on the ASCII letters. *)
Definition upper_char (a : ascii) : ascii :=
  let n := nat_of_ascii a in
  if Nat.leb 97 n && Nat.leb n 122 then ascii_of_nat (n - 32) else a.

Fixpoint upper (s : string) : string :=
  match s with
  | EmptyString => EmptyString
  | String a s' => String (upper_char a) (upper s')
  end.

(** [s[:n]]. *)
Fixpoint take (n : nat) (s : string) : string :=
  match n, s with
  | S n', String a s' => String a (take n' s')
  | _, _ => EmptyString
  end.

(** Every character of [s] satisfies [p]. *)
Fixpoint all_chars (p : ascii -> bool) (s : string) : bool :=
  match s with
  | EmptyString => true
  | String a s' => p a && all_chars p s'
  end.

End PyStr.

(* ================================================================== *)
(** ** [pathlib.PurePosixPath] and [os.path] (posixpath) *)

Module PosixPath.
Import PyStr.

Definition slash : ascii := "/"%char.
Definition dot : ascii := "."%char.

(** A parsed pure path: the root ([""], ["/"] or ["//"]) and the
    components after it.  CPython keeps the root as the first element of
    [_parts]; here it is a field of its own. *)
Record PurePath : Type := mkPath { root : string; parts : list string }.

(** [posixpath.splitroot]: exactly two leading slashes are kept as the
    root ["//"], any other positive number collapses to ["/"]. *)
Definition parse_root (s : string) : string :=
  match s with
  | String a (String b (String c _)) =>
      if Ascii.eqb a slash then
        if Ascii.eqb b slash then
          if Ascii.eqb c slash then "/" else "//"
        else "/"
      else ""
  | String a (String b EmptyString) =>
      if Ascii.eqb a slash then
        if Ascii.eqb b slash then "//" else "/"
      else ""
  | String a EmptyString => if Ascii.eqb a slash then "/" else ""
  | EmptyString => ""
  end.

(** Components that survive parsing: empty ones and ["."] are dropped,
    [".."] is kept. *)
Definition keep_part (x : string) : bool :=
  negb (String.eqb x "") && negb (String.eqb x ".").

(** [pathlib.PurePosixPath(s)]. *)
Definition Path (s : string) : PurePath :=
  mkPath (parse_root s) (filter keep_part (split slash s)).

(** [str(p)]. *)
Definition to_str (p : PurePath) : string :=
  match root p, parts p with
  | EmptyString, [] => "."
  | r, ps => r ++ join "/" ps
  end.

(** [p.parents[i]]: [None] stands for the [IndexError] of an index out of
    range.  [len(p.parents)] is the number of components. *)
Definition parents (p : PurePath) (i : nat) : option PurePath :=
  let n := List.length (parts p) in
  if Nat.ltb i n then Some (mkPath (root p) (firstn (n - S i) (parts p)))
  else None.

(** [p.name]. *)
Definition name (p : PurePath) : string := last_item (parts p).

(** [s.rfind(".")] as the pair (text before the last dot, text from the
    last dot on); [None] when [s] has no dot. *)
Fixpoint rsplit_dot (s : string) : option (string * string) :=
  match s with
  | EmptyString => None
  | String a s' =>
      match rsplit_dot s' with
      | Some (pre, suf) => Some (String a pre, suf)
      | None => if Ascii.eqb a dot then Some (EmptyString, s) else None
      end
  end.

(** [p.suffix] together with the stem: the suffix starts at the last dot
    of the name, provided that dot is neither the first nor the last
    character ([0 < i < len(name) - 1]). *)
Definition split_suffix (nm : string) : string * string :=
  match rsplit_dot nm with
  | Some (pre, suf) =>
      if Nat.ltb 0 (String.length pre) && Nat.ltb 1 (String.length suf)
      then (pre, suf) else (nm, EmptyString)
  | None => (nm, EmptyString)
  end.

Definition suffix (p : PurePath) : string := snd (split_suffix (name p)).

(** [p.with_suffix("")]: [None] stands for the [ValueError] raised when
    the path has an empty name. *)
Definition with_suffix_empty (p : PurePath) : option PurePath :=
  if String.eqb (name p) "" then None
  else Some (mkPath (root p)
                    (removelast (parts p) ++ [fst (split_suffix (name p))])).

(** [os.path.basename(s)]: the text after the last slash. *)
Definition basename (s : string) : string := last_item (split slash s).

(** [os.path.join(a, b)] (two arguments). *)
Definition join2 (a b : string) : string :=
  if startswith slash b then b
  else if String.eqb a "" || endswith slash a then a ++ b
  else a ++ "/" ++ b.

End PosixPath.

(* ================================================================== *)
(** ** The directory tree behind [os.makedirs] and [open(path, "w")] *)

Module FileSys.
Import PyStr PosixPath.

(** A location is the list of components below the file-system root. *)
Definition loc := list string.

Fixpoint loc_eqb (a b : loc) : bool :=
  match a, b with
  | [], [] => true
  | x :: a', y :: b' => String.eqb x y && loc_eqb a' b'
  | _, _ => false
  end.

(** The directories that exist (the root always does) and the regular
    files with their contents. *)
Record FS : Type := mkFS { dirs : list loc; files : list (loc * string) }.

Definition is_dir (k : loc) (fs : FS) : bool :=
  match k with
  | [] => true
  | _ => existsb (loc_eqb k) (dirs fs)
  end.

Definition is_file (k : loc) (fs : FS) : bool :=
  existsb (fun kv => loc_eqb k (fst kv)) (files fs).

(** Path resolution as the kernel does it on a tree without symbolic
    links: relative paths start at the working directory, [".."] steps
    up (and stays at the root). *)
Definition step (acc : loc) (c : string) : loc :=
  if String.eqb c ".." then removelast acc else acc ++ [c].

Definition resolve (cwd : loc) (p : PurePath) : loc :=
  fold_left step (parts p)
            (if String.eqb (root p) "" then cwd else []).

(** Create every missing directory on the way from [pre] down through
    [rest]; [None] when a regular file is in the way. *)
Fixpoint mkdir_chain (pre : loc) (rest : list string) (fs : FS)
  : option FS :=
  match rest with
  | [] => Some fs
  | c :: rest' =>
      let d := pre ++ [c] in
      if is_file d fs then None
      else mkdir_chain d rest'
             (if is_dir d fs then fs else mkFS (d :: dirs fs) (files fs))
  end.

(** [os.makedirs(name, exist_ok=True)]: [None] stands for the [OSError]
    raised for an empty name or when a component is a regular file.  A
    directory that already exists is not an error. *)
Definition makedirs_exist_ok (cwd : loc) (name : string) (fs : FS)
  : option FS :=
  if String.eqb name "" then None
  else mkdir_chain [] (resolve cwd (Path name)) fs.

(** [with open(path, "w") as f: f.write(content)]: the parent must be a
    directory and the target must not be one; an existing file is
    replaced.  [None] stands for the [OSError]. *)
Definition write_file (cwd : loc) (path content : string) (fs : FS)
  : option FS :=
  let k := resolve cwd (Path path) in
  if String.eqb path "" || endswith slash path then None
  else if is_dir k fs then None
  else if is_dir (removelast k) fs && negb (is_file (removelast k) fs) then
    Some (mkFS (dirs fs)
               ((k, content)
                  :: filter (fun kv => negb (loc_eqb k (fst kv))) (files fs)))
  else None.

(** [open(path).read()]. *)
Definition read_file (cwd : loc) (path : string) (fs : FS) : option string :=
  option_map snd
    (find (fun kv => loc_eqb (resolve cwd (Path path)) (fst kv)) (files fs)).

End FileSys.

(* ================================================================== *)
(** ** Number formatting: [%032x], [strftime] fields *)

Module Fmt.

Definition digit_char (d : nat) : ascii := ascii_of_nat (48 + d).

(** Lower-case hexadecimal digit of a value below 16. *)
Definition hex_char (d : nat) : ascii :=
  if Nat.ltb d 10 then ascii_of_nat (48 + d) else ascii_of_nat (87 + d).

(** The [w] low-order digits of [n] in base [b], most significant first:
    the zero-padded rendering of any [n < b ^ w]. *)
Fixpoint fixed_width (b : N) (ch : nat -> ascii) (w : nat) (n : N)
  : string :=
  match w with
  | O => EmptyString
  | S w' =>
      fixed_width b ch w' (n / b)%N ++ String (ch (N.to_nat (n mod b)%N)) ""
  end.

(** ['%032x' % n], the [hex] attribute of a UUID with integer value [n]. *)
Definition hex32 (n : N) : string := fixed_width 16 hex_char 32 n.

(** A zero-padded decimal field of [strftime]. *)
Definition dec (w : nat) (n : N) : string := fixed_width 10 digit_char w n.

(** The value a string of decimal digits denotes. *)
Fixpoint dec_value_acc (acc : N) (s : string) : N :=
  match s with
  | EmptyString => acc
  | String a s' => dec_value_acc (10 * acc + (N_of_ascii a - 48))%N s'
  end.

Definition dec_value (s : string) : N := dec_value_acc 0%N s.

Definition is_digit (a : ascii) : bool :=
  let n := nat_of_ascii a in Nat.leb 48 n && Nat.leb n 57.

(** The character class [[0-9A-F]]. *)
Definition is_upper_hex (a : ascii) : bool :=
  let n := nat_of_ascii a in
  (Nat.leb 48 n && Nat.leb n 57) || (Nat.leb 65 n && Nat.leb n 70).

(** [datetime.datetime]: the fields the format string reads. *)
Record datetime : Type := mkDate {
  year : N; month : N; day : N;
  hour : N; minute : N; second : N
}.

(** The ranges [datetime] enforces on its fields. *)
Definition valid_datetime (d : datetime) : Prop :=
  (1 <= year d <= 9999 /\ 1 <= month d <= 12 /\ 1 <= day d <= 31 /\
   hour d <= 23 /\ minute d <= 59 /\ second d <= 59)%N.

(** [d.strftime("%Y%m%d-%H%M%S")]. *)
Definition strftime_Ymd_HMS (d : datetime) : string :=
  dec 4 (year d) ++ dec 2 (month d) ++ dec 2 (day d) ++ "-" ++
  dec 2 (hour d) ++ dec 2 (minute d) ++ dec 2 (second d).

End Fmt.

(* ================================================================== *)
(** ** [json.dump(obj, f, indent=4)] *)

Module Json.
Import PyStr Fmt.
Local Open Scope string_scope.

#[local] Unset Elimination Schemes.
Inductive json : Type :=
  | JNull
  | JInt (z : Z)
  | JStr (s : string)
  | JList (l : list json)
  | JDict (items : list (string * json)).
#[local] Set Elimination Schemes.

Definition dquote : ascii := ascii_of_nat 34.
Definition backslash : ascii := ascii_of_nat 92.
Definition newline : ascii := ascii_of_nat 10.

(** One character under [ensure_ascii=True]: printable ASCII is kept,
    the quote and the backslash are escaped, the usual control characters
    have short escapes, everything else becomes a [\uXXXX] escape. *)
Definition escape_char (a : ascii) : string :=
  let n := nat_of_ascii a in
  if Nat.eqb n 34 then String backslash (String dquote "")
  else if Nat.eqb n 92 then String backslash (String backslash "")
  else if Nat.eqb n 10 then String backslash "n"
  else if Nat.eqb n 13 then String backslash "r"
  else if Nat.eqb n 9 then String backslash "t"
  else if Nat.eqb n 12 then String backslash "f"
  else if Nat.eqb n 8 then String backslash "b"
  else if Nat.leb 32 n && Nat.leb n 126 then String a ""
  else String backslash "u" ++ fixed_width 16 hex_char 4 (N.of_nat n).

Fixpoint escape (s : string) : string :=
  match s with
  | EmptyString => EmptyString
  | String a s' => escape_char a ++ escape s'
  end.

(** [encode_basestring_ascii]. *)
Definition quote (s : string) : string :=
  String dquote (escape s) ++ String dquote "".

Fixpoint spaces (n : nat) : string :=
  match n with
  | O => EmptyString
  | S n' => String " " (spaces n')
  end.

(** ['\n' + ' ' * (indent * level)]. *)
Definition newline_indent (indent level : nat) : string :=
  String newline (spaces (indent * level)).

(** The encoder with an integer [indent]: the item separator is [","]
    followed by the newline and indentation, the key separator [": "]. *)
Fixpoint encode (indent level : nat) (j : json) : string :=
  match j with
  | JNull => "null"
  | JInt z => NilZero.string_of_int (Z.to_int z)
  | JStr s => quote s
  | JList [] => "[]"
  | JList l =>
      "[" ++ newline_indent indent (S level) ++
      (fix items (l : list json) : string :=
         match l with
         | [] => ""
         | [x] => encode indent (S level) x
         | x :: rest =>
             encode indent (S level) x ++ "," ++
             newline_indent indent (S level) ++ items rest
         end) l ++
      newline_indent indent level ++ "]"
  | JDict [] => "{}"
  | JDict d =>
      "{" ++ newline_indent indent (S level) ++
      (fix items (d : list (string * json)) : string :=
         match d with
         | [] => ""
         | [(k, v)] => quote k ++ ": " ++ encode indent (S level) v
         | (k, v) :: rest =>
             quote k ++ ": " ++ encode indent (S level) v ++ "," ++
             newline_indent indent (S level) ++ items rest
         end) d ++
      newline_indent indent level ++ "}"
  end.

(** [json.dumps(obj, indent=4)]. *)
Definition dumps_indent4 (j : json) : string := encode 4 0 j.

End Json.

(* ================================================================== *)
(** ** The publisher classes *)

Module Publisher.
Import PyStr PosixPath FileSys Fmt Json.
Local Open Scope string_scope.
#[local] Set Warnings "-inexact-float".

(** *** Exceptions *)

(** The members of [requests.exceptions.RequestException] a POST can
    raise, [raise_for_status] included. *)
Inductive request_exception : Type :=
  | ConnectionError
  | Timeout
  | HTTPError (status : N)
  | MissingSchema
  | InvalidURL.

(** The messages [PublishError] is raised with, one constructor per
    [raise] statement; the offender lists are kept as lists. *)
Inductive issue : Type :=
  | NoSelection
  | WrongFileName (scene : string)
  | NamingStandard (wrong_names : list string)
  | NgonsAt (ngons : list string)
  | OverlappingFaces (lamina_objs : list string)
  | TransformsNotFrozen (bad_transforms : list string)
  | StillHistory (bad_obj : list string)
  | NoUVs (obj : string).

Inductive exn : Type :=
  | PublishError (i : issue)
  | TypeError
  | AttributeError (attr : string)
  | IndexError
  | ValueError
  | OSError
  | RuntimeError
  | RequestException (e : request_exception).

(** *** The collaborators *)

Inductive channel : Type := translate | rotate | scale.

Definition float3 : Type := float * float * float.

(** What a [maya.cmds] query that lists things returns: [None] or a list. *)
Definition pylist : Type := option (list string).

(** Python truth value of such a result. *)
Definition truthy (r : pylist) : bool :=
  match r with
  | Some (_ :: _) => true
  | _ => false
  end.

(** The scene as the publisher sees it through [maya.cmds]. *)
Record Maya : Type := mkMaya {
  file_exn : string;                        (* file(query=True, exn=True) *)
  file_sn : string;                         (* file(q=True, sn=True) *)
  ls_dag_mesh : list string -> list string; (* ls(sel, dag=True, type="mesh", long=True) *)
  constrained_sl : list string -> pylist;   (* ls(sl=True) under the n-gon constraint *)
  polyInfo_laminaFaces : string -> pylist;
  getAttr : string -> channel -> float3;
  listHistory_pdo : string -> pylist;       (* listHistory(obj, pruneDagObjects=True) *)
  polyEvaluate_uv : string -> Z;
  export_ok : string -> string -> bool      (* file(path, type=..., pr=True, es=True) *)
}.

(** The machine: working directory, user, environment, clock, random
    source and the HTTP transport. *)
Record Host : Type := mkHost {
  cwd : loc;
  getuser : string;
  PIPELINE_DISCORD_BOT : option string;
  post : option string -> json -> option request_exception;
  now : datetime;
  uuid4 : N
}.

(** *** The object and the world it acts on *)

Inductive class : Type := MyPublisher | ModelPublisher.

(** The instance attributes; those assigned outside [__init__] are unset
    until the method that assigns them has run. *)
Record Self : Type := mkSelf {
  cls : class;
  sel : list string;
  publish_api : string;
  prefix : string;
  obj_path : string;
  scene : option string;
  scene_name : option string;
  version : option string;
  user : option string
}.

(** The calls made to [maya.cmds], in order. *)
Inductive cmd : Type :=
  | c_file_exn
  | c_file_sn
  | c_select (l : list string)
  | c_ls_dag_mesh (l : list string)
  | c_polySelectConstraint (mode type size : N)
  | c_ls_sl
  | c_polySelectConstraint_disable
  | c_polyInfo_laminaFaces (obj : string)
  | c_getAttr (obj : string) (a : channel)
  | c_listHistory (obj : string)
  | c_polyEvaluate_uv (obj : string)
  | c_file_export (path type : string)
  | c_inViewMessage (amg : string)
  | c_warning_publish_failed (e : exn)
  | c_warning_critical (e : exn).

(** The lines printed, one constructor per [print] statement. *)
Inductive line : Type :=
  | StartingPublishing
  | SuccessfullyExported
  | PublishFailed (e : exn)
  | CriticalError (e : exn)
  | CollectingDone (scene : string)
  | StartingModelingValidation
  | VerifyingDone
  | StartingExport
  | ExportDone
  | DiscordSent
  | DiscordFailed (e : request_exception)
  | CsvPrinting
  | DoneCsv.

Record State : Type := mkState {
  self : Self;
  disk : FS;
  stdout : list line;
  cmds_log : list cmd;
  posted : list (option string * json)
}.

(** *** The exception and state monad *)

Inductive result (A : Type) : Type :=
  | Ok (a : A)
  | Raise (e : exn).
Arguments Ok {A} a.
Arguments Raise {A} e.

Definition M (A : Type) : Type := State -> result A * State.

Definition ret {A} (a : A) : M A := fun st => (Ok a, st).

Definition raise {A} (e : exn) : M A := fun st => (Raise e, st).

Definition bind {A B} (m : M A) (k : A -> M B) : M B :=
  fun st =>
    match m st with
    | (Ok a, st') => k a st'
    | (Raise e, st') => (Raise e, st')
    end.

(** [try: body except ...]: [handler e] is the clause that matches [e],
    [None] when no clause does and [e] propagates. *)
Definition try_except {A} (body : M A) (handler : exn -> option (M A))
  : M A :=
  fun st =>
    match body st with
    | (Ok a, st') => (Ok a, st')
    | (Raise e, st') =>
        match handler e with
        | Some h => h st'
        | None => (Raise e, st')
        end
    end.

Declare Scope py_scope.
Delimit Scope py_scope with py.
Notation "x <- m ;; k" := (bind m (fun x => k))
  (at level 61, m at next level, right associativity) : py_scope.
Notation "m ;; k" := (bind m (fun _ => k))
  (at level 61, right associativity) : py_scope.
Local Open Scope py_scope.

Definition get_self : M Self := fun st => (Ok (self st), st).

Definition set_self (f : Self -> Self) : M unit :=
  fun st => (Ok tt, mkState (f (self st)) (disk st) (stdout st)
                            (cmds_log st) (posted st)).

Definition print (l : line) : M unit :=
  fun st => (Ok tt, mkState (self st) (disk st) (stdout st ++ [l])%list
                            (cmds_log st) (posted st)).

Definition cmds (c : cmd) : M unit :=
  fun st => (Ok tt, mkState (self st) (disk st) (stdout st)
                            (cmds_log st ++ [c])%list (posted st)).

(** Reading an attribute that may not have been assigned yet. *)
Definition getattr (name : string) (field : Self -> option string)
  : M string :=
  s <- get_self ;;
  match field s with
  | Some v => ret v
  | None => raise (AttributeError name)
  end.

(** An operation on the disk that raises [OSError] when it fails. *)
Definition on_disk (op : FS -> option FS) : M unit :=
  fun st =>
    match op (disk st) with
    | Some fs => (Ok tt, mkState (self st) fs (stdout st)
                                 (cmds_log st) (posted st))
    | None => (Raise OSError, st)
    end.

(** A [for] loop threading the local variables [acc] through its body. *)
Fixpoint for_each {A B} (l : list A) (acc : B) (body : B -> A -> M B)
  : M B :=
  match l with
  | [] => ret acc
  | x :: rest => acc' <- body acc x ;; for_each rest acc' body
  end.

(** What a method returns: [None] or [True]. *)
Inductive pyret : Type := PyNone | PyTrue.

Definition set_prefix (v : string) (s : Self) : Self :=
  mkSelf (cls s) (sel s) (publish_api s) v (obj_path s) (scene s)
         (scene_name s) (version s) (user s).
Definition set_obj_path (v : string) (s : Self) : Self :=
  mkSelf (cls s) (sel s) (publish_api s) (prefix s) v (scene s)
         (scene_name s) (version s) (user s).
Definition set_scene (v : string) (s : Self) : Self :=
  mkSelf (cls s) (sel s) (publish_api s) (prefix s) (obj_path s) (Some v)
         (scene_name s) (version s) (user s).
Definition set_scene_name (v : string) (s : Self) : Self :=
  mkSelf (cls s) (sel s) (publish_api s) (prefix s) (obj_path s) (scene s)
         (Some v) (version s) (user s).
Definition set_version (v : string) (s : Self) : Self :=
  mkSelf (cls s) (sel s) (publish_api s) (prefix s) (obj_path s) (scene s)
         (scene_name s) (Some v) (user s).
Definition set_user (v : string) (s : Self) : Self :=
  mkSelf (cls s) (sel s) (publish_api s) (prefix s) (obj_path s) (scene s)
         (scene_name s) (version s) (Some v).

(** [MyPublisher.__init__(selection, shotgrid_api, prefix="geo")]; the
    subclass inherits it.  [None] for [prefix] is the omitted argument. *)
Definition init (c : class) (selection : list string) (shotgrid_api : string)
    (prefix : option string) : Self :=
  mkSelf c selection shotgrid_api
         (match prefix with Some p => p | None => "geo" end)
         "" None None None None.

Section Methods.

Variable maya : Maya.
Variable host : Host.

(** *** class MyPublisher *)

(** [collect_assets(self)]. *)
Definition collect_assets : M pyret :=
  s <- get_self ;;
  match sel s with
  | [] => raise (PublishError NoSelection)
  | _ :: _ =>
      cmds c_file_exn ;;
      let name := file_exn maya in
      set_self (set_scene (last_item (split "/" name))) ;;
      scene1 <- getattr "scene" scene ;;
      print (CollectingDone scene1) ;;
      ret PyTrue
  end.

(** [len(x) not in length] with [length = [3, 4]]. *)
Definition not_in_length (n : nat) : bool :=
  negb (Nat.eqb n 3 || Nat.eqb n 4).

(** The body of the loop over the selection in [verify_assets]. *)
Definition naming_body (prefix : string) (wrong_names : list string)
    (obj : string) : list string :=
  let node_name := last_item (split "|" obj) in
  let parts := split "_" node_name in
  let wrong_names :=
    if not_in_length (List.length parts) then (wrong_names ++ [obj])%list
    else wrong_names in
  if negb (String.eqb (first_item parts) prefix)
  then (wrong_names ++ [obj])%list
  else wrong_names.

(** [MyPublisher.verify_assets(self, prefix)]. *)
Definition My_verify_assets (prefix : string) : M pyret :=
  scene1 <- getattr "scene" scene ;;
  let scene_length := split "_" scene1 in
  if not_in_length (List.length scene_length) then
    raise (PublishError (WrongFileName scene1))
  else
    s <- get_self ;;
    let wrong_names := fold_left (naming_body prefix) (sel s) [] in
    match wrong_names with
    | _ :: _ => raise (PublishError (NamingStandard wrong_names))
    | [] => ret PyTrue
    end.

(** [MyPublisher.extract_assets(self)] and [implement_assets(self)]. *)
Definition My_extract_assets : M pyret := ret PyNone.
Definition My_implement_assets : M pyret := ret PyNone.

Definition green_color : Z := 5763719.

(** The message of [discord_notification]; the description is a
    triple-quoted f-string that runs over two source lines. *)
Definition discord_message (asset_name version department user : string)
  : json :=
  JDict
    [("username", JStr "Pipeline Bot");
     ("embeds",
      JList
        [JDict
           [("title", JStr "Asset Published Successfully.");
            ("description",
             JStr (asset_name ++ " version: " ++ version ++ " for " ++
                   department ++ " " ++ String newline (spaces 36) ++
                   "has been successfully exported by " ++ user ++ "."));
            ("color", JInt green_color)]])].

(** [response = requests.post(bot_url, json=message)] followed by
    [response.raise_for_status()]. *)
Definition requests_post (bot_url : option string) (message : json)
  : M unit :=
  fun st =>
    let st' := mkState (self st) (disk st) (stdout st) (cmds_log st)
                       (posted st ++ [(bot_url, message)])%list in
    match post host bot_url message with
    | None => (Ok tt, st')
    | Some e => (Raise (RequestException e), st')
    end.

(** [discord_notification(self, asset_name, version, department, bot_url)]. *)
Definition discord_notification (asset_name version department : string)
    (bot_url : option string) : M json :=
  set_self (set_user (getuser host)) ;;
  user1 <- getattr "user" user ;;
  let message := discord_message asset_name version department user1 in
  try_except
    (requests_post bot_url message ;;
     print DiscordSent)
    (fun e =>
       match e with
       | RequestException e => Some (print (DiscordFailed e))
       | _ => None
       end) ;;
  ret message.

(** [csv_publisher(self, asset_data)]. *)
Definition sidecar_path (obj_path : string) : option string :=
  option_map (fun p => to_str p ++ "_metadata.json")
             (with_suffix_empty (Path obj_path)).

Definition csv_publisher (asset_data : json) : M json :=
  s <- get_self ;;
  match sidecar_path (obj_path s) with
  | None => raise ValueError
  | Some db_path =>
      on_disk (write_file (cwd host) db_path (dumps_indent4 asset_data)) ;;
      ret asset_data
  end.

(** *** class ModelPublisher(MyPublisher) *)

(** [check_topology(self)]. *)
Definition check_topology : M unit :=
  s <- get_self ;;
  cmds (c_select (sel s)) ;;
  cmds (c_ls_dag_mesh (sel s)) ;;
  let meshes := ls_dag_mesh maya (sel s) in
  cmds (c_select meshes) ;;
  cmds (c_polySelectConstraint 3 8 3) ;;
  cmds c_ls_sl ;;
  let ngons := constrained_sl maya meshes in
  cmds c_polySelectConstraint_disable ;;
  if truthy ngons then
    raise (PublishError (NgonsAt (match ngons with Some l => l | None => [] end)))
  else
    lamina_objs <-
      for_each meshes ([] : list string)
        (fun lamina_objs obj =>
           cmds (c_polyInfo_laminaFaces obj) ;;
           let lamina := polyInfo_laminaFaces maya obj in
           if truthy lamina then ret (lamina_objs ++ [obj])%list
           else ret lamina_objs) ;;
    match lamina_objs with
    | _ :: _ => raise (PublishError (OverlappingFaces lamina_objs))
    | [] => ret tt
    end.

(** [abs(x) > 0.001]. *)
Definition off_zero (x : float) : bool :=
  PrimFloat.ltb 0.001%float (PrimFloat.abs x).

(** [abs(x - 1.0) > 0.001]. *)
Definition off_one (x : float) : bool :=
  PrimFloat.ltb 0.001%float (PrimFloat.abs (PrimFloat.sub x 1.0%float)).

Definition any3 (p : float -> bool) (v : float3) : bool :=
  let '(x, y, z) := v in p x || p y || p z.

(** [check_transforms(self)]: each [continue] ends the iteration with
    the list as it stands. *)
Definition check_transforms : M unit :=
  s <- get_self ;;
  bad_transforms <-
    for_each (sel s) ([] : list string)
      (fun bad_transforms obj =>
         cmds (c_getAttr obj translate) ;;
         let t := getAttr maya obj translate in
         if any3 off_zero t then
           ret (bad_transforms ++ [(obj ++ " (Translate)")%string])%list
         else
           cmds (c_getAttr obj rotate) ;;
           let r := getAttr maya obj rotate in
           if any3 off_zero r then
             ret (bad_transforms ++ [(obj ++ " (Rotate)")%string])%list
           else
             cmds (c_getAttr obj scale) ;;
             let s := getAttr maya obj scale in
             if any3 off_one s then
               ret (bad_transforms ++ [(obj ++ " (Scale)")%string])%list
             else ret bad_transforms) ;;
  match bad_transforms with
  | _ :: _ => raise (PublishError (TransformsNotFrozen bad_transforms))
  | [] => ret tt
  end.

(** [check_history(self)]: the test is [history is not None]. *)
Definition check_history : M unit :=
  s <- get_self ;;
  bad_obj <-
    for_each (sel s) ([] : list string)
      (fun bad_obj obj =>
         cmds (c_listHistory obj) ;;
         let history := listHistory_pdo maya obj in
         match history with
         | Some _ => ret (bad_obj ++ [obj])%list
         | None => ret bad_obj
         end) ;;
  match bad_obj with
  | _ :: _ => raise (PublishError (StillHistory bad_obj))
  | [] => ret tt
  end.

(** [check_uvs(self)]: the [raise] sits inside the loop. *)
Definition check_uvs : M unit :=
  s <- get_self ;;
  for_each (sel s) tt
    (fun _ obj =>
       cmds (c_polyEvaluate_uv obj) ;;
       let uv_counts := polyEvaluate_uv maya obj in
       if Z.eqb uv_counts 0 then raise (PublishError (NoUVs obj))
       else ret tt).

(** [ModelPublisher.verify_assets(self)]. *)
Definition Model_verify_assets : M pyret :=
  print StartingModelingValidation ;;
  set_self (set_prefix "geo") ;;
  s <- get_self ;;
  My_verify_assets (prefix s) ;;
  check_topology ;;
  check_transforms ;;
  check_history ;;
  check_uvs ;;
  print VerifyingDone ;;
  ret PyNone.

(** The path computations of [extract_assets], on the scene path alone:
    scene name, version, asset directory and export path; [None] is the
    [IndexError] of [parents[1]]. *)
Definition scene_name_of (scene_path : string) : string :=
  first_item (split "." (basename scene_path)).

Definition version_of (scene_name : string) : string :=
  last_item (split "_" scene_name).

Definition asset_dir_of (scene_path : string) : option string :=
  let scenes_folder := Path scene_path in
  match parents scenes_folder 1 with
  | None => None
  | Some scene_dir =>
      let asset_folder := "assets/" ++ scene_name_of scene_path ++ "/modeling/" in
      Some (join2 (to_str scene_dir) asset_folder)
  end.

(** [ModelPublisher.extract_assets(self, output)]. *)
Definition Model_extract_assets (output : string) : M pyret :=
  print StartingExport ;;
  s <- get_self ;;
  cmds (c_select (sel s)) ;;
  cmds c_file_sn ;;
  let scene_path := file_sn maya in
  let scenes_folder := Path scene_path in
  match parents scenes_folder 1 with
  | None => raise IndexError
  | Some scene_dir =>
      set_self (set_scene_name (first_item (split "." (basename scene_path)))) ;;
      name1 <- getattr "scene_name" scene_name ;;
      set_self (set_version (last_item (split "_" name1))) ;;
      name2 <- getattr "scene_name" scene_name ;;
      let asset_folder := "assets/" ++ name2 ++ "/modeling/" in
      let asset_dir := join2 (to_str scene_dir) asset_folder in
      on_disk (makedirs_exist_ok (cwd host) asset_dir) ;;
      name3 <- getattr "scene_name" scene_name ;;
      set_self (set_obj_path (join2 asset_dir name3)) ;;
      s <- get_self ;;
      cmds (c_file_export (obj_path s) output) ;;
      if export_ok maya (obj_path s) output then
        print ExportDone ;;
        ret PyNone
      else raise RuntimeError
  end.

(** [uuid.uuid4().hex[:8].upper()]. *)
Definition unique_hash_of (u : N) : string := upper (take 8 (hex32 u)).

(** The dictionary [asset_data]. *)
Definition asset_data_of (unique_hash timestamp scene_name version obj_path
                            user description : string) : json :=
  JDict [("id", JStr unique_hash);
         ("date", JStr timestamp);
         ("name", JStr scene_name);
         ("version", JStr version);
         ("path", JStr obj_path);
         ("user", JStr user);
         ("description", JStr description)].

(** [ModelPublisher.implement_assets(self, description="")]. *)
Definition Model_implement_assets (description : string) : M pyret :=
  let bot := PIPELINE_DISCORD_BOT host in
  let department := "modeling" in
  name1 <- getattr "scene_name" scene_name ;;
  version1 <- getattr "version" version ;;
  discord_notification name1 version1 department bot ;;
  let timestamp := strftime_Ymd_HMS (now host) in
  let unique_hash := unique_hash_of (uuid4 host) in
  name2 <- getattr "scene_name" scene_name ;;
  version2 <- getattr "version" version ;;
  s <- get_self ;;
  user1 <- getattr "user" user ;;
  let asset_data :=
    asset_data_of unique_hash timestamp name2 version2 (obj_path s)
                  user1 description in
  print CsvPrinting ;;
  csv_publisher asset_data ;;
  print DoneCsv ;;
  ret PyNone.

(** *** Method calls *)

Inductive method : Type :=
  | m_collect_assets
  | m_verify_assets
  | m_extract_assets
  | m_implement_assets.

(** [self.m(arg, ...)]: the method is looked up in the class of [self]
    (then in its base class), and the call raises [TypeError] unless the
    positional arguments fit the parameters of the method found. *)
Definition call (m : method) (args : list string) : M pyret :=
  s <- get_self ;;
  match cls s, m, args with
  | _, m_collect_assets, [] => collect_assets
  | MyPublisher, m_verify_assets, [prefix] => My_verify_assets prefix
  | MyPublisher, m_extract_assets, [] => My_extract_assets
  | MyPublisher, m_implement_assets, [] => My_implement_assets
  | ModelPublisher, m_verify_assets, [] => Model_verify_assets
  | ModelPublisher, m_extract_assets, [output] => Model_extract_assets output
  | ModelPublisher, m_implement_assets, [] => Model_implement_assets ""
  | ModelPublisher, m_implement_assets, [description] =>
      Model_implement_assets description
  | _, _, _ => raise TypeError
  end.

(** [MyPublisher.main(self)], inherited by [ModelPublisher]. *)
Definition main : M pyret :=
  print StartingPublishing ;;
  try_except
    (call m_collect_assets [] ;;
     s <- get_self ;;
     call m_verify_assets [prefix s] ;;
     call m_extract_assets [] ;;
     call m_implement_assets [] ;;
     cmds (c_inViewMessage "Published Successfully!") ;;
     print SuccessfullyExported ;;
     ret PyTrue)
    (fun e =>
       match e with
       | PublishError _ =>
           Some (print (PublishFailed e) ;;
                 cmds (c_warning_publish_failed e) ;;
                 raise e)
       | _ =>
           Some (print (CriticalError e) ;;
                 cmds (c_warning_critical e) ;;
                 raise e)
       end).

(** The four calls [run_publish] of the user interface makes on the
    publisher it has built, in order. *)
Definition run_publish_calls (output_format : string) : M pyret :=
  call m_collect_assets [] ;;
  call m_verify_assets [] ;;
  call m_extract_assets [output_format] ;;
  call m_implement_assets [].

End Methods.
End Publisher.

(* ================================================================== *)
(** ** What the validators report, stated on the selection *)

Module Report.
Import PyStr PosixPath FileSys Fmt Json Publisher.
Local Open Scope string_scope.

(** The state after further [maya.cmds] calls. *)
Definition log_cmds (st : State) (cs : list cmd) : State :=
  mkState (self st) (disk st) (stdout st) (cmds_log st ++ cs)%list (posted st).

(** The state after further printed lines. *)
Definition log_lines (st : State) (ls : list line) : State :=
  mkState (self st) (disk st) (stdout st ++ ls)%list (cmds_log st) (posted st).

Section OnScene.
Variable maya : Maya.

(** UV check: an object without UVs. *)
Definition no_uvs (obj : string) : bool := Z.eqb (polyEvaluate_uv maya obj) 0.

(** Transform check: the first channel out of tolerance, in the order
    translate, rotate, scale. *)
Definition first_bad_channel (obj : string) : option channel :=
  if any3 off_zero (getAttr maya obj translate) then Some translate
  else if any3 off_zero (getAttr maya obj rotate) then Some rotate
  else if any3 off_one (getAttr maya obj scale) then Some scale
  else None.

Definition channel_label (c : channel) : string :=
  match c with
  | translate => "Translate"
  | rotate => "Rotate"
  | scale => "Scale"
  end.

(** The entry recorded for an object: ["{object} ({Channel})"]. *)
Definition transform_entry (obj : string) : list string :=
  match first_bad_channel obj with
  | Some c => [obj ++ " (" ++ channel_label c ++ ")"]
  | None => []
  end.

(** The channels read for an object: up to and including the first one
    out of tolerance. *)
Definition channels_read (obj : string) : list channel :=
  match first_bad_channel obj with
  | Some translate => [translate]
  | Some rotate => [translate; rotate]
  | _ => [translate; rotate; scale]
  end.

(** History check: the query returned something other than [None]. *)
Definition has_history (obj : string) : bool :=
  match listHistory_pdo maya obj with
  | Some _ => true
  | None => false
  end.

(** The history as a sequence, [None] read as the empty one. *)
Definition history_of (obj : string) : list string :=
  match listHistory_pdo maya obj with
  | Some l => l
  | None => []
  end.

(** Topology check: the n-gon faces found on the meshes of a selection,
    and whether a mesh has lamina faces. *)
Definition ngons_of (selection : list string) : list string :=
  match constrained_sl maya (ls_dag_mesh maya selection) with
  | Some l => l
  | None => []
  end.

Definition has_lamina (mesh : string) : bool :=
  truthy (polyInfo_laminaFaces maya mesh).

(** The calls [check_topology] makes before it looks at the n-gons. *)
Definition ngon_probe (selection : list string) : list cmd :=
  [c_select selection; c_ls_dag_mesh selection;
   c_select (ls_dag_mesh maya selection);
   c_polySelectConstraint 3 8 3; c_ls_sl; c_polySelectConstraint_disable].

End OnScene.

(** Naming check: the leaf name of an object and its tokens. *)
Definition leaf_name (obj : string) : string := last_item (split "|" obj).

Definition tokens (obj : string) : list string := split "_" (leaf_name obj).

Definition bad_token_count (obj : string) : bool :=
  negb (Nat.eqb (List.length (tokens obj)) 3
        || Nat.eqb (List.length (tokens obj)) 4).

Definition bad_prefix (prefix obj : string) : bool :=
  negb (String.eqb (first_item (tokens obj)) prefix).

(** The entries one object adds to the offender list. *)
Definition naming_entries (prefix obj : string) : list string :=
  ((if bad_token_count obj then [obj] else []) ++
   (if bad_prefix prefix obj then [obj] else []))%list.

Definition b2n (b : bool) : nat := if b then 1 else 0.

(** Path resolution.  A component as it appears in a normalised path:
    not empty, not ["."], without a slash. *)
Definition clean_part (x : string) : bool :=
  keep_part x && negb (contains slash x).

(** The asset directory as the specification words it: the root is the
    directory two levels above the directory that contains the scene
    file, which is [parents[2]] of the scene path. *)
Definition spec_asset_dir (scene_path : string) : option string :=
  match parents (Path scene_path) 2 with
  | None => None
  | Some project_root =>
      Some (join2 (to_str project_root)
                  ("assets/" ++ scene_name_of scene_path ++ "/modeling/"))
  end.

(** A record of string fields as pretty-printed JSON with an indent of
    four spaces: an opening brace, one line per field, a closing brace. *)
Definition record_line (kv : string * string) : string :=
  "    " ++ quote (fst kv) ++ ": " ++ quote (snd kv).

Definition pretty_record (fields : list (string * string)) : string :=
  "{" ++ String newline "" ++
  join ("," ++ String newline "") (map record_line fields) ++
  String newline "" ++ "}".

(** The line the notification dispatcher prints for an outcome of the
    POST. *)
Definition outcome_line (o : option request_exception) : line :=
  match o with
  | None => DiscordSent
  | Some e => DiscordFailed e
  end.

End Report.

(* ================================================================== *)
(** ** Worked examples: concrete scenes and machines *)

Module Demo.
Import PyStr PosixPath FileSys Fmt Json Publisher.
Local Open Scope string_scope.
#[local] Set Warnings "-inexact-float".

Definition zeros : float3 := (0%float, 0%float, 0%float).
Definition ones : float3 := (1%float, 1%float, 1%float).

(** Association-list lookup with a default. *)
Fixpoint lookup {A} (d : A) (k : string) (l : list (string * A)) : A :=
  match l with
  | [] => d
  | (k', v) :: rest => if String.eqb k k' then v else lookup d k rest
  end.

(** The scene of the worked example: saved under
    [project/scenes/seq010], every object clean unless listed. *)
Definition scene_path : string :=
  "project/scenes/seq010/show_seq010_model_v002.ma".

Definition maya_with (uvs : list (string * Z))
    (translates : list (string * float3))
    (histories : list (string * pylist))
    (ngons : pylist) (laminas : list (string * pylist)) : Maya :=
  mkMaya scene_path scene_path
         (fun selection => map (fun o => o ++ "Shape") selection)
         (fun _ => ngons)
         (fun m => lookup None m laminas)
         (fun o c => match c with
                     | translate => lookup zeros o translates
                     | rotate => zeros
                     | scale => ones
                     end)
         (fun o => lookup None o histories)
         (fun o => lookup 8%Z o uvs)
         (fun _ _ => true).

Definition maya_clean : Maya := maya_with [] [] [] None [].

(** [A] has no UVs, [B] has five. *)
Definition maya_uv : Maya := maya_with [("A", 0%Z); ("B", 5%Z)] [] [] None [].

(** [geo_a] sits at the tolerance, [geo_b] just beyond it, both on the
    z axis of the translation. *)
Definition maya_tolerance : Maya :=
  maya_with []
            [("geo_a", (0%float, 0%float, 0.0010%float));
             ("geo_b", (0%float, 0%float, 0.0011%float))]
            [] None [].

(** [geo_b] still has a construction node. *)
Definition maya_history : Maya :=
  maya_with [] [] [("geo_b", Some ["polyCube1"])] None [].

(** A machine from which the notification endpoint cannot be reached. *)
Definition host_unreachable : Host :=
  mkHost ["home"; "artist"] "artist"
         (Some "https://discord.invalid/api/webhooks/1")
         (fun _ _ => Some ConnectionError)
         (mkDate 2026 11 3 9 5 59)%N
         0xdeadbeef00112233445566778899aabb%N.

(** A freshly built publisher on an empty disk. *)
Definition fresh (c : class) (selection : list string)
    (prefix : option string) : State :=
  mkState (init c selection "http://shotgrid.api.link" prefix)
          (mkFS [] []) [] [] [].

(** The same publisher once [collect_assets] has run on the clean scene. *)
Definition collected (c : class) (selection : list string)
    (prefix : option string) : State :=
  snd (collect_assets maya_clean (fresh c selection prefix)).

(** The publisher of [geo_hero_body] after Collect, Verify and Extract. *)
Definition extracted : State :=
  Eval vm_compute in
    snd (bind (call maya_clean host_unreachable m_collect_assets [])
           (fun _ =>
              bind (call maya_clean host_unreachable m_verify_assets [])
                (fun _ =>
                   call maya_clean host_unreachable m_extract_assets
                        ["OBJexport"]))
           (fresh ModelPublisher ["geo_hero_body"] None)).

(** The same after Implement. *)
Definition published : State :=
  Eval vm_compute in
    snd (Model_implement_assets host_unreachable "" extracted).

End Demo.

(* ================================================================== *)
(** ** The outcome of the Verify stage, stated on the scene *)

Module Outcome.
Import PyStr Publisher Report.
Local Open Scope string_scope.

(** The issue the modeling Verify stage raises, if any: the checks in the
    order in which [ModelPublisher.verify_assets] runs them, the first
    one that fails deciding. *)
Definition first_issue (maya : Maya) (scene : string)
    (selection : list string) : option issue :=
  if not_in_length (List.length (split "_" scene)) then
    Some (WrongFileName scene)
  else
    match flat_map (naming_entries "geo") selection with
    | (_ :: _) as wrong_names => Some (NamingStandard wrong_names)
    | [] =>
    match ngons_of maya selection with
    | (_ :: _) as ngons => Some (NgonsAt ngons)
    | [] =>
    match filter (has_lamina maya) (ls_dag_mesh maya selection) with
    | (_ :: _) as lamina_objs => Some (OverlappingFaces lamina_objs)
    | [] =>
    match flat_map (transform_entry maya) selection with
    | (_ :: _) as bad_transforms => Some (TransformsNotFrozen bad_transforms)
    | [] =>
    match filter (has_history maya) selection with
    | (_ :: _) as bad_obj => Some (StillHistory bad_obj)
    | [] =>
    match find (no_uvs maya) selection with
    | Some obj => Some (NoUVs obj)
    | None => None
    end end end end end end.

(** The queries to Maya a check makes, as predicates on the log. *)
Definition is_topology_cmd (c : cmd) : bool :=
  match c with
  | c_select _ | c_ls_dag_mesh _ | c_polySelectConstraint _ _ _ | c_ls_sl
  | c_polySelectConstraint_disable | c_polyInfo_laminaFaces _ => true
  | _ => false
  end.

Definition is_object_query (c : cmd) : bool :=
  match c with
  | c_getAttr _ _ | c_listHistory _ | c_polyEvaluate_uv _ => true
  | _ => false
  end.

(** The state the stage leaves when it stops after [cs] queries, the
    banner printed and the prefix overwritten. *)
Definition verifying (st : State) (cs : list cmd) : State :=
  mkState (set_prefix "geo" (self st)) (disk st)
          (stdout st ++ [StartingModelingValidation])%list
          (cmds_log st ++ cs)%list (posted st).

(** The number of occurrences of a character in a text. *)
Fixpoint count_char (c : ascii) (s : string) : nat :=
  match s with
  | EmptyString => 0
  | String a s' => (if Ascii.eqb a c then 1 else 0) + count_char c s'
  end.

(** Printable ASCII. *)
Definition is_printable (a : ascii) : bool :=
  Nat.leb 32 (nat_of_ascii a) && Nat.leb (nat_of_ascii a) 126.


(** The selection is named as the modeling stage wants it. *)
Definition well_named (obj : string) : bool :=
  negb (bad_token_count obj) && negb (bad_prefix "geo" obj).

End Outcome.

(* ================================================================== *)
(** ** Further worked examples *)

Module Demo2.
Import PyStr PosixPath FileSys Fmt Json Publisher.
Local Open Scope string_scope.

(** The clean scene of [Demo] before it was ever saved: Maya reports an
    empty scene name. *)
Definition maya_unsaved : Maya :=
  mkMaya "untitled" ""
         (ls_dag_mesh Demo.maya_clean) (constrained_sl Demo.maya_clean)
         (polyInfo_laminaFaces Demo.maya_clean) (getAttr Demo.maya_clean)
         (listHistory_pdo Demo.maya_clean) (polyEvaluate_uv Demo.maya_clean)
         (export_ok Demo.maya_clean).

(** A disk on which a regular file sits where the project directory of
    the worked example should be. *)
Definition disk_blocked : FS :=
  mkFS [["home"; "artist"]; ["home"]]
       [(["home"; "artist"; "project"], "not a directory")].

(** The publisher of the worked example after Collect, on that disk. *)
Definition collected_blocked : State :=
  mkState (self (Demo.collected ModelPublisher ["geo_hero_body"] None))
          disk_blocked [] [] [].



(** Two UUIDs that agree on their first 32 bits only. *)
Definition uuid_a : N := 0xdeadbeef00112233445566778899aabb.
Definition uuid_b : N := 0xdeadbeefffeeddccbbaa998877665544.

End Demo2.

(* ================================================================== *)
(** ** The publisher window of [publish_UI.py] *)

Module PublishUI.
Import PyStr Publisher Report.
Local Open Scope string_scope.

(** [colors.get(status, "#555555")] of [PublishStepWidget.set_status]. *)
Definition colors_get (status : string) : string :=
  if String.eqb status "idle" then "#555555"
  else if String.eqb status "running" then "#FFD700"
  else if String.eqb status "success" then "#4CAF50"
  else if String.eqb status "fail" then "#F44336"
  else "#555555".

(** The style sheet [set_status] gives the indicator. *)
Definition style_sheet (status : string) : string :=
  "background-color: " ++ colors_get status
    ++ "; border-radius: 7px; border: 1px solid #222;".

(** [s.find(sub) != -1]. *)
Definition found (sub s : string) : bool :=
  match String.index 0 sub s with
  | Some _ => true
  | None => false
  end.

(** What [write_log] is called with, one constructor per call site. *)
Inductive ui_text : Type :=
  | CollectSuccessful
  | VerificationPassed
  | ExportedTo (path output_format : string)
  | NotificationSent
  | PublishErrorText (e : exn)
  | CriticalSystemError (e : exn)
  | Traceback (e : exn).

(** The window: the style sheets of the four indicators, the log (each
    entry with the colour of its span), what the window printed itself
    and the message boxes it opened. *)
Record Window : Type := mkWindow {
  step_c : string;
  step_v : string;
  step_e : string;
  step_i : string;
  log_output : list (string * ui_text);
  printed : list string;
  boxes : list string
}.

Inductive step : Type := StepC | StepV | StepE | StepI.

(** [step.set_status(status)]. *)
Definition set_status (s : step) (status : string) (w : Window) : Window :=
  match s with
  | StepC => mkWindow (style_sheet status) (step_v w) (step_e w) (step_i w)
                      (log_output w) (printed w) (boxes w)
  | StepV => mkWindow (step_c w) (style_sheet status) (step_e w) (step_i w)
                      (log_output w) (printed w) (boxes w)
  | StepE => mkWindow (step_c w) (step_v w) (style_sheet status) (step_i w)
                      (log_output w) (printed w) (boxes w)
  | StepI => mkWindow (step_c w) (step_v w) (step_e w) (style_sheet status)
                      (log_output w) (printed w) (boxes w)
  end.

Definition indicator (s : step) (w : Window) : string :=
  match s with
  | StepC => step_c w
  | StepV => step_v w
  | StepE => step_e w
  | StepI => step_i w
  end.

(** [self.steps]. *)
Definition steps : list step := [StepC; StepV; StepE; StepI].

(** [write_log(self, text, is_error=False)]. *)
Definition write_log (text : ui_text) (is_error : bool) (w : Window)
  : Window :=
  let color := if is_error then "red" else "#88ff88" in
  mkWindow (step_c w) (step_v w) (step_e w) (step_i w)
           (log_output w ++ [(color, text)])%list (printed w) (boxes w).

(** [reset_ui(self)]. *)
Definition reset_ui (w : Window) : Window :=
  let w := fold_left (fun w s => set_status s "idle" w) steps w in
  mkWindow (step_c w) (step_v w) (step_e w) (step_i w) [] (printed w)
           (boxes w).

(** The loop of the [except PublishError] clause: every step that is
    running is marked as failed. *)
Definition fail_running (w : Window) : Window :=
  fold_left
    (fun w s =>
       if found "#FFD700" (indicator s w) then set_status s "fail" w else w)
    steps w.

(** Code that acts on the window and on the publisher's world. *)
Definition UIM (A : Type) : Type :=
  Window * State -> result A * (Window * State).

Definition ui_ret {A} (a : A) : UIM A := fun ws => (Ok a, ws).

Definition ui_bind {A B} (m : UIM A) (k : A -> UIM B) : UIM B :=
  fun ws =>
    match m ws with
    | (Ok a, ws') => k a ws'
    | (Raise e, ws') => (Raise e, ws')
    end.

(** A change of the window. *)
Definition on_window (f : Window -> Window) : UIM unit :=
  fun ws => (Ok tt, (f (fst ws), snd ws)).

(** A call into the publisher. *)
Definition on_publisher {A} (m : M A) : UIM A :=
  fun ws =>
    match m (snd ws) with
    | (r, st) => (r, (fst ws, st))
    end.

Declare Scope ui_scope.
Delimit Scope ui_scope with ui.
Notation "x <- m ;; k" := (ui_bind m (fun x => k))
  (at level 61, m at next level, right associativity) : ui_scope.
Notation "m ;; k" := (ui_bind m (fun _ => k))
  (at level 61, right associativity) : ui_scope.

Section RunPublish.

Variable maya : Maya.
Variable host : Host.

(** The [try] block of [run_publish]. *)
Definition run_publish_try (output_format : string) : UIM unit :=
  (on_window (set_status StepC "running") ;;
   on_publisher (call maya host m_collect_assets []) ;;
   on_window (set_status StepC "success") ;;
   on_window (write_log CollectSuccessful false) ;;
   on_window (set_status StepV "running") ;;
   on_publisher (call maya host m_verify_assets []) ;;
   on_window (set_status StepV "success") ;;
   on_window (write_log VerificationPassed false) ;;
   on_window (set_status StepE "running") ;;
   on_publisher (call maya host m_extract_assets [output_format]) ;;
   on_window (set_status StepE "success") ;;
   path <- on_publisher (fun st => (Ok (obj_path (self st)), st)) ;;
   on_window (fun w => mkWindow (step_c w) (step_v w) (step_e w) (step_i w)
                                (log_output w) (printed w ++ [path])%list
                                (boxes w)) ;;
   on_window (write_log (ExportedTo path output_format) false) ;;
   on_window (set_status StepI "running") ;;
   on_publisher (call maya host m_implement_assets []) ;;
   on_window (set_status StepI "success") ;;
   on_window (write_log NotificationSent false) ;;
   on_window (fun w => mkWindow (step_c w) (step_v w) (step_e w) (step_i w)
                                (log_output w) (printed w)
                                (boxes w ++ ["Asset Published Successfully!"])%list))%ui.

(** [PublisherWindow.run_publish(self)], with the selection Maya reports
    and the export format chosen in the window.  The publisher is built
    afresh; the disk and the logs are those of the world it runs in.
    Both [except] clauses swallow the exception. *)
Definition run_publish (selection : list string) (output_format : string)
  : UIM unit :=
  fun ws =>
    let w := reset_ui (fst ws) in
    let st := snd ws in
    let st := mkState (init ModelPublisher selection
                            "http://shotgrid.api.link" None)
                      (disk st) (stdout st) (cmds_log st ++ [c_ls_sl])%list
                      (posted st) in
    match run_publish_try output_format (w, st) with
    | (Ok tt, ws') => (Ok tt, ws')
    | (Raise (PublishError i), ws') =>
        (on_window fail_running ;;
         on_window (write_log (PublishErrorText (PublishError i)) true) ;;
         on_publisher (cmds (c_warning_publish_failed (PublishError i))))%ui
          ws'
    | (Raise e, ws') =>
        (on_window (write_log (CriticalSystemError e) true) ;;
         on_window (write_log (Traceback e) true))%ui ws'
    end.

End RunPublish.

(** The indicator of the stage that raised [e], once [run_publish] is
    over: marked as failed for a [PublishError], left as it was, running,
    for any other exception. *)
Definition bad_light (e : exn) : string :=
  match e with
  | PublishError _ => style_sheet "fail"
  | _ => style_sheet "running"
  end.

(** The log entries the [except] clauses write for [e]. *)
Definition error_entries (e : exn) : list (string * ui_text) :=
  match e with
  | PublishError _ => [("red", PublishErrorText e)]
  | _ => [("red", CriticalSystemError e); ("red", Traceback e)]
  end.

(** The world after the [except] clause for [e]: a [PublishError] is
    also passed to [cmds.warning]. *)
Definition warned (e : exn) (st : State) : State :=
  match e with
  | PublishError _ =>
      mkState (self st) (disk st) (stdout st)
              (cmds_log st ++ [c_warning_publish_failed e])%list (posted st)
  | _ => st
  end.

(** The four indicators, in the order of the stages. *)
Definition lights (w : Window) : list string :=
  [step_c w; step_v w; step_e w; step_i w].

End PublishUI.

(* ================================================================== *)
(** ** Facts about the monad and the logs *)

Section MonadFacts.
Import Publisher Report.
Local Open Scope list_scope.

Lemma log_cmds_nil (st : State) : log_cmds st [] = st.
Proof. destruct st; unfold log_cmds; simpl. now rewrite app_nil_r. Qed.

Lemma log_cmds_app (st : State) (a b : list cmd) :
  log_cmds (log_cmds st a) b = log_cmds st (a ++ b).
Proof. unfold log_cmds; simpl. now rewrite app_assoc. Qed.

Lemma cmds_run (c : cmd) (st : State) : cmds c st = (Ok tt, log_cmds st [c]).
Proof. reflexivity. Qed.

Lemma self_log_cmds (st : State) (cs : list cmd) :
  self (log_cmds st cs) = self st.
Proof. reflexivity. Qed.

(** A loop whose body never raises and logs [q x] on item [x] is a fold
    over the items, with the logs concatenated. *)
Lemma for_each_total {A B} (body : B -> A -> M B) (f : B -> A -> B)
    (q : A -> list cmd) :
  (forall acc x st, body acc x st = (Ok (f acc x), log_cmds st (q x))) ->
  forall l acc st,
    for_each l acc body st = (Ok (fold_left f l acc), log_cmds st (flat_map q l)).
Proof.
  intros Hbody l; induction l as [|x l IH]; intros acc st; simpl.
  - now rewrite log_cmds_nil.
  - unfold bind. rewrite Hbody, IH, log_cmds_app. reflexivity.
Qed.

(** Appending the entries [g x] of every item is a [flat_map]. *)
Lemma fold_left_entries {A B} (g : A -> list B) (l : list A) (acc : list B) :
  fold_left (fun acc x => acc ++ g x) l acc = acc ++ flat_map g l.
Proof.
  revert acc; induction l as [|x l IH]; intros acc; simpl.
  - now rewrite app_nil_r.
  - now rewrite IH, app_assoc.
Qed.

End MonadFacts.

Section LocFacts.
Import FileSys.

Lemma loc_eqb_refl (k : loc) : loc_eqb k k = true.
Proof.
  induction k as [|x k IH]; simpl; [reflexivity|].
  now rewrite String.eqb_refl, IH.
Qed.

Lemma loc_eqb_eq (a b : loc) : loc_eqb a b = true <-> a = b.
Proof.
  revert b; induction a as [|x a IH]; intros [|y b]; simpl;
    try (split; [discriminate | congruence]); [tauto|].
  rewrite andb_true_iff, String.eqb_eq, IH.
  split; [intros [-> ->]; reflexivity | intro H; now injection H].
Qed.

End LocFacts.

(* ================================================================== *)
(** ** The UV check *)

Section UVCheck.
Import Publisher Report.
Local Open Scope list_scope.
Variable maya : Maya.

Lemma uv_loop_pass (l : list string) (st : State) :
  forallb (fun o => negb (no_uvs maya o)) l = true ->
  for_each l tt
    (fun _ obj =>
       bind (cmds (c_polyEvaluate_uv obj))
            (fun _ => if Z.eqb (polyEvaluate_uv maya obj) 0
                      then raise (PublishError (NoUVs obj)) else ret tt)) st
  = (Ok tt, log_cmds st (map c_polyEvaluate_uv l)).
Proof.
  revert st; induction l as [|x l IH]; intros st H; simpl in *.
  - now rewrite log_cmds_nil.
  - apply andb_prop in H as [Hx Hl]. unfold no_uvs in Hx.
    apply negb_true_iff in Hx.
    unfold bind at 1. unfold bind at 1. rewrite cmds_run, Hx. simpl.
    rewrite IH by assumption. now rewrite log_cmds_app.
Qed.

Lemma uv_loop_fail (pre : list string) (a : string) (post : list string)
    (st : State) :
  forallb (fun o => negb (no_uvs maya o)) pre = true ->
  no_uvs maya a = true ->
  for_each (pre ++ a :: post) tt
    (fun _ obj =>
       bind (cmds (c_polyEvaluate_uv obj))
            (fun _ => if Z.eqb (polyEvaluate_uv maya obj) 0
                      then raise (PublishError (NoUVs obj)) else ret tt)) st
  = (Raise (PublishError (NoUVs a)),
     log_cmds st (map c_polyEvaluate_uv (pre ++ [a]))).
Proof.
  revert st; induction pre as [|x pre IH]; intros st H Ha; simpl in *.
  - unfold bind at 1. unfold bind at 1. rewrite cmds_run.
    unfold no_uvs in Ha. rewrite Ha. reflexivity.
  - apply andb_prop in H as [Hx Hl]. unfold no_uvs in Hx.
    apply negb_true_iff in Hx.
    unfold bind at 1. unfold bind at 1. rewrite cmds_run, Hx. simpl.
    rewrite IH by assumption. now rewrite log_cmds_app.
Qed.

(** Every list either passes a boolean test everywhere or splits at the
    first item that fails it. *)
Lemma first_failure {A} (p : A -> bool) (l : list A) :
  forallb p l = true \/
  exists pre a post, l = pre ++ a :: post /\ forallb p pre = true /\ p a = false.
Proof.
  induction l as [|x l IH]; simpl.
  - now left.
  - destruct (p x) eqn:Hx.
    + destruct IH as [IH | (pre & a & post & -> & Hpre & Ha)].
      * now left.
      * right. exists (x :: pre), a, post. simpl. rewrite Hx. auto.
    + right. exists [], x, l. auto.
Qed.

End UVCheck.

Section UVProperty.
Import Publisher Report.
Local Open Scope list_scope.

(** C5. The UV check visits the objects in selection order and raises at
    the first one whose UV count is zero, naming that object alone; the
    objects after it are never queried.  It returns normally exactly when
    every object has a non-zero count.  On [[A (0 UVs); B (5 UVs)]] it
    raises for [A] after a single query. *)
Theorem C5_check_uvs_first_offender (maya : Maya) (st : State) :
  ((Forall (fun o => polyEvaluate_uv maya o <> 0%Z) (sel (self st)) /\
    check_uvs maya st
    = (Ok tt, log_cmds st (map c_polyEvaluate_uv (sel (self st)))))
   \/
   (exists pre a post,
      sel (self st) = pre ++ a :: post /\
      Forall (fun o => polyEvaluate_uv maya o <> 0%Z) pre /\
      polyEvaluate_uv maya a = 0%Z /\
      check_uvs maya st
      = (Raise (PublishError (NoUVs a)),
         log_cmds st (map c_polyEvaluate_uv (pre ++ [a])))))
  /\ (fst (check_uvs maya st) = Ok tt <->
      Forall (fun o => polyEvaluate_uv maya o <> 0%Z) (sel (self st)))
  /\ check_uvs Demo.maya_uv (Demo.fresh ModelPublisher ["A"; "B"]%string None)
     = (Raise (PublishError (NoUVs "A")),
        log_cmds (Demo.fresh ModelPublisher ["A"; "B"]%string None)
                 [c_polyEvaluate_uv "A"]).
Proof.
  assert (Hb : forall l, forallb (fun o => negb (no_uvs maya o)) l = true <->
                         Forall (fun o => polyEvaluate_uv maya o <> 0%Z) l).
  { intro l. rewrite forallb_forall, Forall_forall.
    split; intros H o Ho; specialize (H o Ho); unfold no_uvs in *.
    - apply negb_true_iff, Z.eqb_neq in H. exact H.
    - apply negb_true_iff, Z.eqb_neq. exact H. }
  assert (Hcases :
    (Forall (fun o => polyEvaluate_uv maya o <> 0%Z) (sel (self st)) /\
     check_uvs maya st
     = (Ok tt, log_cmds st (map c_polyEvaluate_uv (sel (self st)))))
    \/
    (exists pre a post,
       sel (self st) = pre ++ a :: post /\
       Forall (fun o => polyEvaluate_uv maya o <> 0%Z) pre /\
       polyEvaluate_uv maya a = 0%Z /\
       check_uvs maya st
       = (Raise (PublishError (NoUVs a)),
          log_cmds st (map c_polyEvaluate_uv (pre ++ [a]))))).
  {
    destruct (first_failure (fun o => negb (no_uvs maya o)) (sel (self st)))
      as [Hall | (pre & a & post & Heq & Hpre & Ha)].
    - left. split; [now apply Hb|]. now apply uv_loop_pass.
    - right. exists pre, a, post. apply negb_false_iff in Ha.
      repeat split; [assumption | now apply Hb | now apply Z.eqb_eq in Ha |].
      change (check_uvs maya st) with (for_each (sel (self st)) tt (fun _ obj =>
       bind (cmds (c_polyEvaluate_uv obj))
            (fun _ => if Z.eqb (polyEvaluate_uv maya obj) 0
                      then raise (PublishError (NoUVs obj)) else ret tt)) st).
      rewrite Heq. now apply uv_loop_fail. }
  split; [exact Hcases|]. split; [|reflexivity].
  destruct Hcases as [[Hall Hrun] | (pre & a & post & Heq & Hpre & Ha & Hrun)];
    rewrite Hrun; simpl.
  - tauto.
  - split; [discriminate|]. intro Hall. rewrite Heq in Hall.
    apply Forall_app in Hall as [_ Hall]. inversion Hall; subst. contradiction.
Qed.

End UVProperty.

(* ================================================================== *)
(** ** The aggregating checks: transforms, history, topology *)

Section AggregatingChecks.
Import Publisher Report.
Local Open Scope list_scope.
#[local] Set Warnings "-inexact-float".
Variable maya : Maya.

Lemma flat_map_filter {A} (p : A -> bool) (l : list A) :
  flat_map (fun x => if p x then [x] else []) l = filter p l.
Proof.
  induction l as [|x l IH]; simpl; [reflexivity|].
  destruct (p x); simpl; now rewrite IH.
Qed.

Lemma flat_map_singleton {A B} (f : A -> B) (l : list A) :
  flat_map (fun x => [f x]) l = map f l.
Proof. induction l as [|x l IH]; simpl; [reflexivity|]. now rewrite IH. Qed.

(** One iteration of the loop of [check_transforms]. *)
Lemma transform_iteration (bad : list string) (obj : string) (st : State) :
  (bind (cmds (c_getAttr obj translate)) (fun _ =>
     if any3 off_zero (getAttr maya obj translate) then
       ret (bad ++ [(obj ++ " (Translate)")%string])
     else
       bind (cmds (c_getAttr obj rotate)) (fun _ =>
         if any3 off_zero (getAttr maya obj rotate) then
           ret (bad ++ [(obj ++ " (Rotate)")%string])
         else
           bind (cmds (c_getAttr obj scale)) (fun _ =>
             if any3 off_one (getAttr maya obj scale) then
               ret (bad ++ [(obj ++ " (Scale)")%string])
             else ret bad)))) st
  = (Ok (bad ++ transform_entry maya obj),
     log_cmds st (map (c_getAttr obj) (channels_read maya obj))).
Proof.
  unfold transform_entry, channels_read, first_bad_channel, bind, ret.
  rewrite cmds_run.
  destruct (any3 off_zero (getAttr maya obj translate)); [reflexivity|].
  rewrite cmds_run, log_cmds_app.
  destruct (any3 off_zero (getAttr maya obj rotate)); [reflexivity|].
  rewrite cmds_run, log_cmds_app.
  destruct (any3 off_one (getAttr maya obj scale)); simpl;
    [reflexivity | now rewrite app_nil_r].
Qed.

Lemma check_transforms_run (st : State) :
  check_transforms maya st
  = (match flat_map (transform_entry maya) (sel (self st)) with
     | [] => Ok tt
     | _ :: _ =>
         Raise (PublishError
                  (TransformsNotFrozen
                     (flat_map (transform_entry maya) (sel (self st)))))
     end,
     log_cmds st
       (flat_map (fun obj => map (c_getAttr obj) (channels_read maya obj))
                 (sel (self st)))).
Proof.
  unfold check_transforms. unfold bind at 1. unfold get_self. cbv beta iota.
  unfold bind at 1.
  rewrite (for_each_total _ (fun bad obj => bad ++ transform_entry maya obj)
             (fun obj => map (c_getAttr obj) (channels_read maya obj))).
  - rewrite fold_left_entries. simpl.
    destruct (flat_map (transform_entry maya) (sel (self st))); reflexivity.
  - intros acc x st0. apply transform_iteration.
Qed.

Lemma check_history_run (st : State) :
  check_history maya st
  = (match filter (has_history maya) (sel (self st)) with
     | [] => Ok tt
     | _ :: _ =>
         Raise (PublishError
                  (StillHistory (filter (has_history maya) (sel (self st)))))
     end,
     log_cmds st (map c_listHistory (sel (self st)))).
Proof.
  unfold check_history. unfold bind at 1. unfold get_self. cbv beta iota.
  unfold bind at 1.
  rewrite (for_each_total _
             (fun bad obj => bad ++ (if has_history maya obj then [obj] else []))
             (fun obj => [c_listHistory obj])).
  - rewrite fold_left_entries, flat_map_filter, flat_map_singleton. simpl.
    destruct (filter (has_history maya) (sel (self st))); reflexivity.
  - intros acc x st0. unfold bind, has_history. rewrite cmds_run.
    destruct (listHistory_pdo maya x); simpl; [reflexivity|].
    now rewrite app_nil_r.
Qed.

Lemma lamina_loop_run (meshes : list string) (st : State) :
  for_each meshes ([] : list string)
    (fun lamina_objs obj =>
       bind (cmds (c_polyInfo_laminaFaces obj)) (fun _ =>
         if truthy (polyInfo_laminaFaces maya obj)
         then ret (lamina_objs ++ [obj]) else ret lamina_objs)) st
  = (Ok (filter (has_lamina maya) meshes),
     log_cmds st (map c_polyInfo_laminaFaces meshes)).
Proof.
  rewrite (for_each_total _
             (fun acc obj => acc ++ (if has_lamina maya obj then [obj] else []))
             (fun obj => [c_polyInfo_laminaFaces obj])).
  - now rewrite fold_left_entries, flat_map_filter, flat_map_singleton.
  - intros acc x st0. unfold bind, has_lamina. rewrite cmds_run.
    destruct (truthy (polyInfo_laminaFaces maya x)); simpl; [reflexivity|].
    now rewrite app_nil_r.
Qed.

Lemma check_topology_run (st : State) :
  check_topology maya st
  = match ngons_of maya (sel (self st)) with
    | _ :: _ =>
        (Raise (PublishError (NgonsAt (ngons_of maya (sel (self st))))),
         log_cmds st (ngon_probe maya (sel (self st))))
    | [] =>
        (match filter (has_lamina maya) (ls_dag_mesh maya (sel (self st))) with
         | [] => Ok tt
         | _ :: _ =>
             Raise (PublishError
                      (OverlappingFaces
                         (filter (has_lamina maya)
                                 (ls_dag_mesh maya (sel (self st))))))
         end,
         log_cmds st
           (ngon_probe maya (sel (self st)) ++
            map c_polyInfo_laminaFaces (ls_dag_mesh maya (sel (self st)))))
    end.
Proof.
  unfold check_topology. unfold bind at 1. unfold get_self. cbv beta iota.
  do 6 (unfold bind at 1; rewrite cmds_run; try rewrite log_cmds_app).
  simpl app. fold (ngon_probe maya (sel (self st))).
  unfold ngons_of.
  destruct (constrained_sl maya (ls_dag_mesh maya (sel (self st))))
    as [[|f fs]|]; cbn [truthy].
  2: reflexivity.
  all: unfold bind at 1; rewrite lamina_loop_run, log_cmds_app;
       destruct (filter (has_lamina maya) (ls_dag_mesh maya (sel (self st))));
       reflexivity.
Qed.

End AggregatingChecks.

Section AggregatingProperties.
Import Publisher Report.
Local Open Scope list_scope.
#[local] Set Warnings "-inexact-float".

(** C6. The transform check reads translate, rotate and scale in that
    order and stops reading an object's channels at the first one out of
    tolerance, recording ["{object} ({Channel})"] for it; it goes through
    the whole selection and raises once, with every entry, exactly when
    some object was flagged.  The tolerance is strict: a translation of
    [[0, 0, 0.0010]] passes, [[0, 0, 0.0011]] is flagged as [(Translate)]
    and its rotate and scale are not read. *)
Theorem C6_check_transforms_aggregates (maya : Maya) (st : State) :
  check_transforms maya st
  = (match flat_map (transform_entry maya) (sel (self st)) with
     | [] => Ok tt
     | _ :: _ =>
         Raise (PublishError
                  (TransformsNotFrozen
                     (flat_map (transform_entry maya) (sel (self st)))))
     end,
     log_cmds st
       (flat_map (fun obj => map (c_getAttr obj) (channels_read maya obj))
                 (sel (self st))))
  /\ (flat_map (transform_entry maya) (sel (self st)) <> [] <->
      exists obj, In obj (sel (self st)) /\ first_bad_channel maya obj <> None)
  /\ check_transforms Demo.maya_tolerance
       (Demo.fresh ModelPublisher ["geo_a"]%string None)
     = (Ok tt,
        log_cmds (Demo.fresh ModelPublisher ["geo_a"]%string None)
          [c_getAttr "geo_a" translate; c_getAttr "geo_a" rotate;
           c_getAttr "geo_a" scale])
  /\ check_transforms Demo.maya_tolerance
       (Demo.fresh ModelPublisher ["geo_b"; "geo_a"]%string None)
     = (Raise (PublishError (TransformsNotFrozen ["geo_b (Translate)"%string])),
        log_cmds (Demo.fresh ModelPublisher ["geo_b"; "geo_a"]%string None)
          [c_getAttr "geo_b" translate;
           c_getAttr "geo_a" translate; c_getAttr "geo_a" rotate;
           c_getAttr "geo_a" scale]).
Proof.
  split; [apply check_transforms_run|].
  split; [|split; vm_compute; reflexivity].
  induction (sel (self st)) as [|x l IH]; simpl.
  - split; [congruence | intros (obj & [] & _)].
  - unfold transform_entry at 1.
    destruct (first_bad_channel maya x) as [c|] eqn:Hx; simpl.
    + split; [|discriminate]. intros _. exists x. split; [now left|].
      rewrite Hx. discriminate.
    + rewrite IH. split.
      * intros (obj & Hin & Hbad). exists obj. auto.
      * intros (obj & [-> | Hin] & Hbad); [congruence|]. exists obj. auto.
Qed.

(** The comparisons are strict and on binary64 values: the tolerance
    itself passes on either side of zero, and the subtraction of [1.0]
    is the rounded one. *)
Example tolerance_is_strict :
  off_zero 0.001%float = false /\ off_zero (-0.001)%float = false /\
  off_zero 0.0011%float = true /\ off_zero (-0.0011)%float = true /\
  off_one 1%float = false /\ off_one 1.001%float = false /\
  off_one 1.002%float = true /\ off_one 0.998%float = true /\
  off_one 0.999%float = true.
Proof. repeat split. Qed.

(** C7. The history check queries every object once, flags the objects
    whose non-DAG construction history is not empty, and raises once with
    all of them exactly when there is one.  The code tests the answer of
    [listHistory] against [None]: Maya answers [None], not an empty list,
    for an object without history, which is the assumption made here. *)
Theorem C7_check_history_aggregates (maya : Maya) (st : State)
    (Hnone : forall obj, In obj (sel (self st)) ->
                         listHistory_pdo maya obj <> Some []) :
  check_history maya st
  = (match filter (has_history maya) (sel (self st)) with
     | [] => Ok tt
     | _ :: _ =>
         Raise (PublishError
                  (StillHistory (filter (has_history maya) (sel (self st)))))
     end,
     log_cmds st (map c_listHistory (sel (self st))))
  /\ (forall obj,
        In obj (filter (has_history maya) (sel (self st))) <->
        In obj (sel (self st)) /\ history_of maya obj <> [])
  /\ (fst (check_history maya st) = Ok tt <->
      forall obj, In obj (sel (self st)) -> history_of maya obj = []).
Proof.
  assert (Hflag : forall obj, In obj (sel (self st)) ->
                    (has_history maya obj = true <-> history_of maya obj <> [])).
  { intros obj Hin. specialize (Hnone obj Hin).
    unfold has_history, history_of.
    destruct (listHistory_pdo maya obj) as [[|h t]|]; split; intro H;
      congruence. }
  assert (Hmem : forall obj,
             In obj (filter (has_history maya) (sel (self st))) <->
             In obj (sel (self st)) /\ history_of maya obj <> []).
  { intro obj. rewrite filter_In. split; intros [Hin H]; split; trivial;
      now apply Hflag. }
  split; [apply check_history_run|]. split; [exact Hmem|].
  rewrite check_history_run. simpl.
  destruct (filter (has_history maya) (sel (self st))) as [|b bs] eqn:Hf.
  - split; [intros _ | reflexivity]. intros obj Hin.
    destruct (history_of maya obj) eqn:Hh; [reflexivity|].
    exfalso. apply (proj2 (Hmem obj)). split; [assumption|]. rewrite Hh.
    discriminate.
  - split; [discriminate|]. intro Hall.
    destruct (proj1 (Hmem b)) as [Hin Hb]; [now left|].
    now specialize (Hall b Hin).
Qed.

(** C8. The topology check resolves the selection to its meshes and looks
    for n-gons first: when there are some it raises with them at once and
    no lamina query is made.  Only without n-gons does it query every mesh
    for lamina faces, collect the meshes that have some and raise once
    with all of them, exactly when there is one. *)
Theorem C8_check_topology_ngons_first (maya : Maya) (st : State) :
  check_topology maya st
  = match ngons_of maya (sel (self st)) with
    | _ :: _ =>
        (Raise (PublishError (NgonsAt (ngons_of maya (sel (self st))))),
         log_cmds st (ngon_probe maya (sel (self st))))
    | [] =>
        (match filter (has_lamina maya) (ls_dag_mesh maya (sel (self st))) with
         | [] => Ok tt
         | _ :: _ =>
             Raise (PublishError
                      (OverlappingFaces
                         (filter (has_lamina maya)
                                 (ls_dag_mesh maya (sel (self st))))))
         end,
         log_cmds st
           (ngon_probe maya (sel (self st)) ++
            map c_polyInfo_laminaFaces (ls_dag_mesh maya (sel (self st)))))
    end
  /\ (forall mesh, ~ In (c_polyInfo_laminaFaces mesh)
                        (ngon_probe maya (sel (self st))))
  /\ (forall mesh,
        In mesh (filter (has_lamina maya) (ls_dag_mesh maya (sel (self st)))) <->
        In mesh (ls_dag_mesh maya (sel (self st))) /\
        exists f fs, polyInfo_laminaFaces maya mesh = Some (f :: fs)).
Proof.
  split; [apply check_topology_run|]. split.
  - intros mesh H. simpl in H.
    repeat (destruct H as [H|H]; [discriminate|]). exact H.
  - intro mesh. rewrite filter_In. unfold has_lamina, truthy.
    destruct (polyInfo_laminaFaces maya mesh) as [[|f fs]|]; split;
      intros [Hin H]; split; trivial; try discriminate.
    + destruct H as (? & ? & H); discriminate.
    + now exists f, fs.
    + destruct H as (? & ? & H); discriminate.
Qed.

End AggregatingProperties.

(* ================================================================== *)
(** ** The naming check and the stage driver *)

Section Naming.
Import PyStr Publisher Report.
Local Open Scope list_scope.

Lemma naming_body_entries (prefix : string) (acc : list string) (obj : string) :
  naming_body prefix acc obj = acc ++ naming_entries prefix obj.
Proof.
  unfold naming_body, naming_entries, bad_token_count, bad_prefix, tokens,
    leaf_name, not_in_length.
  destruct (negb (Nat.eqb _ 3 || Nat.eqb _ 4));
    destruct (negb (String.eqb _ prefix)); simpl;
    rewrite <- ?app_assoc, ?app_nil_r; reflexivity.
Qed.

Lemma naming_fold (prefix : string) (l acc : list string) :
  fold_left (naming_body prefix) l acc = acc ++ flat_map (naming_entries prefix) l.
Proof.
  revert acc; induction l as [|x l IH]; intros acc; simpl.
  - now rewrite app_nil_r.
  - now rewrite IH, naming_body_entries, app_assoc.
Qed.

Lemma My_verify_assets_run (prefix : string) (st : State) :
  My_verify_assets prefix st
  = match scene (self st) with
    | None => (Raise (AttributeError "scene"), st)
    | Some sc =>
        if not_in_length (List.length (split "_" sc)) then
          (Raise (PublishError (WrongFileName sc)), st)
        else
          (match flat_map (naming_entries prefix) (sel (self st)) with
           | [] => Ok PyTrue
           | _ :: _ =>
               Raise (PublishError
                        (NamingStandard
                           (flat_map (naming_entries prefix) (sel (self st)))))
           end, st)
    end.
Proof.
  unfold My_verify_assets, getattr, bind, get_self.
  destruct (scene (self st)) as [sc|]; [|reflexivity]. simpl.
  destruct (not_in_length (List.length (split "_" sc))); [reflexivity|].
  rewrite naming_fold. simpl.
  destruct (flat_map (naming_entries prefix) (sel (self st))); reflexivity.
Qed.

Lemma count_occ_naming_entries (prefix obj x : string) :
  count_occ string_dec (naming_entries prefix obj) x
  = if string_dec obj x
    then b2n (bad_token_count obj) + b2n (bad_prefix prefix obj) else 0.
Proof.
  unfold naming_entries.
  destruct (bad_token_count obj); destruct (bad_prefix prefix obj); simpl;
    destruct (string_dec obj x); reflexivity.
Qed.

Lemma count_occ_offenders (prefix : string) (l : list string) (x : string) :
  count_occ string_dec (flat_map (naming_entries prefix) l) x
  = count_occ string_dec l x
    * (b2n (bad_token_count x) + b2n (bad_prefix prefix x)).
Proof.
  induction l as [|y l IH]; simpl; [reflexivity|].
  rewrite count_occ_app, IH, count_occ_naming_entries.
  destruct (string_dec y x) as [->|]; simpl; lia.
Qed.

(** C3. With a scene name that passes, the naming check goes through the
    whole selection: an object is appended once when its leaf name does
    not have 3 or 4 tokens and once more when the first token is not the
    prefix, so that an object failing both is listed twice for each of its
    occurrences in the selection; the check raises once with the whole
    list when it is not empty and returns [True] when it is. *)
Theorem C3_naming_offenders_not_deduplicated (prefix : string) (st : State) :
  My_verify_assets prefix st
  = match scene (self st) with
    | None => (Raise (AttributeError "scene"), st)
    | Some sc =>
        if not_in_length (List.length (split "_" sc)) then
          (Raise (PublishError (WrongFileName sc)), st)
        else
          (match flat_map (naming_entries prefix) (sel (self st)) with
           | [] => Ok PyTrue
           | _ :: _ =>
               Raise (PublishError
                        (NamingStandard
                           (flat_map (naming_entries prefix) (sel (self st)))))
           end, st)
    end
  /\ (forall obj,
        count_occ string_dec
                  (flat_map (naming_entries prefix) (sel (self st))) obj
        = count_occ string_dec (sel (self st)) obj
          * (b2n (bad_token_count obj) + b2n (bad_prefix prefix obj)))
  /\ naming_entries "geo" "mesh_hero_body" = ["mesh_hero_body"%string]
  /\ naming_entries "geo" "mesh_hero" = ["mesh_hero"; "mesh_hero"]%string
  /\ naming_entries "geo" "geo_hero_body" = [].
Proof.
  split; [apply My_verify_assets_run|].
  split; [intro obj; apply count_occ_offenders|].
  repeat split.
Qed.

End Naming.

Section Driver.
Import PyStr Publisher Report.
Local Open Scope list_scope.

(** [ModelPublisher.verify_assets] overwrites the [prefix] attribute
    before it reads it: the prefix given to the constructor has no effect
    on the stage. *)
Lemma Model_verify_assets_prefix_overwritten (maya : Maya) (p : string)
    (st : State) :
  Model_verify_assets maya
    (mkState (set_prefix p (self st)) (disk st) (stdout st) (cmds_log st)
             (posted st))
  = Model_verify_assets maya st.
Proof. reflexivity. Qed.

Lemma collect_assets_run (maya : Maya) (st : State) :
  collect_assets maya st
  = match sel (self st) with
    | [] => (Raise (PublishError NoSelection), st)
    | _ :: _ =>
        (Ok PyTrue,
         mkState (set_scene (last_item (split "/" (file_exn maya))) (self st))
                 (disk st)
                 (stdout st
                  ++ [CollectingDone (last_item (split "/" (file_exn maya)))])
                 (cmds_log st ++ [c_file_exn]) (posted st))
    end.
Proof.
  unfold collect_assets, bind, get_self.
  destruct (sel (self st)); reflexivity.
Qed.

(** C2. On a [ModelPublisher] with a non-empty selection the inherited
    [main] runs Collect and then raises [TypeError] at the call
    [self.verify_assets(self.prefix)]: the overriding method takes no
    prefix (and [extract_assets] called without argument would not fit
    either).  Nothing of Verify, Extract or Implement has happened when
    the exception leaves [main].  The four stage methods called one by
    one, as the user interface does, run through. *)
Theorem C2_main_raises_TypeError (maya : Maya) (host : Host) (st : State)
    (Hcls : cls (self st) = ModelPublisher)
    (Hsel : sel (self st) <> []) :
  main maya host st
  = (Raise TypeError,
     mkState (set_scene (last_item (split "/" (file_exn maya))) (self st))
             (disk st)
             (stdout st
              ++ [StartingPublishing;
                  CollectingDone (last_item (split "/" (file_exn maya)));
                  CriticalError TypeError])
             (cmds_log st ++ [c_file_exn; c_warning_critical TypeError])
             (posted st))
  /\ (forall p, call maya host m_verify_assets [p] st = (Raise TypeError, st))
  /\ call maya host m_extract_assets [] st = (Raise TypeError, st)
  /\ fst (run_publish_calls Demo.maya_clean Demo.host_unreachable "OBJexport"
            (Demo.fresh ModelPublisher ["geo_hero_body"%string] None))
     = Ok PyNone.
Proof.
  split; [|split; [|split]].
  - destruct st as [[c l a p op sc sn v u] d out lg ps]. simpl in Hcls, Hsel.
    subst c. destruct l as [|o l]; [congruence|].
    unfold main, try_except, bind, print, call, get_self, collect_assets;
      simpl.
    rewrite <- !app_assoc. reflexivity.
  - intro p. unfold call, bind, get_self. now rewrite Hcls.
  - unfold call, bind, get_self. now rewrite Hcls.
  - vm_compute. reflexivity.
Qed.

(** C4 on the code as it is.  A [ModelPublisher] built with
    [prefix="mesh"] on the clean scene: [mesh_hero_body] starts with the
    configured prefix and is reported all the same, while [geo_hero_body]
    passes; the base-class check called with the configured prefix, as
    [main] calls it, accepts the first and reports the second. *)
Theorem C4_configured_prefix_ignored :
  fst (Model_verify_assets Demo.maya_clean
         (Demo.collected ModelPublisher ["mesh_hero_body"%string] (Some "mesh"%string)))
  = Raise (PublishError (NamingStandard ["mesh_hero_body"%string]))
  /\ fst (Model_verify_assets Demo.maya_clean
            (Demo.collected ModelPublisher ["geo_hero_body"%string] (Some "mesh"%string)))
     = Ok PyNone
  /\ fst (My_verify_assets "mesh"
            (Demo.collected ModelPublisher ["mesh_hero_body"%string] (Some "mesh"%string)))
     = Ok PyTrue
  /\ fst (My_verify_assets "mesh"
            (Demo.collected ModelPublisher ["geo_hero_body"%string] (Some "mesh"%string)))
     = Raise (PublishError (NamingStandard ["geo_hero_body"%string])).
Proof. repeat split; vm_compute; reflexivity. Qed.

End Driver.

(* ================================================================== *)
(** ** Facts about strings and number formatting *)

Section StringFacts.
Import PyStr Fmt.
Local Open Scope string_scope.

Lemma append_assoc (a b c : string) : (a ++ b) ++ c = a ++ (b ++ c).
Proof. induction a as [|x a IH]; simpl; [reflexivity|]. now rewrite IH. Qed.

Lemma append_nil_r (a : string) : a ++ "" = a.
Proof. induction a as [|x a IH]; simpl; [reflexivity|]. now rewrite IH. Qed.

Lemma length_append (a b : string) :
  String.length (a ++ b) = String.length a + String.length b.
Proof. induction a as [|x a IH]; simpl; [reflexivity|]. now rewrite IH. Qed.

Lemma all_chars_append (p : ascii -> bool) (a b : string) :
  all_chars p (a ++ b) = all_chars p a && all_chars p b.
Proof.
  induction a as [|x a IH]; simpl; [reflexivity|].
  now rewrite IH, andb_assoc.
Qed.

Lemma take_exact (a b : string) : take (String.length a) (a ++ b) = a.
Proof. induction a as [|x a IH]; simpl; [now destruct b|]. now rewrite IH. Qed.

Lemma length_upper (s : string) : String.length (upper s) = String.length s.
Proof. induction s as [|x s IH]; simpl; [reflexivity|]. now rewrite IH. Qed.

Lemma all_chars_upper (p : ascii -> bool) (s : string) :
  all_chars p (upper s) = all_chars (fun a => p (upper_char a)) s.
Proof. induction s as [|x s IH]; simpl; [reflexivity|]. now rewrite IH. Qed.

Lemma all_chars_impl (p q : ascii -> bool) (s : string) :
  (forall a, p a = true -> q a = true) ->
  all_chars p s = true -> all_chars q s = true.
Proof.
  intro H. induction s as [|x s IH]; simpl; [reflexivity|].
  intro Hs. apply andb_prop in Hs as [Hx Hs]. now rewrite (H x Hx), IH.
Qed.

Section FixedWidth.
Variable b : N.
Variable ch : nat -> ascii.
Hypothesis b_pos : (0 < b)%N.

Lemma fixed_width_length (w : nat) (n : N) :
  String.length (fixed_width b ch w n) = w.
Proof.
  clear b_pos. revert n; induction w as [|w IH]; intro n; simpl; [reflexivity|].
  rewrite length_append, IH. simpl. lia.
Qed.

Lemma fixed_width_all (p : ascii -> bool) (w : nat) (n : N) :
  (forall d, d < N.to_nat b -> p (ch d) = true) ->
  all_chars p (fixed_width b ch w n) = true.
Proof.
  intro Hp. revert n; induction w as [|w IH]; intro n; simpl; [reflexivity|].
  rewrite all_chars_append, IH. simpl. rewrite Hp; [reflexivity|].
  pose proof (N.mod_upper_bound n b). lia.
Qed.

(** The first [w1] digits of a [w1 + w2]-digit rendering are the
    rendering of the number shifted by [w2] digits. *)
Lemma fixed_width_split (w1 w2 : nat) (n : N) :
  fixed_width b ch (w1 + w2) n
  = fixed_width b ch w1 (n / b ^ N.of_nat w2)%N ++ fixed_width b ch w2 n.
Proof.
  clear b_pos. revert n; induction w2 as [|w2 IH]; intro n.
  - rewrite Nat.add_0_r. simpl. now rewrite N.div_1_r, append_nil_r.
  - rewrite Nat.add_succ_r. cbn [fixed_width]. rewrite IH.
    rewrite append_assoc. f_equal. f_equal.
    rewrite Nat2N.inj_succ, N.pow_succ_r', N.Div0.div_div. reflexivity.
Qed.

End FixedWidth.

(** The digits of a decimal field denote the number rendered, as long as
    it fits the width. *)
Lemma dec_value_acc_append (acc : N) (a c : string) :
  dec_value_acc acc (a ++ c) = dec_value_acc (dec_value_acc acc a) c.
Proof.
  revert acc; induction a as [|x a IH]; intro acc; simpl; [reflexivity|].
  now rewrite IH.
Qed.

Lemma digit_char_value (d : nat) :
  d < 10 -> (N_of_ascii (digit_char d) - 48)%N = N.of_nat d.
Proof.
  intro H. do 10 (destruct d as [|d]; [reflexivity|]). lia.
Qed.

Lemma dec_value_acc_dec (w : nat) (n acc : N) :
  (n < 10 ^ N.of_nat w)%N ->
  dec_value_acc acc (dec w n) = (acc * 10 ^ N.of_nat w + n)%N.
Proof.
  unfold dec. revert n acc; induction w as [|w IH]; intros n acc Hn.
  - change (N.of_nat 0) with 0%N in *. rewrite N.pow_0_r in *.
    cbn [fixed_width dec_value_acc]. lia.
  - cbn [fixed_width]. rewrite dec_value_acc_append.
    rewrite Nat2N.inj_succ, N.pow_succ_r' in *.
    rewrite IH by (apply N.Div0.div_lt_upper_bound; lia).
    cbn [dec_value_acc].
    assert (Hm : (n mod 10 < 10)%N) by (apply N.mod_upper_bound; lia).
    rewrite digit_char_value by lia. rewrite N2Nat.id.
    pose proof (N.div_mod n 10). lia.
Qed.

Lemma dec_value_dec (w : nat) (n : N) :
  (n < 10 ^ N.of_nat w)%N -> dec_value (dec w n) = n.
Proof. intro H. unfold dec_value. rewrite dec_value_acc_dec by assumption. lia. Qed.

Lemma dec_length (w : nat) (n : N) : String.length (dec w n) = w.
Proof. now apply fixed_width_length. Qed.

Lemma dec_digits (w : nat) (n : N) : all_chars is_digit (dec w n) = true.
Proof.
  apply fixed_width_all; [reflexivity|]. intros d Hd.
  change (N.to_nat 10) with 10 in Hd.
  do 10 (destruct d as [|d]; [reflexivity|]). lia.
Qed.

(** The identifier: eight characters of [[0-9A-F]], the upper-case
    rendering of the 32 most significant bits of the UUID. *)
Lemma unique_hash_top_bits (u : N) :
  Publisher.unique_hash_of u
  = upper (fixed_width 16 hex_char 8 (u / 16 ^ 24)%N).
Proof.
  unfold Publisher.unique_hash_of, hex32.
  change 32 with (8 + 24).
  rewrite fixed_width_split. change (N.of_nat 24) with 24%N.
  rewrite <- (fixed_width_length 16 hex_char 8 (u / 16 ^ 24)%N) at 1.
  now rewrite take_exact.
Qed.

Lemma unique_hash_length (u : N) :
  String.length (Publisher.unique_hash_of u) = 8.
Proof.
  now rewrite unique_hash_top_bits, length_upper, fixed_width_length.
Qed.

Lemma unique_hash_upper_hex (u : N) :
  all_chars is_upper_hex (Publisher.unique_hash_of u) = true.
Proof.
  rewrite unique_hash_top_bits, all_chars_upper.
  apply fixed_width_all; [reflexivity|]. intros d Hd.
  change (N.to_nat 16) with 16 in Hd.
  do 16 (destruct d as [|d]; [reflexivity|]). lia.
Qed.

End StringFacts.

(* ================================================================== *)
(** ** The Implement stage *)

Section Implement.
Import PyStr PosixPath FileSys Fmt Json Publisher Report.
Local Open Scope list_scope.
Variable host : Host.

(** The dispatcher returns the message whatever the transport did: a
    [RequestException] is turned into a printed line. *)
Lemma discord_notification_run (asset_name version department : string)
    (bot_url : option string) (st : State) :
  discord_notification host asset_name version department bot_url st
  = (Ok (discord_message asset_name version department (getuser host)),
     mkState (set_user (getuser host) (self st)) (disk st)
             (stdout st
              ++ [outcome_line
                    (post host bot_url
                          (discord_message asset_name version department
                                           (getuser host)))])
             (cmds_log st)
             (posted st
              ++ [(bot_url,
                   discord_message asset_name version department
                                   (getuser host))])).
Proof.
  unfold discord_notification, try_except, requests_post, getattr, bind,
    set_self, get_self, print, ret. simpl.
  destruct (post host bot_url _); reflexivity.
Qed.

Lemma Model_implement_assets_run (description : string) (st : State) :
  Model_implement_assets host description st
  = match scene_name (self st), version (self st) with
    | None, _ => (Raise (AttributeError "scene_name"), st)
    | Some _, None => (Raise (AttributeError "version"), st)
    | Some n, Some v =>
        let message := discord_message n v "modeling" (getuser host) in
        let bot := PIPELINE_DISCORD_BOT host in
        let asset_data :=
          asset_data_of (unique_hash_of (uuid4 host))
                        (strftime_Ymd_HMS (now host)) n v
                        (obj_path (self st)) (getuser host) description in
        let printed := [outcome_line (post host bot message); CsvPrinting] in
        let st1 fs out :=
          mkState (set_user (getuser host) (self st)) fs (stdout st ++ out)
                  (cmds_log st) (posted st ++ [(bot, message)]) in
        match sidecar_path (obj_path (self st)) with
        | None => (Raise ValueError, st1 (disk st) printed)
        | Some db_path =>
            match write_file (cwd host) db_path (dumps_indent4 asset_data)
                             (disk st) with
            | None => (Raise OSError, st1 (disk st) printed)
            | Some fs => (Ok PyNone, st1 fs (printed ++ [DoneCsv]))
            end
        end
    end.
Proof.
  unfold Model_implement_assets.
  unfold bind at 1. unfold getattr at 1. unfold bind at 1, get_self at 1.
  destruct (scene_name (self st)) as [n|] eqn:Hn; [|reflexivity].
  cbv beta iota. unfold ret at 1.
  unfold bind at 1. unfold getattr at 1. unfold bind at 1, get_self at 1.
  destruct (version (self st)) as [v|] eqn:Hv; [|reflexivity].
  cbv beta iota. unfold ret at 1.
  unfold bind at 1. rewrite discord_notification_run.
  unfold getattr, csv_publisher, on_disk, bind, get_self, print, ret.
  simpl. rewrite Hn. simpl. rewrite Hv. simpl.
  destruct (sidecar_path (obj_path (self st))) as [p|];
    [|rewrite <- !app_assoc; reflexivity].
  simpl.
  destruct (write_file (cwd host) p _ (disk st)); simpl;
    rewrite <- !app_assoc; reflexivity.
Qed.

End Implement.

Section ImplementProperties.
Import PyStr PosixPath FileSys Fmt Json Publisher Report.
Local Open Scope list_scope.

(** C9. Whatever the outcome [o] of posting the notification, the
    dispatcher returns the message: a failure of the transport is caught
    inside it and printed, never raised.  The Implement stage of a
    publisher that has been through Extract, and whose sidecar can be
    written, then completes: it returns normally, the record is on disk,
    and the only trace of a failure [e] is the line printed for it. *)
Theorem C9_notification_failure_not_propagated
    (host : Host) (description : string) (st : State)
    (n v db_path : string) (fs : FS) (o : option request_exception)
    (Hname : scene_name (self st) = Some n)
    (Hversion : version (self st) = Some v)
    (Hpath : sidecar_path (obj_path (self st)) = Some db_path)
    (Hwrite :
       write_file (cwd host) db_path
         (dumps_indent4
            (asset_data_of (unique_hash_of (uuid4 host))
                           (strftime_Ymd_HMS (now host)) n v
                           (obj_path (self st)) (getuser host) description))
         (disk st) = Some fs)
    (Hpost :
       post host (PIPELINE_DISCORD_BOT host)
            (discord_message n v "modeling" (getuser host)) = o) :
  discord_notification host n v "modeling" (PIPELINE_DISCORD_BOT host) st
  = (Ok (discord_message n v "modeling" (getuser host)),
     mkState (set_user (getuser host) (self st)) (disk st)
             (stdout st ++ [outcome_line o]) (cmds_log st)
             (posted st
              ++ [(PIPELINE_DISCORD_BOT host,
                   discord_message n v "modeling" (getuser host))]))
  /\ Model_implement_assets host description st
     = (Ok PyNone,
        mkState (set_user (getuser host) (self st)) fs
                (stdout st ++ [outcome_line o; CsvPrinting; DoneCsv])
                (cmds_log st)
                (posted st
                 ++ [(PIPELINE_DISCORD_BOT host,
                      discord_message n v "modeling" (getuser host))]))
  /\ read_file (cwd host) db_path fs
     = Some (dumps_indent4
               (asset_data_of (unique_hash_of (uuid4 host))
                              (strftime_Ymd_HMS (now host)) n v
                              (obj_path (self st)) (getuser host) description))
  /\ (forall e, o = Some e -> outcome_line o = DiscordFailed e).
Proof.
  split; [|split; [|split]].
  - rewrite discord_notification_run, Hpost. reflexivity.
  - rewrite Model_implement_assets_run, Hname, Hversion. cbv zeta.
    rewrite Hpath, Hwrite, Hpost. reflexivity.
  - revert Hwrite. unfold write_file, read_file.
    destruct (_ || _); [discriminate|].
    destruct (is_dir _ (disk st)); [discriminate|].
    destruct (_ && _); [|discriminate].
    intro H; injection H as <-. cbn [files find fst option_map snd].
    now rewrite loc_eqb_refl.
  - now intros e ->.
Qed.

End ImplementProperties.

(* ================================================================== *)
(** ** The publish record *)

Section Record.
Import PyStr PosixPath FileSys Fmt Json Publisher Report.
Local Open Scope string_scope.

(** The encoder lays a dictionary of seven strings out as seven lines
    between braces. *)
Lemma dumps_asset_data (i d n v p u c : string) :
  dumps_indent4 (asset_data_of i d n v p u c)
  = pretty_record [("id", i); ("date", d); ("name", n); ("version", v);
                   ("path", p); ("user", u); ("description", c)].
Proof.
  unfold dumps_indent4, asset_data_of, pretty_record, record_line, encode.
  cbn [map join fst snd newline_indent spaces Nat.mul Nat.add].
  repeat (rewrite ?append_assoc; cbn [append]).
  reflexivity.
Qed.

(** Where the last dot of a string is. *)
Lemma rsplit_dot_spec (s pre suf : string) :
  rsplit_dot s = Some (pre, suf) ->
  s = pre ++ suf /\
  exists rest, suf = String dot rest /\ contains dot rest = false.
Proof.
  revert pre suf; induction s as [|a s IH]; intros pre suf; simpl;
    [discriminate|].
  destruct (rsplit_dot s) as [[pre' suf']|] eqn:Hs.
  - intro H; injection H as <- <-.
    destruct (IH pre' suf' eq_refl) as [-> Hsuf]. split; [reflexivity|].
    exact Hsuf.
  - destruct (Ascii.eqb a dot) eqn:Ha; [|discriminate].
    intro H; injection H as <- <-. apply Ascii.eqb_eq in Ha as ->.
    split; [reflexivity|]. exists s. split; [reflexivity|].
    clear IH. induction s as [|b s IH]; simpl in *; [reflexivity|].
    destruct (rsplit_dot s) as [[? ?]|]; [discriminate|].
    destruct (Ascii.eqb b dot); [discriminate|]. now apply IH.
Qed.

(** A name is its stem followed by its suffix; the suffix is empty or
    starts at the last dot of the name. *)
Lemma split_suffix_spec (nm : string) :
  nm = fst (split_suffix nm) ++ snd (split_suffix nm) /\
  (snd (split_suffix nm) = "" \/
   exists rest, snd (split_suffix nm) = String dot rest /\
                contains dot rest = false).
Proof.
  unfold split_suffix.
  destruct (rsplit_dot nm) as [[pre suf]|] eqn:H; simpl.
  - destruct (_ && _); simpl.
    + destruct (rsplit_dot_spec _ _ _ H) as [-> Hsuf]. auto.
    + rewrite append_nil_r. auto.
  - rewrite append_nil_r. auto.
Qed.

(** The sidecar path: the export path, parsed, with the suffix of its
    last component removed, followed by ["_metadata.json"]. *)
Lemma sidecar_path_spec (obj_path db_path : string) :
  sidecar_path obj_path = Some db_path ->
  exists q,
    db_path = to_str q ++ "_metadata.json" /\
    root q = root (Path obj_path) /\
    removelast (parts q) = removelast (parts (Path obj_path)) /\
    name (Path obj_path) = name q ++ suffix (Path obj_path).
Proof.
  unfold sidecar_path, with_suffix_empty.
  destruct (String.eqb (name (Path obj_path)) ""); [discriminate|].
  simpl. intro H; injection H as <-.
  eexists. split; [reflexivity|]. simpl.
  split; [reflexivity|]. split.
  - now rewrite removelast_last.
  - unfold name at 2, last_item. simpl. rewrite last_last.
    apply split_suffix_spec.
Qed.

(** The timestamp reads back as the fields of the date. *)
Lemma strftime_shape (d : datetime) :
  valid_datetime d ->
  exists Y m D H M S,
    strftime_Ymd_HMS d = Y ++ m ++ D ++ "-" ++ H ++ M ++ S /\
    (String.length Y = 4 /\ String.length m = 2 /\ String.length D = 2 /\
     String.length H = 2 /\ String.length M = 2 /\ String.length S = 2) /\
    all_chars is_digit (Y ++ m ++ D ++ H ++ M ++ S) = true /\
    (dec_value Y = year d /\ dec_value m = month d /\ dec_value D = day d /\
     dec_value H = hour d /\ dec_value M = minute d /\
     dec_value S = second d).
Proof.
  intros (Hy & Hm & Hd & Hh & Hmi & Hs).
  exists (dec 4 (year d)), (dec 2 (month d)), (dec 2 (day d)),
    (dec 2 (hour d)), (dec 2 (minute d)), (dec 2 (second d)).
  split; [reflexivity|].
  split; [rewrite !dec_length; repeat split|].
  split; [rewrite !all_chars_append, !dec_digits; reflexivity|].
  repeat split; apply dec_value_dec; simpl; lia.
Qed.

Lemma strftime_length (d : datetime) : String.length (strftime_Ymd_HMS d) = 15.
Proof.
  unfold strftime_Ymd_HMS. rewrite !length_append, !dec_length. reflexivity.
Qed.

End Record.

Section RecordProperty.
Import PyStr PosixPath FileSys Fmt Json Publisher Report.
Local Open Scope string_scope.

(** C10. An Implement stage that returns normally has written exactly one
    file, the sidecar, and touched nothing else on disk.  The sidecar
    sits at the export path with the suffix of its last component removed
    and ["_metadata.json"] appended; its content is the record printed as
    JSON with an indent of four spaces and exactly the fields [id],
    [date], [name], [version], [path], [user], [description], in that
    order.  The [id] is eight characters of [[0-9A-F]]; the [date] is the
    clock reading as [YYYYMMDD-HHMMSS]. *)
Theorem C10_publish_record
    (host : Host) (description : string) (st st' : State) (r : pyret)
    (Hrun : Model_implement_assets host description st = (Ok r, st'))
    (Hdate : valid_datetime (now host)) :
  exists n v db_path q,
    scene_name (self st) = Some n /\
    version (self st) = Some v /\
    (* the sidecar path *)
    sidecar_path (obj_path (self st)) = Some db_path /\
    db_path = to_str q ++ "_metadata.json" /\
    root q = root (Path (obj_path (self st))) /\
    removelast (parts q) = removelast (parts (Path (obj_path (self st)))) /\
    name (Path (obj_path (self st)))
    = name q ++ suffix (Path (obj_path (self st))) /\
    (* one file written, nothing else changed *)
    dirs (disk st') = dirs (disk st) /\
    files (disk st')
    = (resolve (cwd host) (Path db_path),
       pretty_record
         [("id", unique_hash_of (uuid4 host));
          ("date", strftime_Ymd_HMS (now host));
          ("name", n); ("version", v); ("path", obj_path (self st));
          ("user", getuser host); ("description", description)])
        :: filter (fun kv =>
                     negb (loc_eqb (resolve (cwd host) (Path db_path)) (fst kv)))
                  (files (disk st)) /\
    (* the identifier *)
    String.length (unique_hash_of (uuid4 host)) = 8 /\
    all_chars is_upper_hex (unique_hash_of (uuid4 host)) = true /\
    (* the timestamp *)
    exists Y m D H M S,
      strftime_Ymd_HMS (now host) = Y ++ m ++ D ++ "-" ++ H ++ M ++ S /\
      (String.length Y = 4 /\ String.length m = 2 /\ String.length D = 2 /\
       String.length H = 2 /\ String.length M = 2 /\ String.length S = 2) /\
      all_chars is_digit (Y ++ m ++ D ++ H ++ M ++ S) = true /\
      (dec_value Y = year (now host) /\ dec_value m = month (now host) /\
       dec_value D = day (now host) /\ dec_value H = hour (now host) /\
       dec_value M = minute (now host) /\ dec_value S = second (now host)).
Proof.
  rewrite Model_implement_assets_run in Hrun.
  destruct (scene_name (self st)) as [n|]; [|discriminate].
  destruct (version (self st)) as [v|]; [|discriminate].
  cbv zeta in Hrun.
  destruct (sidecar_path (obj_path (self st))) as [db_path|] eqn:Hpath;
    [|discriminate].
  destruct (write_file _ _ _ _) as [fs|] eqn:Hwrite; [|discriminate].
  injection Hrun as _ <-.
  destruct (sidecar_path_spec _ _ Hpath) as (q & Hdb & Hroot & Hparts & Hname).
  exists n, v, db_path, q.
  repeat (split; [reflexivity || assumption|]).
  rewrite dumps_asset_data in Hwrite. unfold write_file in Hwrite.
  destruct (_ || _); [discriminate|].
  destruct (is_dir _ (disk st)); [discriminate|].
  destruct (_ && _); [|discriminate].
  injection Hwrite as <-. cbn [disk dirs files].
  split; [reflexivity|]. split; [reflexivity|].
  split; [apply unique_hash_length|]. split; [apply unique_hash_upper_hex|].
  now apply strftime_shape.
Qed.

End RecordProperty.

(* ================================================================== *)
(** ** The Extract stage: names, paths, directories *)

Section Splitting.
Import PyStr PosixPath.
Local Open Scope string_scope.

Lemma split_nonempty (c : ascii) (s : string) : split c s <> [].
Proof.
  destruct s as [|a s]; simpl; [discriminate|].
  destruct (Ascii.eqb a c); [discriminate|].
  destruct (split c s); discriminate.
Qed.

(** A string without the separator is its own single token. *)
Lemma split_no_sep (c : ascii) (s : string) :
  contains c s = false -> split c s = [s].
Proof.
  induction s as [|a s IH]; simpl; [reflexivity|].
  destruct (Ascii.eqb a c); simpl; [discriminate|].
  intro H. now rewrite IH.
Qed.

(** Splitting goes through a separator that follows a token. *)
Lemma split_token_sep (c : ascii) (x s : string) :
  contains c x = false -> split c (x ++ String c s) = x :: split c s.
Proof.
  induction x as [|a x IH]; simpl.
  - intros _. now rewrite Ascii.eqb_refl.
  - destruct (Ascii.eqb a c); simpl; [discriminate|].
    intro H. now rewrite IH.
Qed.

(** The last token: it has no separator, and the string is either that
    token alone or ends with a separator followed by it. *)
Lemma split_last_token (c : ascii) (s : string) :
  contains c (last_item (split c s)) = false /\
  (s = last_item (split c s) \/
   exists pre, s = pre ++ String c (last_item (split c s))).
Proof.
  unfold last_item. induction s as [|a s IH]; simpl.
  - split; [reflexivity | now left].
  - destruct IH as [Hno Hshape].
    destruct (Ascii.eqb a c) eqn:Ha.
    + apply Ascii.eqb_eq in Ha as ->.
      pose proof (split_nonempty c s) as Hne.
      destruct (split c s) as [|h t] eqn:Hs; [congruence|].
      change (last ("" :: h :: t) "") with (last (h :: t) "").
      split; [exact Hno|]. right.
      destruct Hshape as [-> | (pre & ->)].
      * exists "". reflexivity.
      * exists (String c pre). reflexivity.
    + pose proof (split_nonempty c s) as Hne.
      destruct (split c s) as [|h t] eqn:Hs; [congruence|].
      destruct t as [|h' t].
      * simpl in *. rewrite Ha. split; [exact Hno|]. left.
        destruct Hshape as [-> | (pre & Hpre)]; [reflexivity|].
        exfalso. rewrite Hpre in Hs.
        assert (Hlen : List.length (split c (pre ++ String c h)) >= 2).
        { clear. induction pre as [|b pre IH]; simpl.
          - rewrite Ascii.eqb_refl. pose proof (split_nonempty c h).
            destruct (split c h); simpl; [congruence | lia].
          - destruct (Ascii.eqb b c).
            + pose proof (split_nonempty c (pre ++ String c h)).
              destruct (split c (pre ++ String c h)); simpl; [congruence|lia].
            + destruct (split c (pre ++ String c h)); simpl in *; lia. }
        rewrite Hs in Hlen. simpl in Hlen. lia.
      * change (last (String a h :: h' :: t) "") with (last (h' :: t) "").
        change (last (h :: h' :: t) "") with (last (h' :: t) "") in *.
        split; [exact Hno|]. right.
        destruct Hshape as [Heq | (pre & ->)].
        -- exfalso. rewrite Heq in Hs.
           rewrite (split_no_sep c _ Hno) in Hs. discriminate.
        -- exists (String a pre). reflexivity.
Qed.

End Splitting.

Section Paths.
Import PyStr PosixPath Publisher Report.
Local Open Scope string_scope.

Lemma clean_part_spec (x : string) :
  clean_part x = true ->
  keep_part x = true /\ contains slash x = false /\
  exists a x', x = String a x' /\ Ascii.eqb a slash = false.
Proof.
  unfold clean_part. intro H. apply andb_prop in H as [Hk Hc].
  apply negb_true_iff in Hc. repeat split; trivial.
  destruct x as [|a x']; [discriminate|].
  exists a, x'. split; [reflexivity|]. simpl in Hc.
  now apply orb_false_iff in Hc as [Ha _].
Qed.

Lemma join_cons (sep x : string) (y : string) (l : list string) :
  join sep (x :: y :: l) = x ++ sep ++ join sep (y :: l).
Proof. reflexivity. Qed.

Lemma join_snoc (sep : string) (l : list string) (x y : string) :
  join sep ((l ++ [x]) ++ [y])%list = join sep (l ++ [x])%list ++ sep ++ y.
Proof.
  induction l as [|a l IH]; [reflexivity|].
  change (((a :: l) ++ [x]) ++ [y])%list with (a :: (l ++ [x]) ++ [y])%list.
  change ((a :: l) ++ [x])%list with (a :: l ++ [x])%list.
  destruct ((l ++ [x]) ++ [y])%list as [|b r] eqn:E1;
    [now destruct l|].
  destruct (l ++ [x])%list as [|b' r'] eqn:E2; [now destruct l|].
  rewrite !join_cons, IH, !append_assoc. reflexivity.
Qed.

Lemma split_join (l : list string) :
  l <> [] ->
  Forall (fun x => clean_part x = true) l ->
  split slash (join "/" l) = l.
Proof.
  induction l as [|x l IH]; [congruence|]. intros _ Hl.
  inversion Hl as [|? ? Hx Hl']; subst.
  destruct (clean_part_spec x Hx) as (_ & Hno & _).
  destruct l as [|y l]; [now apply split_no_sep|].
  rewrite join_cons. change ("/" ++ join "/" (y :: l))
    with (String slash (join "/" (y :: l))).
  rewrite split_token_sep by assumption.
  now rewrite IH.
Qed.

Lemma filter_clean (l : list string) :
  Forall (fun x => clean_part x = true) l -> filter keep_part l = l.
Proof.
  induction 1 as [|x l Hx Hl IH]; simpl; [reflexivity|].
  destruct (clean_part_spec x Hx) as (-> & _). now rewrite IH.
Qed.

Lemma parse_root_relative (a : ascii) (s : string) :
  Ascii.eqb a slash = false -> parse_root (String a s) = "".
Proof. intro H. simpl. destruct s as [|b [|c s]]; now rewrite H. Qed.

Lemma parse_root_absolute (a : ascii) (s : string) :
  Ascii.eqb a slash = false -> parse_root (String slash (String a s)) = "/".
Proof. intro H. simpl. destruct s as [|c s]; now rewrite H. Qed.

(** Parsing a path written as clean components joined by slashes, with or
    without a leading slash, gives back the components. *)
Lemma Path_join (absolute : bool) (l : list string) :
  l <> [] ->
  Forall (fun x => clean_part x = true) l ->
  Path ((if absolute then "/" else "") ++ join "/" l)
  = mkPath (if absolute then "/" else "") l.
Proof.
  intros Hne Hl. unfold Path.
  assert (Hhead : exists a s, join "/" l = String a s /\
                              Ascii.eqb a slash = false).
  { destruct l as [|x l]; [congruence|]. inversion Hl as [|? ? Hx _]; subst.
    destruct (clean_part_spec x Hx) as (_ & _ & a & x' & -> & Ha).
    destruct l; simpl; eauto. }
  destruct Hhead as (a & s & Hj & Ha).
  destruct absolute; simpl append.
  - rewrite Hj, parse_root_absolute by assumption. rewrite <- Hj.
    simpl split. rewrite split_join by assumption.
    simpl. now rewrite filter_clean.
  - rewrite Hj, parse_root_relative by assumption. rewrite <- Hj.
    rewrite split_join by assumption. now rewrite filter_clean.
Qed.

Lemma basename_join (absolute : bool) (l : list string) (file : string) :
  Forall (fun x => clean_part x = true) (l ++ [file])%list ->
  basename ((if absolute then "/" else "") ++ join "/" (l ++ [file])%list)
  = file.
Proof.
  intro Hl. unfold basename, last_item.
  assert (Hne : (l ++ [file])%list <> []) by now destruct l.
  destruct absolute; simpl append.
  - simpl split. rewrite split_join by assumption.
    destruct (l ++ [file])%list eqn:E; [congruence|]. rewrite <- E.
    change (last ("" :: l ++ [file]) "") with
      (match (l ++ [file])%list with [] => "" | _ => last (l ++ [file]) "" end).
    rewrite E, <- E. apply last_last.
  - rewrite split_join by assumption. apply last_last.
Qed.

Lemma endswith_append (c : ascii) (a b : string) :
  b <> "" -> endswith c (a ++ b) = endswith c b.
Proof.
  intro Hb. induction a as [|x a IH]; [reflexivity|].
  simpl append. cbn [endswith]. rewrite IH.
  destruct (a ++ b) eqn:E; [|reflexivity].
  destruct a; simpl in E; [congruence | discriminate].
Qed.

Lemma endswith_no_sep (c : ascii) (s : string) :
  contains c s = false -> endswith c s = false.
Proof.
  induction s as [|a s IH]; [reflexivity|]. simpl.
  intro H. apply orb_false_iff in H as [Ha Hs].
  destruct s; [exact Ha | now apply IH].
Qed.

(** [os.path.join] of a directory that does not end in a slash and a
    relative path puts one slash between them. *)
Lemma join2_relative (dir_prefix d rel : string) :
  clean_part d = true -> startswith slash rel = false ->
  join2 (dir_prefix ++ d) rel = (dir_prefix ++ d) ++ "/" ++ rel.
Proof.
  intros Hd Hrel. unfold join2. rewrite Hrel.
  destruct (clean_part_spec d Hd) as (_ & Hno & a & d' & -> & _).
  rewrite endswith_append by discriminate.
  rewrite (endswith_no_sep _ _ Hno).
  destruct (String.eqb _ "") eqn:E; [|reflexivity].
  apply String.eqb_eq in E. destruct dir_prefix; discriminate.
Qed.

(** The asset directory of a scene saved as [.../d/sub/file]: the
    directory above the one that holds the scene, then
    [assets/{scene name}/modeling/]. *)
Lemma asset_dir_of_join (absolute : bool) (ds : list string)
    (d sub file : string) :
  Forall (fun x => clean_part x = true) (ds ++ [d; sub; file])%list ->
  let r := if absolute then "/" else "" in
  let scene_path := r ++ join "/" (ds ++ [d; sub; file])%list in
  scene_name_of scene_path = first_item (split "." file) /\
  asset_dir_of scene_path
  = Some (r ++ join "/" (ds ++ [d])%list ++ "/assets/"
            ++ first_item (split "." file) ++ "/modeling/").
Proof.
  intros Hl r scene_path.
  assert (Hname : scene_name_of scene_path = first_item (split "." file)).
  { unfold scene_name_of, scene_path, r.
    change (ds ++ [d; sub; file])%list with (ds ++ [d; sub] ++ [file])%list.
    rewrite app_assoc. rewrite basename_join; [reflexivity|].
    now rewrite <- app_assoc. }
  split; [exact Hname|].
  unfold asset_dir_of. rewrite Hname. unfold scene_path, r.
  rewrite Path_join; [|now destruct ds|assumption].
  unfold parents. cbn [parts root].
  rewrite length_app. cbn [List.length].
  replace (Nat.ltb 1 (List.length ds + 3)) with true
    by (symmetry; apply Nat.ltb_lt; lia).
  replace (List.length ds + 3 - 2) with (List.length ds + 1) by lia.
  change (ds ++ [d; sub; file])%list with (ds ++ [d] ++ [sub; file])%list.
  rewrite app_assoc, firstn_app.
  rewrite length_app. cbn [List.length].
  replace (List.length ds + 1 - (List.length ds + 1)) with 0 by lia.
  rewrite firstn_all2 by (rewrite length_app; simpl; lia).
  cbn [firstn]. rewrite app_nil_r.
  apply Forall_app in Hl as [Hds Hl]. inversion Hl as [|? ? Hd _]; subst.
  assert (Hstr : to_str (mkPath (if absolute then "/" else "") (ds ++ [d]))
                 = (if absolute then "/" else "") ++ join "/" (ds ++ [d])%list).
  { unfold to_str. cbn [root parts].
    destruct absolute; [reflexivity|]. now destruct ds. }
  rewrite Hstr. f_equal.
  assert (Hjoin : exists pre, join "/" (ds ++ [d])%list = pre ++ d).
  { destruct ds as [|x ds] using rev_ind; [now exists ""|].
    rewrite join_snoc. exists (join "/" (ds ++ [x])%list ++ "/").
    now rewrite append_assoc. }
  destruct Hjoin as (pre & Hpre). rewrite Hpre, <- append_assoc.
  rewrite join2_relative by (assumption || reflexivity).
  now rewrite !append_assoc.
Qed.

End Paths.

Section Directories.
Import PyStr PosixPath FileSys.
Local Open Scope list_scope.

Lemma is_file_files (k : loc) (fs fs' : FS) :
  files fs' = files fs -> is_file k fs' = is_file k fs.
Proof. unfold is_file. now intros ->. Qed.

Lemma is_dir_added (k d : loc) (fs : FS) :
  is_dir k fs = true -> is_dir k (mkFS (d :: dirs fs) (files fs)) = true.
Proof.
  unfold is_dir. destruct k; [reflexivity|]. cbn [existsb dirs]. intros ->.
  apply orb_true_r.
Qed.

Lemma is_dir_new (d : loc) (fs : FS) :
  is_dir d (mkFS (d :: dirs fs) (files fs)) = true.
Proof.
  unfold is_dir. destruct d; [reflexivity|]. cbn [existsb dirs].
  now rewrite loc_eqb_refl.
Qed.

(** Creating directories leaves the files alone and removes nothing. *)
Lemma mkdir_chain_keeps (rest : list string) (pre : loc) (fs fs' : FS) :
  mkdir_chain pre rest fs = Some fs' ->
  files fs' = files fs /\
  (forall k, is_dir k fs = true -> is_dir k fs' = true).
Proof.
  revert pre fs; induction rest as [|c rest IH]; intros pre fs; simpl.
  - intro H; injection H as <-. auto.
  - destruct (is_file (pre ++ [c]) fs); [discriminate|].
    intro H. apply IH in H as [Hfiles Hdirs].
    destruct (is_dir (pre ++ [c]) fs); [auto|].
    split; [exact Hfiles|]. intros k Hk. apply Hdirs.
    now apply is_dir_added.
Qed.

(** Afterwards the directory is there. *)
Lemma mkdir_chain_creates (rest : list string) (pre : loc) (fs fs' : FS) :
  is_dir pre fs = true ->
  mkdir_chain pre rest fs = Some fs' ->
  is_dir (pre ++ rest) fs' = true.
Proof.
  revert pre fs; induction rest as [|c rest IH]; intros pre fs Hpre; simpl.
  - intro H; injection H as <-. now rewrite app_nil_r.
  - destruct (is_file (pre ++ [c]) fs); [discriminate|].
    intro H. change (c :: rest) with ([c] ++ rest). rewrite app_assoc.
    revert H. apply IH.
    destruct (is_dir (pre ++ [c]) fs) eqn:E; [exact E | apply is_dir_new].
Qed.

(** Creating the directories a second time changes nothing and does not
    fail. *)
Lemma mkdir_chain_idempotent (rest : list string) (pre : loc) (fs fs' : FS) :
  mkdir_chain pre rest fs = Some fs' ->
  mkdir_chain pre rest fs' = Some fs'.
Proof.
  revert pre fs; induction rest as [|c rest IH]; intros pre fs; simpl.
  - reflexivity.
  - destruct (is_file (pre ++ [c]) fs) eqn:Hf; [discriminate|].
    intro H. destruct (mkdir_chain_keeps _ _ _ _ H) as [Hfiles Hdirs].
    assert (Hfiles' : files fs' = files fs).
    { rewrite Hfiles. now destruct (is_dir (pre ++ [c]) fs). }
    rewrite (is_file_files _ _ _ Hfiles'), Hf.
    assert (Hd : is_dir (pre ++ [c]) fs' = true).
    { apply Hdirs. destruct (is_dir (pre ++ [c]) fs) eqn:E;
        [exact E | apply is_dir_new]. }
    rewrite Hd. now apply IH in H.
Qed.

Lemma makedirs_exist_ok_idempotent (cwd : loc) (name : string) (fs fs' : FS) :
  makedirs_exist_ok cwd name fs = Some fs' ->
  makedirs_exist_ok cwd name fs' = Some fs' /\
  is_dir (resolve cwd (Path name)) fs' = true /\
  files fs' = files fs.
Proof.
  unfold makedirs_exist_ok. destruct (String.eqb name ""); [discriminate|].
  intro H. split; [now apply mkdir_chain_idempotent in H|]. split.
  - now apply (mkdir_chain_creates _ [] fs fs').
  - now apply mkdir_chain_keeps in H.
Qed.

End Directories.

Section Extract.
Import PyStr PosixPath FileSys Publisher Report.
Local Open Scope list_scope.

(** The Extract stage, in terms of the path computations. *)
Lemma Model_extract_assets_run (maya : Maya) (host : Host) (output : string)
    (st : State) :
  Model_extract_assets maya host output st
  = let st0 :=
      mkState (self st) (disk st) (stdout st ++ [StartingExport])
              (cmds_log st ++ [c_select (sel (self st)); c_file_sn])
              (posted st) in
    match asset_dir_of (file_sn maya) with
    | None => (Raise IndexError, st0)
    | Some asset_dir =>
        let named :=
          set_version (version_of (scene_name_of (file_sn maya)))
            (set_scene_name (scene_name_of (file_sn maya)) (self st)) in
        match makedirs_exist_ok (cwd host) asset_dir (disk st) with
        | None =>
            (Raise OSError,
             mkState named (disk st) (stdout st0) (cmds_log st0) (posted st))
        | Some fs =>
            let export_path :=
              join2 asset_dir (scene_name_of (file_sn maya)) in
            let exported :=
              cmds_log st0 ++ [c_file_export export_path output] in
            if export_ok maya export_path output then
              (Ok PyNone,
               mkState (set_obj_path export_path named) fs
                       (stdout st0 ++ [ExportDone]) exported (posted st))
            else
              (Raise RuntimeError,
               mkState (set_obj_path export_path named) fs
                       (stdout st0) exported (posted st))
        end
    end.
Proof.
  unfold Model_extract_assets, asset_dir_of, version_of, scene_name_of.
  unfold getattr, on_disk, set_self, get_self, print, cmds, bind, ret, raise.
  cbn [self disk stdout cmds_log posted].
  rewrite <- !app_assoc. cbn [app].
  destruct (parents (Path (file_sn maya)) 1) as [scene_dir|]; [|reflexivity].
  cbn [scene_name set_scene_name set_version self disk stdout cmds_log posted
       cls sel publish_api prefix obj_path scene version user].
  destruct (makedirs_exist_ok _ _ (disk st)) as [fs|]; [|reflexivity].
  cbn [scene_name set_scene_name set_version set_obj_path self disk stdout
       cmds_log posted cls sel publish_api prefix obj_path scene version user].
  destruct (export_ok maya _ output);
    cbn [self disk stdout cmds_log posted]; rewrite <- ?app_assoc;
    cbn [app]; reflexivity.
Qed.

End Extract.

Section ExtractProperty.
Import PyStr PosixPath FileSys Publisher Report.
Local Open Scope string_scope.

(** C1, as the code has it.  For a scene saved as [.../d/sub/file] the
    Extract stage takes as scene name the part of [file] before its first
    dot and as version the text after the last underscore of the scene
    name (the whole name when it has none).  The asset directory is
    [{root}/assets/{scene name}/modeling/] where [root] is the directory
    one level above the directory that holds the scene file, [.../d].
    The directory and its parents are created; creating it again neither
    fails nor changes the disk.  For
    [project/scenes/seq010/show_seq010_model_v002.ma] the directory is
    [project/scenes/assets/show_seq010_model_v002/modeling/] and the
    version [v002]. *)
Theorem C1_extract_version_and_asset_directory
    (maya : Maya) (host : Host) (output : string) (st : State)
    (absolute : bool) (ds : list string) (d sub file : string) (fs : FS)
    (Hclean : Forall (fun x => clean_part x = true)
                     (ds ++ [d; sub; file])%list)
    (Hscene : file_sn maya
              = (if absolute then "/" else "")
                  ++ join "/" (ds ++ [d; sub; file])%list)
    (Hmade : makedirs_exist_ok (cwd host)
               ((if absolute then "/" else "") ++ join "/" (ds ++ [d])%list
                  ++ "/assets/" ++ first_item (split "." file)
                  ++ "/modeling/")
               (disk st) = Some fs) :
  let scene_name' := first_item (split "." file) in
  let version' := last_item (split "_" scene_name') in
  let asset_dir :=
    (if absolute then "/" else "") ++ join "/" (ds ++ [d])%list
      ++ "/assets/" ++ scene_name' ++ "/modeling/" in
  let st' := snd (Model_extract_assets maya host output st) in
  (* what the stage derives *)
  asset_dir_of (file_sn maya) = Some asset_dir /\
  scene_name (self st') = Some scene_name' /\
  version (self st') = Some version' /\
  contains "_" version' = false /\
  (scene_name' = version' \/
   exists pre, scene_name' = pre ++ "_" ++ version') /\
  (* the directory *)
  disk st' = fs /\
  is_dir (resolve (cwd host) (Path asset_dir)) fs = true /\
  files fs = files (disk st) /\
  makedirs_exist_ok (cwd host) asset_dir fs = Some fs /\
  disk (snd (Model_extract_assets maya host output st')) = fs /\
  (* the worked example *)
  asset_dir_of "project/scenes/seq010/show_seq010_model_v002.ma"
  = Some "project/scenes/assets/show_seq010_model_v002/modeling/" /\
  version_of (scene_name_of "project/scenes/seq010/show_seq010_model_v002.ma")
  = "v002".
Proof.
  intros scene_name' version' asset_dir st'.
  destruct (asset_dir_of_join absolute ds d sub file Hclean) as [Hname Hdir].
  cbv zeta in Hname, Hdir. rewrite <- Hscene in Hname, Hdir.
  destruct (makedirs_exist_ok_idempotent _ _ _ _ Hmade)
    as (Hagain & Hthere & Hfiles).
  destruct (split_last_token "_" scene_name') as [Hno Hshape].
  assert (Hst' : self st' = set_obj_path (join2 asset_dir scene_name')
                              (set_version version'
                                 (set_scene_name scene_name' (self st)))
                 /\ disk st' = fs).
  { unfold st'. rewrite Model_extract_assets_run. cbv zeta.
    rewrite Hdir, Hmade. unfold version_of. rewrite Hname.
    destruct (export_ok maya _ output); split; reflexivity. }
  destruct Hst' as [Hself Hdisk].
  split; [exact Hdir|].
  split; [now rewrite Hself|].
  split; [now rewrite Hself|].
  split; [exact Hno|].
  split; [exact Hshape|].
  split; [exact Hdisk|].
  split; [exact Hthere|].
  split; [exact Hfiles|].
  split; [exact Hagain|].
  split; [|split; reflexivity].
  rewrite Model_extract_assets_run. cbv zeta.
  rewrite Hdir, Hdisk, Hagain.
  destruct (export_ok maya _ output); reflexivity.
Qed.

(** C1 as stated does not hold: on the path of its own example the stage
    goes one level up from the scene directory, not two, and ends in
    [project/scenes/assets/...], not in [project/assets/...]; and a
    basename with two dots is cut at its first dot, not at its
    extension. *)
Lemma C1_root_is_one_level_up :
  asset_dir_of "project/scenes/seq010/show_seq010_model_v002.ma"
  <> Some "project/assets/show_seq010_model_v002/modeling/"
  /\ spec_asset_dir "project/scenes/seq010/show_seq010_model_v002.ma"
     = Some "project/assets/show_seq010_model_v002/modeling/"
  /\ asset_dir_of "/home/artist/project/scenes/seq010/show_seq010_model_v002.ma"
     = Some "/home/artist/project/scenes/assets/show_seq010_model_v002/modeling/"
  /\ dirs (disk (snd (Model_extract_assets Demo.maya_clean Demo.host_unreachable
                        "OBJexport"
                        (Demo.collected ModelPublisher ["geo_hero_body"] None))))
     = [["home"; "artist"; "project"; "scenes"; "assets";
         "show_seq010_model_v002"; "modeling"];
        ["home"; "artist"; "project"; "scenes"; "assets";
         "show_seq010_model_v002"];
        ["home"; "artist"; "project"; "scenes"; "assets"];
        ["home"; "artist"; "project"; "scenes"];
        ["home"; "artist"; "project"];
        ["home"; "artist"];
        ["home"]]
  /\ scene_name_of "project/scenes/seq010/hero.v002.ma" = "hero".
Proof.
  split; [vm_compute; discriminate|].
  repeat split; vm_compute; reflexivity.
Qed.

End ExtractProperty.

(* ================================================================== *)
(** ** The properties with hypotheses, on the worked examples *)

Section Witnesses.
Import PyStr PosixPath FileSys Fmt Json Publisher Report.
Local Open Scope string_scope.

(** The scene of the example is saved as [project/scenes/seq010/...]:
    the hypotheses of C1 hold there and the asset directory is below
    [project/scenes]. *)
Lemma C1_extract_on_example :
  Forall (fun x => clean_part x = true)
         (["project"] ++ ["scenes"; "seq010"; "show_seq010_model_v002.ma"])%list
  /\ makedirs_exist_ok (cwd Demo.host_unreachable)
       "project/scenes/assets/show_seq010_model_v002/modeling/"
       (disk (Demo.collected ModelPublisher ["geo_hero_body"] None))
     = Some (disk Demo.extracted)
  /\ asset_dir_of (file_sn Demo.maya_clean)
     = Some "project/scenes/assets/show_seq010_model_v002/modeling/"
  /\ version (self (snd (Model_extract_assets Demo.maya_clean
                           Demo.host_unreachable "OBJexport"
                           (Demo.collected ModelPublisher ["geo_hero_body"]
                                           None))))
     = Some "v002".
Proof.
  assert (Hclean : Forall (fun x => clean_part x = true)
            (["project"] ++ ["scenes"; "seq010"; "show_seq010_model_v002.ma"])%list)
    by (repeat constructor).
  assert (Hmade : makedirs_exist_ok (cwd Demo.host_unreachable)
            "project/scenes/assets/show_seq010_model_v002/modeling/"
            (disk (Demo.collected ModelPublisher ["geo_hero_body"] None))
          = Some (disk Demo.extracted)) by reflexivity.
  split; [exact Hclean|]. split; [exact Hmade|].
  pose proof (C1_extract_version_and_asset_directory
                Demo.maya_clean Demo.host_unreachable "OBJexport"
                (Demo.collected ModelPublisher ["geo_hero_body"] None)
                false ["project"] "scenes" "seq010"
                "show_seq010_model_v002.ma" (disk Demo.extracted)
                Hclean eq_refl Hmade) as H.
  cbv zeta in H. destruct H as (Hdir & _ & Hver & _).
  split; [exact Hdir | exact Hver].
Defined.

(** [main] on a freshly built [ModelPublisher] with one object selected. *)
Lemma C2_main_on_example :
  cls (self (Demo.fresh ModelPublisher ["geo_hero_body"] None)) = ModelPublisher
  /\ sel (self (Demo.fresh ModelPublisher ["geo_hero_body"] None)) <> []
  /\ fst (main Demo.maya_clean Demo.host_unreachable
               (Demo.fresh ModelPublisher ["geo_hero_body"] None))
     = Raise TypeError.
Proof.
  assert (Hsel : sel (self (Demo.fresh ModelPublisher ["geo_hero_body"] None))
                 <> []) by discriminate.
  split; [reflexivity|]. split; [exact Hsel|].
  exact (f_equal fst
           (proj1 (C2_main_raises_TypeError
                     Demo.maya_clean Demo.host_unreachable
                     (Demo.fresh ModelPublisher ["geo_hero_body"] None)
                     eq_refl Hsel))).
Defined.

(** The history check on a clean object and one with a construction
    node. *)
Lemma C7_history_on_example :
  (forall obj,
      In obj (sel (self (Demo.fresh ModelPublisher ["geo_a"; "geo_b"] None))) ->
      listHistory_pdo Demo.maya_history obj <> Some [])
  /\ fst (check_history Demo.maya_history
            (Demo.fresh ModelPublisher ["geo_a"; "geo_b"] None))
     = Raise (PublishError (StillHistory ["geo_b"])).
Proof.
  assert (Hnone : forall obj,
             In obj (sel (self (Demo.fresh ModelPublisher ["geo_a"; "geo_b"]
                                           None))) ->
             listHistory_pdo Demo.maya_history obj <> Some []).
  { intros obj [<- | [<- | []]]; discriminate. }
  split; [exact Hnone|].
  exact (f_equal fst
           (proj1 (C7_check_history_aggregates Demo.maya_history
                     (Demo.fresh ModelPublisher ["geo_a"; "geo_b"] None)
                     Hnone))).
Defined.

(** Implement with the endpoint out of reach: the stage returns and the
    publisher is in the state computed for the example. *)
Lemma C9_implement_on_example :
  post Demo.host_unreachable (PIPELINE_DISCORD_BOT Demo.host_unreachable)
       (discord_message "show_seq010_model_v002" "v002" "modeling"
                        (getuser Demo.host_unreachable))
  = Some ConnectionError
  /\ Model_implement_assets Demo.host_unreachable "" Demo.extracted
     = (Ok PyNone, Demo.published).
Proof.
  split; [reflexivity|].
  exact (proj1 (proj2
    (C9_notification_failure_not_propagated
       Demo.host_unreachable "" Demo.extracted
       "show_seq010_model_v002" "v002"
       "project/scenes/assets/show_seq010_model_v002/modeling/show_seq010_model_v002_metadata.json"
       (disk Demo.published) (Some ConnectionError)
       eq_refl eq_refl eq_refl eq_refl eq_refl))).
Defined.

(** The record of the example. *)
Lemma C10_record_on_example :
  valid_datetime (now Demo.host_unreachable)
  /\ Model_implement_assets Demo.host_unreachable "" Demo.extracted
     = (Ok PyNone, Demo.published)
  /\ exists n v db_path q,
       scene_name (self Demo.extracted) = Some n /\
       version (self Demo.extracted) = Some v /\
       sidecar_path (obj_path (self Demo.extracted)) = Some db_path /\
       db_path = to_str q ++ "_metadata.json".
Proof.
  assert (Hdate : valid_datetime (now Demo.host_unreachable)).
  { unfold valid_datetime. simpl. lia. }
  assert (Hrun : Model_implement_assets Demo.host_unreachable "" Demo.extracted
                 = (Ok PyNone, Demo.published)) by reflexivity.
  split; [exact Hdate|]. split; [exact Hrun|].
  destruct (C10_publish_record Demo.host_unreachable "" Demo.extracted
              Demo.published PyNone Hrun Hdate)
    as (n & v & db_path & q & Hn & Hv & Hp & Hq & _).
  exists n, v, db_path, q. auto.
Defined.

End Witnesses.

(* ================================================================== *)
(** ** The Verify stage as a whole *)

Section VerifyStage.
Import PyStr Publisher Report Outcome.
Local Open Scope list_scope.
Variable maya : Maya.

Lemma find_none_all {A} (p : A -> bool) (l : list A) :
  find p l = None <-> forall x, In x l -> p x = false.
Proof.
  induction l as [|y l IH]; simpl; [tauto|].
  destruct (p y) eqn:Hy.
  - split; [discriminate|]. intro H. rewrite (H y) in Hy by now left.
    discriminate.
  - rewrite IH. split.
    + intros H x [<-|Hx]; auto.
    + intros H x Hx. apply H. now right.
Qed.

(** The UV loop in terms of [find]. *)
Lemma check_uvs_find (st : State) :
  exists cs,
    check_uvs maya st
    = (match find (no_uvs maya) (sel (self st)) with
       | Some obj => Raise (PublishError (NoUVs obj))
       | None => Ok tt
       end, log_cmds st cs)
    /\ Forall (fun c => is_object_query c = true) cs.
Proof.
  change (check_uvs maya st) with
    (for_each (sel (self st)) tt
       (fun _ obj =>
          bind (cmds (c_polyEvaluate_uv obj))
               (fun _ => if Z.eqb (polyEvaluate_uv maya obj) 0
                         then raise (PublishError (NoUVs obj)) else ret tt))
       st).
  destruct (first_failure (fun o => negb (no_uvs maya o)) (sel (self st)))
    as [Hall | (pre & a & post & Heq & Hpre & Ha)].
  - exists (map c_polyEvaluate_uv (sel (self st))).
    rewrite uv_loop_pass by assumption. split.
    + replace (find (no_uvs maya) (sel (self st))) with (@None string);
        [reflexivity|].
      symmetry. apply find_none_all. intros x Hx.
      rewrite forallb_forall in Hall. specialize (Hall x Hx).
      now apply negb_true_iff in Hall.
    + apply Forall_forall. intros c Hc. apply in_map_iff in Hc as (o & <- & _).
      reflexivity.
  - apply negb_false_iff in Ha. exists (map c_polyEvaluate_uv (pre ++ [a])).
    rewrite Heq, uv_loop_fail by assumption. split.
    + replace (find (no_uvs maya) (pre ++ a :: post)) with (Some a);
        [reflexivity|].
      clear Heq. induction pre as [|x pre IH]; simpl in *.
      * now rewrite Ha.
      * apply andb_prop in Hpre as [Hx Hpre]. apply negb_true_iff in Hx.
        rewrite Hx. now apply IH.
    + apply Forall_forall. intros c Hc. apply in_map_iff in Hc as (o & <- & _).
      reflexivity.
Qed.

Lemma verifying_log (st : State) (cs ds : list cmd) :
  log_cmds (verifying st cs) ds = verifying st (cs ++ ds).
Proof. unfold log_cmds, verifying. simpl. now rewrite app_assoc. Qed.

(** The stage, check by check. *)
Lemma Model_verify_assets_run (st : State) :
  exists cs,
    Model_verify_assets maya st
    = match scene (self st) with
      | None => (Raise (AttributeError "scene"), verifying st [])
      | Some sc =>
          match first_issue maya sc (sel (self st)) with
          | Some i => (Raise (PublishError i), verifying st cs)
          | None =>
              (Ok PyNone,
               mkState (set_prefix "geo" (self st)) (disk st)
                       (stdout st ++ [StartingModelingValidation; VerifyingDone])
                       (cmds_log st ++ cs) (posted st))
          end
      end
    /\ (forall sc, scene (self st) = Some sc ->
          (not_in_length (List.length (split "_" sc)) = true \/
           flat_map (naming_entries "geo") (sel (self st)) <> []) ->
          cs = [])
    /\ (forall sc, scene (self st) = Some sc ->
          (ngons_of maya (sel (self st)) <> [] \/
           filter (has_lamina maya) (ls_dag_mesh maya (sel (self st))) <> []) ->
          Forall (fun c => is_topology_cmd c = true) cs).
Proof.
  unfold Model_verify_assets.
  unfold bind at 1. unfold print at 1. cbv beta iota.
  unfold bind at 1. unfold set_self at 1. cbv beta iota.
  unfold bind at 1. unfold get_self at 1. cbv beta iota.
  cbn [self disk stdout cmds_log posted prefix set_prefix].
  unfold bind at 1. rewrite My_verify_assets_run.
  cbn [self disk stdout cmds_log posted prefix set_prefix scene sel].
  assert (Hv0 : forall a b c d e,
             mkState (set_prefix "geo" a) b (c ++ [StartingModelingValidation])
                     d e
             = verifying (mkState a b c d e) []).
  { intros. unfold verifying. simpl. now rewrite app_nil_r. }
  destruct st as [s d out lg ps]. cbn [self disk stdout cmds_log posted].
  rewrite Hv0.
  set (st := mkState s d out lg ps).
  destruct (scene s) as [sc|] eqn:Hsc.
  2:{ exists []. split; [reflexivity|]. split; intros ? [=]. }
  unfold first_issue.
  destruct (not_in_length (List.length (split "_" sc))) eqn:Hlen.
  { exists []. split; [reflexivity|]. split; [reflexivity|].
    intros. constructor. }
  destruct (flat_map (naming_entries "geo") (sel s)) as [|w ws] eqn:Hnames.
  2:{ exists []. split; [reflexivity|]. split; [reflexivity|].
      intros. constructor. }
  cbv beta iota.
  (* topology *)
  unfold bind at 1. rewrite check_topology_run.
  change (sel (self (verifying st []))) with (sel s).
  rewrite !verifying_log. cbn [app].
  assert (Htopo : Forall (fun c => is_topology_cmd c = true)
                         (ngon_probe maya (sel s))).
  { repeat constructor. }
  destruct (ngons_of maya (sel s)) as [|g gs] eqn:Hng.
  2:{ exists (ngon_probe maya (sel s)). split; [reflexivity|].
      split; [intros ? [= <-] [H|H]; congruence|]. intros. exact Htopo. }
  assert (Htopo' : Forall (fun c => is_topology_cmd c = true)
                          (ngon_probe maya (sel s) ++
                           map c_polyInfo_laminaFaces (ls_dag_mesh maya (sel s)))).
  { apply Forall_app. split; [exact Htopo|]. apply Forall_forall.
    intros c Hc. apply in_map_iff in Hc as (o & <- & _). reflexivity. }
  destruct (filter (has_lamina maya) (ls_dag_mesh maya (sel s)))
    as [|l ls] eqn:Hlam.
  2:{ eexists. split; [reflexivity|].
      split; [intros ? [= <-] [H|H]; congruence|]. intros. exact Htopo'. }
  (* transforms *)
  unfold bind at 1. rewrite check_transforms_run.
  change (sel (self (verifying st ?x))) with (sel s).
  rewrite !verifying_log.
  destruct (flat_map (transform_entry maya) (sel s)) as [|t ts] eqn:Htr.
  2:{ eexists. split; [reflexivity|].
      split; [intros ? [= <-] [H|H]; congruence|].
      intros ? [= <-] [H|H]; congruence. }
  (* history *)
  unfold bind at 1. rewrite check_history_run.
  change (sel (self (verifying st ?x))) with (sel s).
  rewrite !verifying_log.
  destruct (filter (has_history maya) (sel s)) as [|h hs] eqn:Hh.
  2:{ eexists. split; [reflexivity|].
      split; [intros ? [= <-] [H|H]; congruence|].
      intros ? [= <-] [H|H]; congruence. }
  (* UVs *)
  unfold bind at 1.
  destruct (check_uvs_find (verifying st
              (((ngon_probe maya (sel s) ++
                 map c_polyInfo_laminaFaces (ls_dag_mesh maya (sel s))) ++
                flat_map (fun obj => map (c_getAttr obj) (channels_read maya obj))
                         (sel s)) ++
               map c_listHistory (sel s)))) as (cs & Huv & _).
  rewrite Huv. change (sel (self (verifying st ?x))) with (sel s).
  rewrite !verifying_log.
  eexists. split.
  - destruct (find (no_uvs maya) (sel s)); [reflexivity|].
    unfold bind, print, ret, verifying. cbn.
    rewrite <- !app_assoc. reflexivity.
  - split; [intros ? [= <-] [H|H]; congruence|].
    intros ? [= <-] [H|H]; congruence.
Qed.

End VerifyStage.

Section VerifyProperties.
Import PyStr Publisher Report Outcome.
Local Open Scope list_scope.
Variable maya : Maya.

Lemma flat_map_nil_all {A B} (f : A -> list B) (l : list A) :
  flat_map f l = [] <-> forall x, In x l -> f x = [].
Proof.
  induction l as [|y l IH]; simpl; [tauto|].
  split.
  - intro H. apply app_eq_nil in H as [Hy Hl]. intros x [<-|Hx]; auto.
    now apply IH.
  - intro H. rewrite (H y) by now left. apply IH. auto.
Qed.

Lemma filter_nil_all {A} (p : A -> bool) (l : list A) :
  filter p l = [] <-> forall x, In x l -> p x = false.
Proof.
  induction l as [|y l IH]; simpl; [tauto|].
  destruct (p y) eqn:Hy.
  - split; [discriminate|]. intro H. rewrite (H y) in Hy by now left.
    discriminate.
  - rewrite IH. split.
    + intros H x [<-|Hx]; auto.
    + intros H x Hx. apply H. now right.
Qed.

Lemma naming_entries_nil (obj : string) :
  naming_entries "geo" obj = [] <-> well_named obj = true.
Proof.
  unfold naming_entries, well_named.
  destruct (bad_token_count obj); destruct (bad_prefix "geo" obj); simpl;
    split; congruence.
Qed.

(** X1. [ModelPublisher.verify_assets] runs the scene-name rule, the
    object names, the n-gons, the lamina faces, the transforms, the
    history and the UVs in this order, and what it raises is the issue of
    the first of them that fails: a later check cannot mask an earlier
    one.  Called before [collect_assets] it raises [AttributeError]. *)
Theorem verify_raises_first_failing_check (st : State) :
  fst (Model_verify_assets maya st)
  = match scene (self st) with
    | None => Raise (AttributeError "scene")
    | Some sc =>
        match first_issue maya sc (sel (self st)) with
        | Some i => Raise (PublishError i)
        | None => Ok PyNone
        end
    end.
Proof.
  destruct (Model_verify_assets_run maya st) as (cs & -> & _).
  destruct (scene (self st)); [|reflexivity].
  destruct (first_issue maya _ _); reflexivity.
Qed.

(** X2. Once the scene name is collected, the modeling Verify stage
    returns normally exactly when the scene name has 3 or 4 tokens, every
    selected object is named [geo_..] with 3 or 4 tokens, the meshes have
    neither n-gons nor lamina faces, every transform channel is within
    tolerance, no history query answers anything but [None], and every
    object has UVs. *)
Theorem verify_passes_iff (st : State) (sc : string)
    (Hscene : scene (self st) = Some sc) :
  fst (Model_verify_assets maya st) = Ok PyNone <->
  not_in_length (List.length (split "_" sc)) = false /\
  (forall obj, In obj (sel (self st)) -> well_named obj = true) /\
  ngons_of maya (sel (self st)) = [] /\
  (forall mesh, In mesh (ls_dag_mesh maya (sel (self st))) ->
                has_lamina maya mesh = false) /\
  (forall obj, In obj (sel (self st)) -> first_bad_channel maya obj = None) /\
  (forall obj, In obj (sel (self st)) -> listHistory_pdo maya obj = None) /\
  (forall obj, In obj (sel (self st)) -> polyEvaluate_uv maya obj <> 0%Z).
Proof.
  assert (Hout : fst (Model_verify_assets maya st)
                 = match first_issue maya sc (sel (self st)) with
                   | Some i => Raise (PublishError i)
                   | None => Ok PyNone
                   end).
  { destruct (Model_verify_assets_run maya st) as (cs & -> & _).
    rewrite Hscene. destruct (first_issue maya _ _); reflexivity. }
  rewrite Hout. unfold first_issue.
  assert (Hentry : forall obj,
             transform_entry maya obj = [] <-> first_bad_channel maya obj = None).
  { intro obj. unfold transform_entry.
    destruct (first_bad_channel maya obj); split; congruence. }
  assert (Hhist : forall obj,
             has_history maya obj = false <-> listHistory_pdo maya obj = None).
  { intro obj. unfold has_history.
    destruct (listHistory_pdo maya obj); split; congruence. }
  assert (Huv : forall obj,
             no_uvs maya obj = false <-> polyEvaluate_uv maya obj <> 0%Z).
  { intro obj. unfold no_uvs. apply Z.eqb_neq. }
  destruct (not_in_length _) eqn:Hlen.
  { split; [discriminate | intros (H & _); discriminate]. }
  destruct (flat_map (naming_entries "geo") (sel (self st))) eqn:Hnames.
  2:{ split; [discriminate|]. intros (_ & H & _). exfalso.
      assert (Hnil : flat_map (naming_entries "geo") (sel (self st)) = []).
      { apply flat_map_nil_all. intros x Hx. now apply naming_entries_nil, H. }
      congruence. }
  destruct (ngons_of maya (sel (self st))) eqn:Hng.
  2:{ split; [discriminate | intros (_ & _ & H & _); discriminate]. }
  destruct (filter (has_lamina maya) _) eqn:Hlam.
  2:{ split; [discriminate|]. intros (_ & _ & _ & H & _). exfalso.
      apply filter_nil_all in H. congruence. }
  destruct (flat_map (transform_entry maya) _) eqn:Htr.
  2:{ split; [discriminate|]. intros (_ & _ & _ & _ & H & _). exfalso.
      assert (Hnil : flat_map (transform_entry maya) (sel (self st)) = []).
      { apply flat_map_nil_all. intros x Hx. now apply Hentry, H. }
      congruence. }
  destruct (filter (has_history maya) _) eqn:Hh.
  2:{ split; [discriminate|]. intros (_ & _ & _ & _ & _ & H & _). exfalso.
      assert (Hnil : filter (has_history maya) (sel (self st)) = []).
      { apply filter_nil_all. intros x Hx. now apply Hhist, H. }
      congruence. }
  destruct (find (no_uvs maya) _) eqn:Hf.
  { split; [discriminate|]. intros (_ & _ & _ & _ & _ & _ & H). exfalso.
    assert (Hnone : find (no_uvs maya) (sel (self st)) = None).
    { apply find_none_all. intros x Hx. now apply Huv, H. }
    congruence. }
  split; [intros _ | reflexivity].
  split; [reflexivity|].
  split.
  { intros obj Hin. apply naming_entries_nil.
    now apply (proj1 (flat_map_nil_all _ _) Hnames). }
  split; [reflexivity|].
  split; [now apply filter_nil_all|].
  split.
  { intros obj Hin. apply Hentry.
    now apply (proj1 (flat_map_nil_all _ _) Htr). }
  split.
  { intros obj Hin. apply Hhist.
    now apply (proj1 (filter_nil_all _ _) Hh). }
  intros obj Hin. apply Huv. now apply (proj1 (find_none_all _ _) Hf).
Qed.

(** X3. The Verify stage only looks: it leaves the disk and the posted
    notifications alone and changes nothing of the publisher but the
    prefix, which it sets to ["geo"].  When it fails on a name no call to
    Maya has been made; when it fails on the topology no transform,
    history or UV query has been made. *)
Theorem verify_only_queries (st : State) :
  let st' := snd (Model_verify_assets maya st) in
  disk st' = disk st /\
  posted st' = posted st /\
  self st' = set_prefix "geo" (self st) /\
  exists cs,
    cmds_log st' = cmds_log st ++ cs /\
    (forall i, fst (Model_verify_assets maya st) = Raise (PublishError i) ->
               (exists sc, i = WrongFileName sc) \/
               (exists l, i = NamingStandard l) ->
               cs = []) /\
    (forall i, fst (Model_verify_assets maya st) = Raise (PublishError i) ->
               (exists l, i = NgonsAt l) \/ (exists l, i = OverlappingFaces l) ->
               existsb is_object_query cs = false).
Proof.
  destruct (Model_verify_assets_run maya st) as (cs & Hrun & Hname & Htopo).
  cbv zeta. rewrite Hrun.
  assert (Hquery : Forall (fun c => is_topology_cmd c = true) cs ->
                   existsb is_object_query cs = false).
  { clear. induction cs as [|c l IH]; intro H; [reflexivity|].
    inversion H as [|? ? Hc Hl]; subst. simpl. rewrite (IH Hl).
    destruct c; simpl in *; congruence. }
  destruct (scene (self st)) as [sc|] eqn:Hsc.
  2:{ repeat (split; [reflexivity|]). exists []. simpl.
      split; [reflexivity|]. split; intros i [=]. }
  specialize (Hname sc eq_refl). specialize (Htopo sc eq_refl).
  unfold first_issue in *.
  destruct (not_in_length _).
  { repeat (split; [reflexivity|]). exists cs. simpl.
    split; [reflexivity|]. split.
    - intros. apply Hname. now left.
    - intros i [= <-] [(l & [=]) | (l & [=])]. }
  destruct (flat_map (naming_entries "geo") _).
  2:{ repeat (split; [reflexivity|]). exists cs. simpl.
      split; [reflexivity|]. split.
      - intros. apply Hname. now right.
      - intros i [= <-] [(l' & [=]) | (l' & [=])]. }
  destruct (ngons_of maya _).
  2:{ repeat (split; [reflexivity|]). exists cs. simpl.
      split; [reflexivity|]. split.
      - intros i [= <-] [(l' & [=]) | (l' & [=])].
      - intros. apply Hquery, Htopo. now left. }
  destruct (filter (has_lamina maya) _).
  2:{ repeat (split; [reflexivity|]). exists cs. simpl.
      split; [reflexivity|]. split.
      - intros i [= <-] [(l' & [=]) | (l' & [=])].
      - intros. apply Hquery, Htopo. now right. }
  destruct (flat_map (transform_entry maya) _).
  2:{ repeat (split; [reflexivity|]). exists cs. simpl.
      split; [reflexivity|].
      split; intros i [= <-] [(l' & [=]) | (l' & [=])]. }
  destruct (filter (has_history maya) _).
  2:{ repeat (split; [reflexivity|]). exists cs. simpl.
      split; [reflexivity|].
      split; intros i [= <-] [(l' & [=]) | (l' & [=])]. }
  destruct (find (no_uvs maya) _).
  { repeat (split; [reflexivity|]). exists cs. simpl.
    split; [reflexivity|].
    split; intros i [= <-] [(l' & [=]) | (l' & [=])]. }
  repeat (split; [reflexivity|]). exists cs. simpl.
  split; [reflexivity|]. split; intros i [=].
Qed.

End VerifyProperties.

(* ================================================================== *)
(** ** Collect, and the names of hierarchical objects *)

Section CollectAndNames.
Import PyStr Publisher Report.
Local Open Scope list_scope.

(** A string that contains a separator splits into at least two tokens. *)
Lemma split_sep_two (c : ascii) (p s : string) :
  2 <= List.length (split c (p ++ String c s)).
Proof.
  induction p as [|b p IH]; simpl.
  - rewrite Ascii.eqb_refl. pose proof (split_nonempty c s).
    destruct (split c s); simpl; [congruence | lia].
  - destruct (Ascii.eqb b c).
    + pose proof (split_nonempty c (p ++ String c s)).
      destruct (split c (p ++ String c s)); simpl; [congruence | lia].
    + destruct (split c (p ++ String c s)); simpl in *; lia.
Qed.

(** The last token does not depend on what stands before the last
    separator. *)
Lemma last_token_after_sep (c : ascii) (p s : string) :
  last_item (split c (p ++ String c s)) = last_item (split c s).
Proof.
  unfold last_item. induction p as [|b p IH]; simpl.
  - rewrite Ascii.eqb_refl. pose proof (split_nonempty c s).
    now destruct (split c s).
  - pose proof (split_sep_two c p s) as Hlen.
    destruct (Ascii.eqb b c).
    + destruct (split c (p ++ String c s)) as [|h t]; [simpl in Hlen; lia|].
      exact IH.
    + destruct (split c (p ++ String c s)) as [|h [|h' t]];
        [simpl in Hlen; lia | simpl in Hlen; lia |].
      exact IH.
Qed.

(** X4. [collect_assets] refuses an empty selection before it asks Maya
    anything and leaves the publisher as it was.  Otherwise it asks once
    for the expanded file name and stores what follows its last slash
    (the whole name when it has none), extension included; nothing else
    of the publisher or of the world changes. *)
Theorem collect_assets_scene (maya : Maya) (st : State) :
  match sel (self st) with
  | [] => collect_assets maya st = (Raise (PublishError NoSelection), st)
  | _ :: _ =>
      let st' := snd (collect_assets maya st) in
      fst (collect_assets maya st) = Ok PyTrue /\
      (exists sc,
          scene (self st') = Some sc /\
          contains "/" sc = false /\
          (file_exn maya = sc \/
           exists dir, file_exn maya = (dir ++ "/" ++ sc)%string)) /\
      self st' = set_scene (last_item (split "/" (file_exn maya))) (self st) /\
      disk st' = disk st /\ posted st' = posted st /\
      cmds_log st' = cmds_log st ++ [c_file_exn]
  end.
Proof.
  rewrite collect_assets_run.
  destruct (sel (self st)); [reflexivity|]. cbv zeta. simpl.
  split; [reflexivity|]. split; [|repeat split].
  exists (last_item (split "/" (file_exn maya))).
  split; [reflexivity|]. apply split_last_token.
Qed.

(** X5. Only the leaf of a hierarchical name is checked: an object given
    by its path [group|...|leaf] gets as many entries in the offender
    list as the bare [leaf] would, each of them the full path. *)
Theorem naming_checks_leaf_only (prefix path leaf : string)
    (Hleaf : contains "|" leaf = false) :
  leaf_name (path ++ "|" ++ leaf)%string = leaf /\
  naming_entries prefix (path ++ "|" ++ leaf)%string
  = map (fun _ => (path ++ "|" ++ leaf)%string) (naming_entries prefix leaf).
Proof.
  assert (Hl : leaf_name (path ++ "|" ++ leaf)%string = leaf).
  { unfold leaf_name. change ("|" ++ leaf)%string with (String "|" leaf).
    rewrite last_token_after_sep. unfold last_item.
    now rewrite (split_no_sep _ _ Hleaf). }
  assert (Hl' : leaf_name leaf = leaf).
  { unfold leaf_name, last_item. now rewrite (split_no_sep _ _ Hleaf). }
  split; [exact Hl|].
  unfold naming_entries, bad_token_count, bad_prefix, tokens.
  rewrite Hl, Hl'.
  destruct (negb (Nat.eqb _ 3 || Nat.eqb _ 4));
    destruct (negb (String.eqb _ prefix)); reflexivity.
Qed.

(** X6. The offender list of the naming check holds selected objects
    only, at most two entries for each, and is empty exactly when every
    object has 3 or 4 tokens and starts with the prefix. *)
Theorem naming_offenders_bounds (prefix : string) (selection : list string) :
  (forall obj, In obj (flat_map (naming_entries prefix) selection) ->
               In obj selection /\
               (bad_token_count obj = true \/ bad_prefix prefix obj = true)) /\
  List.length (flat_map (naming_entries prefix) selection)
  <= 2 * List.length selection /\
  (flat_map (naming_entries prefix) selection = [] <->
   forall obj, In obj selection ->
               bad_token_count obj = false /\ bad_prefix prefix obj = false).
Proof.
  split; [|split].
  - intros obj H. apply in_flat_map in H as (x & Hx & Hin).
    unfold naming_entries in Hin.
    destruct (bad_token_count x) eqn:Hc; destruct (bad_prefix prefix x) eqn:Hp;
      simpl in Hin; repeat (destruct Hin as [<- | Hin]; [auto|]);
      contradiction.
  - induction selection as [|x l IH]; simpl; [lia|].
    rewrite length_app. unfold naming_entries at 1.
    destruct (bad_token_count x); destruct (bad_prefix prefix x); simpl; lia.
  - induction selection as [|x l IH]; simpl; [tauto|].
    split.
    + intro H. apply app_eq_nil in H as [Hx Hl].
      intros obj [<- | Hin]; [|now apply IH].
      unfold naming_entries in Hx.
      destruct (bad_token_count x); destruct (bad_prefix prefix x);
        simpl in Hx; try discriminate; auto.
    + intro H. destruct (H x) as [Hc Hp]; [now left|].
      unfold naming_entries at 1. rewrite Hc, Hp. simpl.
      apply IH. intros obj Hin. apply H. now right.
Qed.

End CollectAndNames.

(* ================================================================== *)
(** ** [main] *)

Section MainProperties.
Import PyStr Publisher Report.
Local Open Scope list_scope.
Variable maya : Maya.
Variable host : Host.

(** X7. On a publisher of the base class [main] collects, checks the
    names against the prefix the publisher was built with, and is done:
    its Extract and Implement do nothing, so the disk is untouched and
    nothing is posted.  It returns [True] when the selection is not
    empty, the scene file name has 3 or 4 tokens and no object offends;
    otherwise it prints the failure, warns and raises the [PublishError]
    of the stage that failed. *)
Theorem main_of_base_class (st : State)
    (Hcls : cls (self st) = MyPublisher) :
  let sc := last_item (split "/" (file_exn maya)) in
  let wrong_names := flat_map (naming_entries (prefix (self st)))
                              (sel (self st)) in
  let failed e s cs :=
    (Raise e,
     mkState s (disk st)
             (stdout st ++ StartingPublishing :: cs ++ [PublishFailed e])
             (cmds_log st ++
              (match cs with [] => [] | _ => [c_file_exn] end)
              ++ [c_warning_publish_failed e])
             (posted st)) in
  main maya host st
  = match sel (self st) with
    | [] => failed (PublishError NoSelection) (self st) []
    | _ :: _ =>
        if not_in_length (List.length (split "_" sc)) then
          failed (PublishError (WrongFileName sc)) (set_scene sc (self st))
                 [CollectingDone sc]
        else
          match wrong_names with
          | _ :: _ =>
              failed (PublishError (NamingStandard wrong_names))
                     (set_scene sc (self st)) [CollectingDone sc]
          | [] =>
              (Ok PyTrue,
               mkState (set_scene sc (self st)) (disk st)
                       (stdout st ++ [StartingPublishing; CollectingDone sc;
                                      SuccessfullyExported])
                       (cmds_log st ++
                        [c_file_exn; c_inViewMessage "Published Successfully!"])
                       (posted st))
          end
    end.
Proof.
  destruct st as [[c l a p op scn sn v u] d out lg ps]. simpl in Hcls.
  subst c. cbv zeta. cbn [self sel prefix disk stdout cmds_log posted].
  unfold main, try_except. unfold bind at 1. unfold print at 1.
  cbv beta iota. cbn [self sel prefix disk stdout cmds_log posted].
  unfold bind at 1. unfold call at 1. unfold bind at 1. unfold get_self at 1.
  cbv beta iota. cbn [self cls].
  rewrite collect_assets_run. cbn [self sel disk stdout cmds_log posted].
  destruct l as [|o l].
  { unfold bind, print, cmds, raise. cbn.
    rewrite <- !app_assoc. reflexivity. }
  cbv beta iota.
  unfold bind at 1. unfold get_self at 1. cbv beta iota.
  unfold bind at 1. unfold call at 1. unfold bind at 1. unfold get_self at 1.
  cbv beta iota. cbn [self cls prefix set_scene].
  rewrite My_verify_assets_run.
  cbn [self scene sel set_scene].
  destruct (not_in_length _).
  { unfold bind, print, cmds, raise. cbn.
    rewrite <- !app_assoc. reflexivity. }
  destruct (flat_map (naming_entries p) (o :: l)) as [|w ws].
  2:{ unfold bind, print, cmds, raise. cbn.
      rewrite <- !app_assoc. reflexivity. }
  unfold bind, call, get_self, My_extract_assets, My_implement_assets, print,
    cmds, ret. cbn. rewrite <- !app_assoc. reflexivity.
Qed.



End MainProperties.

(* ================================================================== *)
(** ** Extract: the scene path it needs, the paths it derives *)

Section ExtractEdges.
Import PyStr PosixPath FileSys Publisher Report.
Local Open Scope string_scope.

(** X9. A scene path with fewer than two components (an unsaved scene,
    whose path is empty, or a file directly under the root or the working
    directory) makes Extract raise [IndexError] at [parents[1]]: it has
    selected and asked for the path, and nothing else has happened, no
    attribute is set, no directory made, no export asked for. *)
Theorem extract_needs_a_project_directory
    (maya : Maya) (host : Host) (output : string) (st : State)
    (Hshort : List.length (parts (Path (file_sn maya))) < 2) :
  Model_extract_assets maya host output st
  = (Raise IndexError,
     mkState (self st) (disk st) (stdout st ++ [StartingExport])
             (cmds_log st ++ [c_select (sel (self st)); c_file_sn])
             (posted st)).
Proof.
  rewrite Model_extract_assets_run. cbv zeta.
  unfold asset_dir_of, parents.
  replace (Nat.ltb 1 (List.length (parts (Path (file_sn maya))))) with false
    by (symmetry; apply Nat.ltb_ge; lia).
  reflexivity.
Qed.







End ExtractEdges.

Section ExtractThenImplement.
Import PyStr PosixPath FileSys Fmt Json Publisher Report Outcome.
Local Open Scope string_scope.










End ExtractThenImplement.

(* ================================================================== *)
(** ** The history answers, and the identifier of a record *)

Section HistoryAndId.
Import PyStr Fmt Publisher Report.
Local Open Scope list_scope.

(** X11. The history check takes any answer but [None] as history: it
    passes exactly when every query answers [None], and an object whose
    query answers an empty list is reported like one with construction
    nodes. *)
Theorem check_history_flags_any_answer (maya : Maya) (st : State) :
  (fst (check_history maya st) = Ok tt <->
   forall obj, In obj (sel (self st)) -> listHistory_pdo maya obj = None) /\
  (forall obj, In obj (sel (self st)) ->
               listHistory_pdo maya obj = Some [] ->
               exists bad_obj,
                 fst (check_history maya st)
                 = Raise (PublishError (StillHistory bad_obj)) /\
                 In obj bad_obj).
Proof.
  rewrite check_history_run. cbn [fst].
  assert (Hmem : forall obj,
             In obj (filter (has_history maya) (sel (self st))) <->
             In obj (sel (self st)) /\ listHistory_pdo maya obj <> None).
  { intro obj. rewrite filter_In. unfold has_history.
    destruct (listHistory_pdo maya obj); split; intros [? ?]; split;
      congruence. }
  destruct (filter (has_history maya) (sel (self st))) as [|b bs] eqn:Hf.
  - split.
    + split; [intros _ | reflexivity]. intros obj Hin.
      destruct (listHistory_pdo maya obj) eqn:E; [|reflexivity].
      exfalso. apply (proj2 (Hmem obj)). split; congruence.
    + intros obj Hin Hempty. exfalso. apply (proj2 (Hmem obj)).
      split; congruence.
  - split.
    + split; [discriminate|]. intro Hall.
      destruct (proj1 (Hmem b)) as [Hin Hb]; [now left|].
      now specialize (Hall b Hin).
    + intros obj Hin Hempty. exists (b :: bs). split; [reflexivity|].
      apply Hmem. split; congruence.
Qed.

Local Open Scope string_scope.

Lemma upper_append (a b : string) : upper (a ++ b) = upper a ++ upper b.
Proof. induction a as [|x a IH]; simpl; [reflexivity|]. now rewrite IH. Qed.

Lemma upper_fixed_width (b : N) (ch : nat -> ascii) (w : nat) (n : N) :
  upper (fixed_width b ch w n)
  = fixed_width b (fun d => upper_char (ch d)) w n.
Proof.
  revert n; induction w as [|w IH]; intro n; cbn [fixed_width];
    [reflexivity|].
  now rewrite upper_append, IH.
Qed.

Lemma append_inj (a a' b b' : string) :
  String.length a = String.length a' ->
  a ++ b = a' ++ b' -> a = a' /\ b = b'.
Proof.
  revert a'; induction a as [|x a IH]; intros [|x' a'] Hlen; simpl in *;
    try discriminate; [auto|].
  intro H. injection H as -> H. injection Hlen as Hlen.
  destruct (IH a' Hlen H) as [-> ->]. auto.
Qed.

(** Numbers below [b ^ w] with the same [w] digits are equal, when the
    digit characters are distinct. *)
Lemma fixed_width_inj (b : N) (ch : nat -> ascii) (w : nat) (n m : N) :
  (1 < b)%N ->
  (forall d e, d < N.to_nat b -> e < N.to_nat b -> ch d = ch e -> d = e) ->
  (n < b ^ N.of_nat w)%N -> (m < b ^ N.of_nat w)%N ->
  fixed_width b ch w n = fixed_width b ch w m -> n = m.
Proof.
  intros Hb Hch. revert n m; induction w as [|w IH]; intros n m Hn Hm.
  - change (N.of_nat 0) with 0%N in *. rewrite N.pow_0_r in *. lia.
  - rewrite Nat2N.inj_succ, N.pow_succ_r' in *. cbn [fixed_width]. intro H.
    apply append_inj in H as [Hhigh Hlow];
      [|now rewrite !fixed_width_length].
    apply IH in Hhigh; try (apply N.Div0.div_lt_upper_bound; lia).
    injection Hlow as Hlow.
    assert (Hn' : (n mod b < b)%N) by (apply N.mod_upper_bound; lia).
    assert (Hm' : (m mod b < b)%N) by (apply N.mod_upper_bound; lia).
    apply Hch in Hlow; [|lia|lia].
    pose proof (N.div_mod n b). pose proof (N.div_mod m b).
    assert (n mod b = m mod b)%N by lia. nia.
Qed.

Lemma upper_hex_distinct (d e : nat) :
  d < 16 -> e < 16 ->
  upper_char (hex_char d) = upper_char (hex_char e) -> d = e.
Proof.
  intros Hd He.
  do 16 (destruct d as [|d]; [do 16 (destruct e as [|e];
    [first [reflexivity | discriminate]|]); lia|]).
  lia.
Qed.

(** X12. The identifier of a record is read off the 32 most significant
    bits of the 128-bit UUID, and off nothing else: two UUIDs get the same
    identifier exactly when they agree on those bits. *)
Theorem unique_hash_is_top_32_bits (u1 u2 : N)
    (H1 : (u1 < 2 ^ 128)%N) (H2 : (u2 < 2 ^ 128)%N) :
  unique_hash_of u1 = unique_hash_of u2 <-> (u1 / 2 ^ 96 = u2 / 2 ^ 96)%N.
Proof.
  rewrite !unique_hash_top_bits, !upper_fixed_width.
  change (16 ^ 24)%N with (2 ^ 96)%N.
  split; [|now intros ->].
  apply fixed_width_inj.
  - reflexivity.
  - intros d e Hd He. change (N.to_nat 16) with 16 in *.
    now apply upper_hex_distinct.
  - change (16 ^ N.of_nat 8)%N with (2 ^ 32)%N.
    apply N.Div0.div_lt_upper_bound.
    now change (2 ^ 96 * 2 ^ 32)%N with (2 ^ 128)%N.
  - change (16 ^ N.of_nat 8)%N with (2 ^ 32)%N.
    apply N.Div0.div_lt_upper_bound.
    now change (2 ^ 96 * 2 ^ 32)%N with (2 ^ 128)%N.
Qed.

End HistoryAndId.

(* ================================================================== *)
(** ** Implement: what it needs, what it leaves on disk *)

Section ImplementEdges.
Import PyStr PosixPath FileSys Fmt Json Publisher Report Outcome.
Local Open Scope string_scope.

(** X13. Implement needs the attributes Extract sets: on a publisher
    whose scene name or version is not set it raises [AttributeError]
    before anything is posted, printed or written. *)
Theorem implement_needs_extract (host : Host) (description : string)
    (st : State)
    (Hunset : scene_name (self st) = None \/ version (self st) = None) :
  exists attr,
    Model_implement_assets host description st
    = (Raise (AttributeError attr), st).
Proof.
  rewrite Model_implement_assets_run.
  destruct (scene_name (self st)); [|eauto].
  destruct (version (self st)); [|eauto].
  destruct Hunset; discriminate.
Qed.

(** X14. Extract assigns the scene name and the version before it makes
    the directory.  When the directory cannot be made, Extract raises
    [OSError] with the export path still empty; an Implement called on
    that publisher posts the notification of a successful publish and
    then raises [ValueError], having written nothing. *)
Theorem implement_after_failed_extract
    (maya : Maya) (host : Host) (output description : string) (st : State)
    (asset_dir : string)
    (Hfresh : obj_path (self st) = "")
    (Hdir : asset_dir_of (file_sn maya) = Some asset_dir)
    (Hblocked : makedirs_exist_ok (cwd host) asset_dir (disk st) = None) :
  let st1 := snd (Model_extract_assets maya host output st) in
  let st2 := snd (Model_implement_assets host description st1) in
  fst (Model_extract_assets maya host output st) = Raise OSError /\
  scene_name (self st1) = Some (scene_name_of (file_sn maya)) /\
  version (self st1) = Some (version_of (scene_name_of (file_sn maya))) /\
  obj_path (self st1) = "" /\
  fst (Model_implement_assets host description st1) = Raise ValueError /\
  posted st2
  = (posted st
     ++ [(PIPELINE_DISCORD_BOT host,
          discord_message (scene_name_of (file_sn maya))
                          (version_of (scene_name_of (file_sn maya)))
                          "modeling" (getuser host))])%list /\
  disk st2 = disk st.
Proof.
  cbv zeta. rewrite Model_extract_assets_run. cbv zeta.
  rewrite Hdir, Hblocked. cbn [fst snd self].
  split; [reflexivity|]. split; [reflexivity|]. split; [reflexivity|].
  split; [exact Hfresh|].
  rewrite Model_implement_assets_run.
  cbn [self scene_name version set_version set_scene_name obj_path disk
       posted stdout cmds_log].
  rewrite Hfresh. cbv zeta.
  change (sidecar_path "") with (@None string). cbn [fst snd posted disk].
  repeat split.
Qed.

Lemma filter_filter {A} (p : A -> bool) (l : list A) :
  filter p (filter p l) = filter p l.
Proof.
  induction l as [|x l IH]; simpl; [reflexivity|].
  destruct (p x) eqn:Hx; simpl; [now rewrite Hx, IH | exact IH].
Qed.

Lemma is_file_filtered (j k : loc) (files0 : list (loc * string)) :
  existsb (fun kv => loc_eqb j (fst kv)) files0 = false ->
  existsb (fun kv => loc_eqb j (fst kv))
          (filter (fun kv => negb (loc_eqb k (fst kv))) files0) = false.
Proof.
  induction files0 as [|x l IH]; simpl; [reflexivity|].
  intro H. apply orb_false_iff in H as [Hx Hl].
  destruct (negb (loc_eqb k (fst x))); simpl; [now rewrite Hx, IH | auto].
Qed.

(** Writing a file that was just written succeeds and replaces it. *)
Lemma write_file_again (cwd : loc) (path c1 c2 : string) (fs fs1 : FS) :
  write_file cwd path c1 fs = Some fs1 ->
  exists fs2,
    write_file cwd path c2 fs1 = Some fs2 /\
    dirs fs2 = dirs fs1 /\
    List.length (files fs2) = List.length (files fs1) /\
    files fs2
    = (resolve cwd (Path path), c2) :: List.tl (files fs1).
Proof.
  unfold write_file.
  destruct (_ || _); [discriminate|].
  set (k := resolve cwd (Path path)).
  destruct (is_dir k fs) eqn:Hd; [discriminate|].
  destruct (is_dir (removelast k) fs && negb (is_file (removelast k) fs))
    eqn:Hp; [|discriminate].
  intro H; injection H as <-.
  apply andb_prop in Hp as [Hpd Hpf]. apply negb_true_iff in Hpf.
  assert (Hk : k <> []) by (intros E; rewrite E in Hd; discriminate).
  assert (Hneq : loc_eqb (removelast k) k = false).
  { destruct (loc_eqb (removelast k) k) eqn:E; [|reflexivity].
    apply loc_eqb_eq in E. apply (f_equal (@List.length string)) in E.
    destruct k as [|x k] using rev_ind; [congruence|].
    rewrite removelast_last, length_app in E. simpl in E. lia. }
  assert (Hd1 : is_dir k (mkFS (dirs fs)
                  ((k, c1) :: filter (fun kv => negb (loc_eqb k (fst kv)))
                                     (files fs))) = false) by exact Hd.
  assert (Hpd1 : is_dir (removelast k) (mkFS (dirs fs)
                  ((k, c1) :: filter (fun kv => negb (loc_eqb k (fst kv)))
                                     (files fs))) = true) by exact Hpd.
  rewrite Hd1, Hpd1.
  unfold is_file at 1. cbn [files existsb fst]. rewrite Hneq.
  rewrite is_file_filtered by exact Hpf. cbn [orb negb andb].
  eexists. split; [reflexivity|]. cbn [dirs files filter fst List.tl].
  rewrite loc_eqb_refl. cbn [negb]. rewrite filter_filter.
  repeat split.
Qed.

(** X15. Publishing again replaces the record.  After an Implement that
    returned normally, a second Implement on the same publisher (with
    any description, and whatever the clock, the random source and the
    transport do by then) returns normally too; the disk then holds as
    many files as before, the sidecar carrying the new record. *)
Theorem implement_again_overwrites
    (host host2 : Host) (description description2 : string)
    (st st1 : State) (r : pyret)
    (Hcwd : cwd host2 = cwd host)
    (Hrun : Model_implement_assets host description st = (Ok r, st1)) :
  exists db_path n v,
    sidecar_path (obj_path (self st)) = Some db_path /\
    scene_name (self st) = Some n /\ version (self st) = Some v /\
    let st2 := snd (Model_implement_assets host2 description2 st1) in
    fst (Model_implement_assets host2 description2 st1) = Ok PyNone /\
    dirs (disk st2) = dirs (disk st1) /\
    List.length (files (disk st2)) = List.length (files (disk st1)) /\
    read_file (cwd host) db_path (disk st2)
    = Some (dumps_indent4
              (asset_data_of (unique_hash_of (uuid4 host2))
                             (strftime_Ymd_HMS (now host2)) n v
                             (obj_path (self st)) (getuser host2)
                             description2)) /\
    List.length (posted st2) = 2 + List.length (posted st).
Proof.
  rewrite Model_implement_assets_run in Hrun.
  destruct (scene_name (self st)) as [n|] eqn:Hn; [|discriminate].
  destruct (version (self st)) as [v|] eqn:Hv; [|discriminate].
  cbv zeta in Hrun.
  destruct (sidecar_path (obj_path (self st))) as [db_path|] eqn:Hp;
    [|discriminate].
  destruct (write_file (cwd host) db_path _ (disk st)) as [fs1|] eqn:Hw;
    [|discriminate].
  injection Hrun as _ <-.
  exists db_path, n, v. repeat (split; [reflexivity|]).
  cbv zeta. rewrite Model_implement_assets_run.
  cbn [self disk posted stdout cmds_log scene_name version obj_path set_user].
  rewrite Hn, Hv. cbv zeta. rewrite Hp, Hcwd.
  destruct (write_file_again (cwd host) db_path _
              (dumps_indent4
                 (asset_data_of (unique_hash_of (uuid4 host2))
                                (strftime_Ymd_HMS (now host2)) n v
                                (obj_path (self st)) (getuser host2)
                                description2))
              _ _ Hw) as (fs2 & Hw2 & Hdirs & Hlen & Hfiles).
  rewrite Hw2. cbn [fst snd disk posted].
  split; [reflexivity|]. split; [exact Hdirs|]. split; [exact Hlen|].
  split.
  - unfold read_file. rewrite Hfiles. cbn [find fst].
    now rewrite loc_eqb_refl.
  - rewrite !length_app. simpl. lia.
Qed.

End ImplementEdges.

(* ================================================================== *)
(** ** The text of the sidecar *)

Section SidecarText.
Import PyStr Fmt Json Publisher Report Outcome.
Local Open Scope string_scope.

Lemma count_char_append (c : ascii) (a b : string) :
  count_char c (a ++ b) = count_char c a + count_char c b.
Proof.
  induction a as [|x a IH]; simpl; [reflexivity|]. rewrite IH. lia.
Qed.

(** Every escape is printable ASCII. *)
Lemma escape_char_printable (a : ascii) :
  all_chars is_printable (escape_char a) = true.
Proof.
  destruct a as [[] [] [] [] [] [] [] []]; vm_compute; reflexivity.
Qed.

Lemma escape_printable (s : string) :
  all_chars is_printable (escape s) = true.
Proof.
  induction s as [|a s IH]; simpl; [reflexivity|].
  now rewrite all_chars_append, escape_char_printable, IH.
Qed.

Lemma quote_printable (s : string) : all_chars is_printable (quote s) = true.
Proof.
  unfold quote. cbn [append all_chars].
  now rewrite all_chars_append, escape_printable.
Qed.

Lemma printable_no_newline (s : string) :
  all_chars is_printable s = true -> count_char newline s = 0.
Proof.
  induction s as [|a s IH]; simpl; [reflexivity|].
  intro H. apply andb_prop in H as [Ha Hs]. rewrite (IH Hs).
  destruct (Ascii.eqb_spec a newline) as [->|]; [discriminate | reflexivity].
Qed.

Lemma quote_no_newline (s : string) : count_char newline (quote s) = 0.
Proof. apply printable_no_newline, quote_printable. Qed.

Lemma printable_or_newline (s : string) :
  all_chars is_printable s = true ->
  all_chars (fun a => is_printable a || Ascii.eqb a newline) s = true.
Proof.
  apply all_chars_impl. intros a ->. reflexivity.
Qed.

(** X16. Whatever the seven fields hold (quotes, backslashes, line breaks,
    characters beyond ASCII), the text written to the sidecar is nine
    lines of printable ASCII: a field cannot break the layout of the
    record. *)
Theorem sidecar_text_is_nine_ascii_lines (i d n v p u c : string) :
  count_char newline (dumps_indent4 (asset_data_of i d n v p u c)) = 8 /\
  all_chars (fun a => is_printable a || Ascii.eqb a newline)
            (dumps_indent4 (asset_data_of i d n v p u c)) = true.
Proof.
  rewrite dumps_asset_data. unfold pretty_record, record_line.
  cbn [map join fst snd]. split.
  - rewrite !count_char_append, !quote_no_newline. reflexivity.
  - rewrite !all_chars_append.
    rewrite !(printable_or_newline _ (quote_printable _)). reflexivity.
Qed.

End SidecarText.

(* ================================================================== *)
(** ** The publisher window *)

Section WindowProperties.
Import PyStr Publisher Report PublishUI.
Local Open Scope string_scope.

(** X17. [set_status] falls back to the idle colour for a status it does
    not know, and the search of the [except PublishError] clause for the
    running colour finds the indicators set to ["running"] and no
    others. *)
Theorem running_colour_marks_running_only (status : string) :
  found "#FFD700" (style_sheet status) = String.eqb status "running" /\
  (status <> "idle" -> status <> "running" -> status <> "success" ->
   status <> "fail" -> style_sheet status = style_sheet "idle").
Proof.
  unfold style_sheet, colors_get.
  destruct (String.eqb_spec status "idle") as [->|Hi];
    [split; [reflexivity|congruence]|].
  destruct (String.eqb_spec status "running") as [->|Hr];
    [split; [reflexivity|congruence]|].
  destruct (String.eqb_spec status "success") as [->|Hs];
    [split; [reflexivity|congruence]|].
  destruct (String.eqb_spec status "fail") as [->|Hf];
    [split; [reflexivity|congruence]|].
  split; reflexivity.
Qed.

Variable maya : Maya.
Variable host : Host.

(** The [except] clauses, on a window whose lights are known. *)
Lemma fail_running_lights (a b c d : string) l p bx :
  fail_running (mkWindow a b c d l p bx)
  = mkWindow (if found "#FFD700" a then style_sheet "fail" else a)
             (if found "#FFD700" b then style_sheet "fail" else b)
             (if found "#FFD700" c then style_sheet "fail" else c)
             (if found "#FFD700" d then style_sheet "fail" else d)
             l p bx.
Proof.
  unfold fail_running, steps. cbn [fold_left].
  unfold indicator, set_status. cbn [step_c step_v step_e step_i log_output printed boxes].
  destruct (found "#FFD700" a); cbn [step_c step_v step_e step_i log_output printed boxes];
  destruct (found "#FFD700" b); cbn [step_c step_v step_e step_i log_output printed boxes];
  destruct (found "#FFD700" c); cbn [step_c step_v step_e step_i log_output printed boxes];
  destruct (found "#FFD700" d); reflexivity.
Qed.

(** The [try] block: how far it gets, and the window it leaves. *)
Lemma run_publish_try_run (output_format : string) (w : Window) (st0 : State) :
  let green := style_sheet "success" in
  let yellow := style_sheet "running" in
  let ok t := ("#88ff88", t) in
  let r1 := call maya host m_collect_assets [] st0 in
  let r2 := call maya host m_verify_assets [] (snd r1) in
  let r3 := call maya host m_extract_assets [output_format] (snd r2) in
  let r4 := call maya host m_implement_assets [] (snd r3) in
  let path := obj_path (self (snd r3)) in
  let l := log_output w in
  run_publish_try maya host output_format (w, st0)
  = match fst r1 with
    | Raise e =>
        (Raise e,
         (mkWindow yellow (step_v w) (step_e w) (step_i w) l (printed w)
                   (boxes w), snd r1))
    | Ok _ =>
    match fst r2 with
    | Raise e =>
        (Raise e,
         (mkWindow green yellow (step_e w) (step_i w)
                   (l ++ [ok CollectSuccessful])%list (printed w) (boxes w),
          snd r2))
    | Ok _ =>
    match fst r3 with
    | Raise e =>
        (Raise e,
         (mkWindow green green yellow (step_i w)
                   (l ++ [ok CollectSuccessful; ok VerificationPassed])%list
                   (printed w) (boxes w),
          snd r3))
    | Ok _ =>
    match fst r4 with
    | Raise e =>
        (Raise e,
         (mkWindow green green green yellow
                   (l ++ [ok CollectSuccessful; ok VerificationPassed;
                          ok (ExportedTo path output_format)])%list
                   (printed w ++ [path])%list (boxes w),
          snd r4))
    | Ok _ =>
        (Ok tt,
         (mkWindow green green green green
                   (l ++ [ok CollectSuccessful; ok VerificationPassed;
                          ok (ExportedTo path output_format);
                          ok NotificationSent])%list
                   (printed w ++ [path])%list
                   (boxes w ++ ["Asset Published Successfully!"])%list,
          snd r4))
    end end end end.
Proof.
  cbv zeta. destruct w as [a b c d l p bx].
  unfold run_publish_try, ui_bind, on_window, on_publisher.
  cbv beta iota zeta delta [write_log set_status step_c step_v step_e step_i
                            log_output printed boxes fst snd].
  destruct (call maya host m_collect_assets [] st0) as [[v1|e1] st1];
    cbv beta iota delta [fst snd]; [|reflexivity].
  destruct (call maya host m_verify_assets [] st1) as [[v2|e2] st2];
    cbv beta iota delta [fst snd]; [|reflexivity].
  destruct (call maya host m_extract_assets [output_format] st2)
    as [[v3|e3] st3]; cbv beta iota delta [fst snd];
    [|now rewrite <- app_assoc].
  destruct (call maya host m_implement_assets [] st3) as [[v4|e4] st4];
    cbv beta iota delta [fst snd]; now rewrite <- !app_assoc.
Qed.

Lemma reset_ui_run (w : Window) :
  reset_ui w
  = mkWindow (style_sheet "idle") (style_sheet "idle") (style_sheet "idle")
             (style_sheet "idle") [] (printed w) (boxes w).
Proof. destruct w. reflexivity. Qed.

Lemma found_running : found "#FFD700" (style_sheet "running") = true.
Proof. reflexivity. Qed.
Lemma found_success : found "#FFD700" (style_sheet "success") = false.
Proof. reflexivity. Qed.
Lemma found_idle : found "#FFD700" (style_sheet "idle") = false.
Proof. reflexivity. Qed.

(** The [except] clauses on a window whose lights are known. *)
Ltac handled :=
  unfold ui_bind, on_window, on_publisher;
  cbv beta iota zeta delta [fst snd];
  rewrite ?fail_running_lights;
  rewrite ?found_running, ?found_success, ?found_idle;
  unfold write_log, cmds, warned, error_entries, bad_light;
  cbv beta iota zeta delta [step_c step_v step_e step_i log_output
                            printed boxes fst snd];
  cbn [app]; reflexivity.

(** X18. [run_publish] never lets an exception out, and the window tells
    how far the publish got.  With [r1] .. [r4] the outcomes of the four
    stage calls, each on the world the one before left: the stages that
    returned are green and logged; the stage that raised a [PublishError]
    is red and the error goes to [cmds.warning], one that raised anything
    else stays yellow; the stages after it stay grey and are never
    called; the message box opens only after all four.  The lights and
    the log of an earlier run leave no trace.  The green entry of the
    last stage announces a sent notification whatever the transport
    did. *)
Theorem run_publish_lights (selection : list string) (output_format : string)
    (w : Window) (st : State) :
  let green := style_sheet "success" in
  let grey := style_sheet "idle" in
  let ok t := ("#88ff88", t) in
  let st0 := mkState (init ModelPublisher selection
                           "http://shotgrid.api.link" None)
                     (disk st) (stdout st) (cmds_log st ++ [c_ls_sl])%list
                     (posted st) in
  let r1 := call maya host m_collect_assets [] st0 in
  let r2 := call maya host m_verify_assets [] (snd r1) in
  let r3 := call maya host m_extract_assets [output_format] (snd r2) in
  let r4 := call maya host m_implement_assets [] (snd r3) in
  let path := obj_path (self (snd r3)) in
  run_publish maya host selection output_format (w, st)
  = (Ok tt,
     match fst r1 with
     | Raise e =>
         (mkWindow (bad_light e) grey grey grey (error_entries e)
                   (printed w) (boxes w),
          warned e (snd r1))
     | Ok _ =>
     match fst r2 with
     | Raise e =>
         (mkWindow green (bad_light e) grey grey
                   (ok CollectSuccessful :: error_entries e)%list
                   (printed w) (boxes w),
          warned e (snd r2))
     | Ok _ =>
     match fst r3 with
     | Raise e =>
         (mkWindow green green (bad_light e) grey
                   (ok CollectSuccessful :: ok VerificationPassed
                      :: error_entries e)%list
                   (printed w) (boxes w),
          warned e (snd r3))
     | Ok _ =>
     match fst r4 with
     | Raise e =>
         (mkWindow green green green (bad_light e)
                   (ok CollectSuccessful :: ok VerificationPassed
                      :: ok (ExportedTo path output_format)
                      :: error_entries e)%list
                   (printed w ++ [path])%list (boxes w),
          warned e (snd r4))
     | Ok _ =>
         (mkWindow green green green green
                   [ok CollectSuccessful; ok VerificationPassed;
                    ok (ExportedTo path output_format); ok NotificationSent]
                   (printed w ++ [path])%list
                   (boxes w ++ ["Asset Published Successfully!"])%list,
          snd r4)
     end end end end).
Proof.
  cbv zeta. unfold run_publish. cbv beta iota zeta delta [fst snd].
  rewrite run_publish_try_run. cbv zeta. rewrite reset_ui_run.
  cbv beta iota delta [step_c step_v step_e step_i log_output printed boxes].
  destruct (call maya host m_collect_assets [] _) as [[v1|e1] st1];
    cbv beta iota delta [fst snd]; [|destruct e1; handled].
  destruct (call maya host m_verify_assets [] st1) as [[v2|e2] st2];
    cbv beta iota delta [fst snd]; [|destruct e2; handled].
  destruct (call maya host m_extract_assets [output_format] st2)
    as [[v3|e3] st3]; cbv beta iota delta [fst snd];
    [|destruct e3; handled].
  destruct (call maya host m_implement_assets [] st3) as [[v4|e4] st4];
    cbv beta iota delta [fst snd]; [|destruct e4; handled].
  reflexivity.
Qed.

End WindowProperties.

(* ================================================================== *)
(** ** Further properties with hypotheses, on the worked examples *)

Section MoreWitnesses.
Import PyStr PosixPath FileSys Fmt Json Publisher Report Outcome.
Local Open Scope string_scope.

(** The clean scene passes Verify, so its one object is well named. *)
Lemma verify_passes_on_example :
  scene (self (Demo.collected ModelPublisher ["geo_hero_body"] None))
  = Some "show_seq010_model_v002.ma"
  /\ fst (Model_verify_assets Demo.maya_clean
            (Demo.collected ModelPublisher ["geo_hero_body"] None))
     = Ok PyNone
  /\ forall obj,
       In obj (sel (self (Demo.collected ModelPublisher ["geo_hero_body"]
                                         None))) ->
       well_named obj = true.
Proof.
  assert (Hrun : fst (Model_verify_assets Demo.maya_clean
                        (Demo.collected ModelPublisher ["geo_hero_body"] None))
                 = Ok PyNone) by reflexivity.
  split; [reflexivity|]. split; [exact Hrun|].
  exact (proj1 (proj2 (proj1 (verify_passes_iff Demo.maya_clean
                                (Demo.collected ModelPublisher
                                                ["geo_hero_body"] None)
                                "show_seq010_model_v002.ma" eq_refl)
                             Hrun))).
Defined.

(** An object inside two groups. *)
Lemma naming_leaf_on_example :
  contains "|" "geo_hero_body" = false
  /\ leaf_name "assets_grp|hero_grp|geo_hero_body" = "geo_hero_body".
Proof.
  split; [reflexivity|].
  exact (proj1 (naming_checks_leaf_only "geo" "assets_grp|hero_grp"
                                        "geo_hero_body" eq_refl)).
Defined.

(** [main] on a publisher of the base class. *)
Lemma main_of_base_class_on_example :
  cls (self (Demo.fresh MyPublisher ["geo_hero_body"] None)) = MyPublisher
  /\ fst (main Demo.maya_clean Demo.host_unreachable
               (Demo.fresh MyPublisher ["geo_hero_body"] None))
     = Ok PyTrue.
Proof.
  split; [reflexivity|].
  exact (f_equal fst
           (main_of_base_class Demo.maya_clean Demo.host_unreachable
              (Demo.fresh MyPublisher ["geo_hero_body"] None) eq_refl)).
Defined.

(** Extract on a scene that was never saved. *)
Lemma extract_unsaved_on_example :
  List.length (parts (Path (file_sn Demo2.maya_unsaved))) < 2
  /\ fst (Model_extract_assets Demo2.maya_unsaved Demo.host_unreachable
            "OBJexport"
            (Demo.collected ModelPublisher ["geo_hero_body"] None))
     = Raise IndexError.
Proof.
  assert (Hshort : List.length (parts (Path (file_sn Demo2.maya_unsaved))) < 2)
    by (repeat constructor).
  split; [exact Hshort|].
  exact (f_equal fst
           (extract_needs_a_project_directory Demo2.maya_unsaved
              Demo.host_unreachable "OBJexport"
              (Demo.collected ModelPublisher ["geo_hero_body"] None) Hshort)).
Defined.


(** Two UUIDs with the same first eight hexadecimal digits. *)
Lemma unique_hash_on_example :
  (Demo2.uuid_a < 2 ^ 128)%N /\ (Demo2.uuid_b < 2 ^ 128)%N
  /\ Demo2.uuid_a <> Demo2.uuid_b
  /\ unique_hash_of Demo2.uuid_a = unique_hash_of Demo2.uuid_b.
Proof.
  assert (Ha : (Demo2.uuid_a < 2 ^ 128)%N) by reflexivity.
  assert (Hb : (Demo2.uuid_b < 2 ^ 128)%N) by reflexivity.
  split; [exact Ha|]. split; [exact Hb|]. split; [discriminate|].
  exact (proj2 (unique_hash_is_top_32_bits Demo2.uuid_a Demo2.uuid_b Ha Hb)
               eq_refl).
Defined.

(** Implement on a publisher that has only collected. *)
Lemma implement_needs_extract_on_example :
  scene_name (self (Demo.collected ModelPublisher ["geo_hero_body"] None))
  = None
  /\ exists attr,
       Model_implement_assets Demo.host_unreachable ""
         (Demo.collected ModelPublisher ["geo_hero_body"] None)
       = (Raise (AttributeError attr),
          Demo.collected ModelPublisher ["geo_hero_body"] None).
Proof.
  split; [reflexivity|].
  exact (implement_needs_extract Demo.host_unreachable ""
           (Demo.collected ModelPublisher ["geo_hero_body"] None)
           (or_introl eq_refl)).
Defined.

(** A file where the project directory should be. *)
Lemma implement_after_failed_extract_on_example :
  makedirs_exist_ok (cwd Demo.host_unreachable)
    "project/scenes/assets/show_seq010_model_v002/modeling/"
    (disk Demo2.collected_blocked) = None
  /\ fst (Model_extract_assets Demo.maya_clean Demo.host_unreachable
            "OBJexport" Demo2.collected_blocked)
     = Raise OSError
  /\ fst (Model_implement_assets Demo.host_unreachable ""
            (snd (Model_extract_assets Demo.maya_clean Demo.host_unreachable
                    "OBJexport" Demo2.collected_blocked)))
     = Raise ValueError.
Proof.
  assert (Hblocked : makedirs_exist_ok (cwd Demo.host_unreachable)
            "project/scenes/assets/show_seq010_model_v002/modeling/"
            (disk Demo2.collected_blocked) = None) by reflexivity.
  split; [exact Hblocked|].
  pose proof (implement_after_failed_extract Demo.maya_clean
                Demo.host_unreachable "OBJexport" ""
                Demo2.collected_blocked
                "project/scenes/assets/show_seq010_model_v002/modeling/"
                eq_refl eq_refl Hblocked) as H.
  cbv zeta in H. destruct H as (H1 & _ & _ & _ & H2 & _).
  split; [exact H1 | exact H2].
Defined.

(** Publishing the worked example a second time. *)
Lemma implement_again_on_example :
  Model_implement_assets Demo.host_unreachable "" Demo.extracted
  = (Ok PyNone, Demo.published)
  /\ exists db_path n v,
       sidecar_path (obj_path (self Demo.extracted)) = Some db_path /\
       scene_name (self Demo.extracted) = Some n /\
       version (self Demo.extracted) = Some v /\
       fst (Model_implement_assets Demo.host_unreachable "second pass"
                                   Demo.published) = Ok PyNone.
Proof.
  assert (Hrun : Model_implement_assets Demo.host_unreachable "" Demo.extracted
                 = (Ok PyNone, Demo.published)) by reflexivity.
  split; [exact Hrun|].
  destruct (implement_again_overwrites Demo.host_unreachable
              Demo.host_unreachable "" "second pass" Demo.extracted
              Demo.published PyNone eq_refl Hrun)
    as (db_path & n & v & Hp & Hn & Hv & H).
  cbv zeta in H. destruct H as (Hok & _).
  exists db_path, n, v. auto.
Defined.

End MoreWitnesses.
